(** * CalorieWise: the nutrition calculator of [backend/calculator.py]

    A shallow embedding of [CalorieCalculator] and the properties that the
    specification states about it.

    Python numbers are modelled as they are at run time: an [int] is an
    unbounded integer ([Z]) and a [float] is an IEEE 754 binary64 value
    ([spec_float] at precision 53 and maximal exponent 1024, computed by the
    reference operations of [SpecFloat]).  Operations that can raise return
    in the error monad [result]. *)

From Stdlib Require Import ZArith Lia Bool Ascii String.
From Stdlib Require Import Floats.SpecFloat.
From stdpp Require Import base option gmap strings.

Local Open Scope Z_scope.

(** ** Exceptions and the error monad *)

Inductive exn : Type :=
  | ZeroDivisionError
  | OverflowError
  | ValueError
  | KeyError (key : string).

Inductive result (A : Type) : Type :=
  | Ok (a : A)
  | Raise (e : exn).

Arguments Ok {A} a.
Arguments Raise {A} e.

#[global] Instance result_ret : MRet result := fun A a => Ok a.
#[global] Instance result_bind : MBind result := fun A B k r =>
  match r with
  | Ok a => k a
  | Raise e => Raise e
  end.

Definition returns {A} (r : result A) : Prop := exists a, r = Ok a.
Definition raises {A} (r : result A) : Prop := exists e, r = Raise e.

(** ** Binary64 floating point *)

Module F64.

Definition prec : Z := 53.
Definition emax : Z := 1024.

Abbreviation float := spec_float.

Definition add : float -> float -> float := SFadd prec emax.
Definition sub : float -> float -> float := SFsub prec emax.
Definition mul : float -> float -> float := SFmul prec emax.
Definition div : float -> float -> float := SFdiv prec emax.

Definition is_nan (f : float) : bool :=
  match f with S754_nan => true | _ => false end.
Definition is_inf (f : float) : bool :=
  match f with S754_infinity _ => true | _ => false end.
Definition is_zero (f : float) : bool :=
  match f with S754_zero _ => true | _ => false end.

(** An integer taken as an unrounded binary number [z * 2^0]. The division
    and normalisation algorithms of [SpecFloat] accept any mantissa, so this
    is how exact integers enter a correctly rounded operation. *)
Definition raw_of_Z (z : Z) : float :=
  match z with
  | Z0 => S754_zero false
  | Zpos p => S754_finite false p 0
  | Zneg p => S754_finite true p 0
  end.

(** The float nearest to an integer (ties to even); infinite when the
    integer is beyond the binary64 range. *)
Definition of_Z (z : Z) : float := binary_normalize prec emax z 0 false.

(** The float nearest to the rational [n / d], for [d <> 0]; a zero
    quotient takes the sign of [d]. *)
Definition of_ratio (n d : Z) : float := div (raw_of_Z n) (raw_of_Z d).

(** A decimal literal [digits * 10^-scale], as the Python parser reads it:
    the nearest float. [decimal 625 2] is [6.25]. *)
Definition decimal (digits : Z) (scale : Z) : float :=
  of_ratio digits (10 ^ scale).

(** Rounding of the rational [n / d] ([d > 0]) to the nearest integer, ties
    to the even one. *)
Definition round_half_even (n d : Z) : Z :=
  let q := n / d in
  let r := n mod d in
  match 2 * r ?= d with
  | Lt => q
  | Gt => q + 1
  | Eq => if Z.even q then q else q + 1
  end.

(** Exact comparison of finite values with NaN unordered; the sign and
    magnitude of a finite float [(-1)^s * m * 2^e] are compared with those of
    the other by scaling both to a common exponent. *)
Definition scaled (f : float) (e0 : Z) : Z :=
  match f with
  | S754_finite s m e => (if s then Z.neg m else Z.pos m) * 2 ^ (e - e0)
  | _ => 0
  end.

Definition exponent (f : float) : Z :=
  match f with S754_finite _ _ e => e | _ => 0 end.

Definition compare (x y : float) : option comparison :=
  match x, y with
  | S754_nan, _ | _, S754_nan => None
  | S754_infinity sx, S754_infinity sy =>
      Some (match sx, sy with
            | true, false => Lt
            | false, true => Gt
            | _, _ => Eq
            end)
  | S754_infinity sx, _ => Some (if sx then Lt else Gt)
  | _, S754_infinity sy => Some (if sy then Gt else Lt)
  | _, _ =>
      let e0 := Z.min (exponent x) (exponent y) in
      Some (scaled x e0 ?= scaled y e0)
  end.

Definition ltb (x y : float) : bool :=
  match compare x y with Some Lt => true | _ => false end.
Definition leb (x y : float) : bool :=
  match compare x y with Some (Lt | Eq) => true | _ => false end.
Definition eqb (x y : float) : bool :=
  match compare x y with Some Eq => true | _ => false end.

(** Zeros and finite numbers: the values that [scaled] measures. *)
Definition finite_like (f : float) : bool :=
  match f with S754_zero _ | S754_finite _ _ _ => true | _ => false end.

(** A finite float [(-1)^s * m * 2^e] scaled by [10^n] as an exact fraction
    of two positive integers. *)
Definition scaled_num (m : positive) (e n : Z) : Z :=
  Z.pos m * 2 ^ Z.max e 0 * 10 ^ Z.max n 0.
Definition scaled_den (e n : Z) : Z :=
  2 ^ Z.max (- e) 0 * 10 ^ Z.max (- n) 0.

(** The nearest integer to a float, ties to even: what [round(x)] computes
    on a finite float. *)
Definition to_Z_half_even (f : float) : Z :=
  match f with
  | S754_finite s m e =>
      let k := round_half_even (scaled_num m e 0) (scaled_den e 0) in
      if s then - k else k
  | _ => 0
  end.

(** Rounding of a finite float to [n] decimal places. The exact binary value
    is rounded (ties to even) to an integer [k] of units [10^-n]; the result
    is the float nearest to [k * 10^-n], with the sign of the argument. *)
Definition round_decimal (f : float) (n : Z) : float :=
  match f with
  | S754_finite s m e =>
      let k := round_half_even (scaled_num m e n) (scaled_den e n) in
      match (k * 10 ^ Z.max (- n) 0)%Z with
      | Zpos q => div (S754_finite s q 0) (raw_of_Z (10 ^ Z.max n 0))
      | _ => S754_zero s
      end
  | _ => f
  end.

(** The float nearest to the binary number [n * 2^e]. *)
Definition exact (n e : Z) : float := binary_normalize prec emax n e false.

(** The normal form of a mantissa of at most 53 bits: the mantissa is
    shifted up to 53 bits and the exponent lowered by as much. *)
Definition canon (s : bool) (q : positive) (e : Z) : float :=
  let d := Z.pos (digits2_pos q) in
  S754_finite s (Z.to_pos (Z.pos q * 2 ^ (53 - d))) (e + d - 53).

Definition signed (s : bool) (m : positive) : Z :=
  if s then Z.neg m else Z.pos m.

(** [f] is a zero or a finite float whose value is exactly [n * 2^e]. *)
Definition represents (f : float) (n e : Z) : Prop :=
  match f with
  | S754_zero _ => n = 0
  | S754_finite s m e' => e' <= e /\ n * 2 ^ (e - e') = signed s m
  | _ => False
  end.

End F64.

Import F64.

(** ** Python numbers *)

Inductive num : Type :=
  | PyInt (z : Z)
  | PyFloat (f : float).

(** [float(z)]: conversion of an [int] operand of a mixed operation. *)
Definition float_of_int (z : Z) : result float :=
  let f := of_Z z in
  if is_inf f then Raise OverflowError else Ok f.

Definition to_float (x : num) : result float :=
  match x with
  | PyInt z => float_of_int z
  | PyFloat f => Ok f
  end.

Definition py_add (x y : num) : result num :=
  match x, y with
  | PyInt a, PyInt b => Ok (PyInt (a + b))
  | _, _ => a ← to_float x; b ← to_float y; Ok (PyFloat (add a b))
  end.

Definition py_sub (x y : num) : result num :=
  match x, y with
  | PyInt a, PyInt b => Ok (PyInt (a - b))
  | _, _ => a ← to_float x; b ← to_float y; Ok (PyFloat (sub a b))
  end.

Definition py_mul (x y : num) : result num :=
  match x, y with
  | PyInt a, PyInt b => Ok (PyInt (a * b))
  | _, _ => a ← to_float x; b ← to_float y; Ok (PyFloat (mul a b))
  end.

(** [x / y]. Two ints divide exactly and the quotient is rounded once;
    otherwise both operands are converted first and the divisor is then
    tested against zero. *)
Definition py_truediv (x y : num) : result num :=
  match x, y with
  | PyInt a, PyInt b =>
      if decide (b = 0) then Raise ZeroDivisionError
      else
        let q := of_ratio a b in
        if is_inf q then Raise OverflowError else Ok (PyFloat q)
  | _, _ =>
      a ← to_float x; b ← to_float y;
      if is_zero b then Raise ZeroDivisionError else Ok (PyFloat (div a b))
  end.

(** [x ** 2]. On a float the platform's [pow] is called; it is taken to be
    correctly rounded, as IEEE 754 recommends, so the finite case is the
    rounded product. An overflow is reported as [OverflowError], an
    underflow gives zero. *)
Definition py_square (x : num) : result num :=
  match x with
  | PyInt a => Ok (PyInt (a * a))
  | PyFloat S754_nan => Ok (PyFloat S754_nan)
  | PyFloat (S754_infinity _) => Ok (PyFloat (S754_infinity false))
  | PyFloat (S754_zero _) => Ok (PyFloat (S754_zero false))
  | PyFloat f =>
      let p := mul f f in
      if is_inf p then Raise OverflowError else Ok (PyFloat p)
  end.

(** The exact value of a number as an unrounded binary number. *)
Definition to_raw (x : num) : float :=
  match x with
  | PyInt a => raw_of_Z a
  | PyFloat f => f
  end.

(** [x < y]: between two ints, two floats or an int and a float the
    comparison is on the exact values; it is false when one is NaN. *)
Definition py_lt (x y : num) : bool := ltb (to_raw x) (to_raw y).

(** [round(x)]: an int. *)
Definition py_round (x : num) : result Z :=
  match x with
  | PyInt a => Ok a
  | PyFloat S754_nan => Raise ValueError
  | PyFloat (S754_infinity _) => Raise OverflowError
  | PyFloat f => Ok (to_Z_half_even f)
  end.

(** [round(x, ndigits)]: a number of the type of [x]. *)
Definition py_round_to (x : num) (ndigits : Z) : result num :=
  match x with
  | PyInt a =>
      if decide (0 <= ndigits) then Ok (PyInt a)
      else Ok (PyInt (round_half_even a (10 ^ (- ndigits)) * 10 ^ (- ndigits)))
  | PyFloat f =>
      if is_nan f || is_inf f then Ok (PyFloat f)
      else if decide (323 < ndigits) then Ok (PyFloat f)
      else if decide (ndigits < -308) then Ok (PyFloat (mul (S754_zero false) f))
      else
        let r := round_decimal f ndigits in
        if is_inf r then Raise OverflowError else Ok (PyFloat r)
  end.

#[global] Arguments decimal : simpl never.
#[global] Arguments of_Z : simpl never.
#[global] Arguments of_ratio : simpl never.
#[global] Arguments add : simpl never.
#[global] Arguments sub : simpl never.
#[global] Arguments mul : simpl never.
#[global] Arguments div : simpl never.
#[global] Arguments py_add : simpl never.
#[global] Arguments py_sub : simpl never.
#[global] Arguments py_mul : simpl never.
#[global] Arguments py_truediv : simpl never.
#[global] Arguments py_square : simpl never.
#[global] Arguments py_lt : simpl never.
#[global] Arguments py_round : simpl never.
#[global] Arguments py_round_to : simpl never.

(** ** Strings *)

(** [str.lower] on the ASCII letters. A code point outside ASCII is encoded
    in bytes above 127, which are left alone; none of them lowers to a letter
    of ['male']. *)
Definition lower_ascii (c : ascii) : ascii :=
  let n := nat_of_ascii c in
  if (65 <=? n)%nat && (n <=? 90)%nat then ascii_of_nat (n + 32) else c.

Fixpoint lower (s : string) : string :=
  match s with
  | EmptyString => EmptyString
  | String c s' => String (lower_ascii c) (lower s')
  end.

(** ** The calculator *)

Record macro : Type := { grams : Z; percent : Z }.

Record macros : Type := { protein : macro; carbs : macro; fats : macro }.

(** The dictionary returned by [calculate_all]. *)
Record nutrition : Type := {
  bmr : Z;
  tdee : Z;
  daily_calories : Z;
  bmi : num;
  bmi_category : string;
  nutrition_macros : macros;
  meal_plan : gmap string Z;
  weekly_deficit_surplus : Z;
  projected_weekly_change_kg : num;
  weight_kg : num;
  height_cm : num
}.

Definition activity_multipliers : gmap string float :=
  {[ "sedentary" := decimal 12 1;
     "light" := decimal 1375 3;
     "moderate" := decimal 155 2;
     "active" := decimal 1725 3;
     "extra_active" := decimal 19 1 ]}.

Definition goal_adjustments : gmap string Z :=
  {[ "lose_fast" := -1000;
     "lose" := -500;
     "maintain" := 0;
     "gain" := 500;
     "gain_fast" := 1000 ]}.

(** [d[key]] *)
Definition getitem {V} (d : gmap string V) (key : string) : result V :=
  match d !! key with
  | Some v => Ok v
  | None => Raise (KeyError key)
  end.

(** [d.get(key, dflt)] *)
Definition get {V} (d : gmap string V) (key : string) (dflt : V) : V :=
  default dflt (d !! key).

Definition convert_weight (weight : num) (from_unit : string) : result num :=
  if decide (from_unit = "lbs") then py_mul weight (PyFloat (decimal 453592 6))
  else Ok weight.

(** [feet] and [inches] are keyword arguments with default [0]; [None] is a
    call that leaves the argument out. *)
Definition convert_height (height : num) (from_unit : string)
    (feet inches : option num) : result num :=
  let feet := default (PyInt 0) feet in
  let inches := default (PyInt 0) inches in
  if decide (from_unit = "ft") then
    a ← py_mul feet (PyFloat (decimal 3048 2));
    b ← py_mul inches (PyFloat (decimal 254 2));
    py_add a b
  else Ok height.

Definition calculate_bmr_mifflin (weight_kg height_cm : num) (age : Z)
    (gender : string) : result num :=
  if decide (lower gender = "male") then
    a ← py_mul (PyInt 10) weight_kg;
    b ← py_mul (PyFloat (decimal 625 2)) height_cm;
    ab ← py_add a b;
    c ← py_mul (PyInt 5) (PyInt age);
    abc ← py_sub ab c;
    py_add abc (PyInt 5)
  else
    a ← py_mul (PyInt 10) weight_kg;
    b ← py_mul (PyFloat (decimal 625 2)) height_cm;
    ab ← py_add a b;
    c ← py_mul (PyInt 5) (PyInt age);
    abc ← py_sub ab c;
    py_sub abc (PyInt 161).

Definition calculate_tdee (bmr : num) (activity_level : string) : result num :=
  let multiplier := get activity_multipliers activity_level (decimal 12 1) in
  py_mul bmr (PyFloat multiplier).

Definition calculate_bmi (weight_kg height_cm : num) : result num :=
  height_m ← py_truediv height_cm (PyInt 100);
  sq ← py_square height_m;
  py_truediv weight_kg sq.

Definition get_bmi_category (bmi : num) : string :=
  if py_lt bmi (PyFloat (decimal 185 1)) then "Underweight"
  else if py_lt bmi (PyInt 25) then "Normal"
  else if py_lt bmi (PyInt 30) then "Overweight"
  else "Obese".

Definition default_ratios : gmap string num :=
  {[ "protein" := PyFloat (decimal 30 2);
     "carbs" := PyFloat (decimal 40 2);
     "fats" := PyFloat (decimal 30 2) ]}.

(** One entry of the macro dictionary: [round((calories * ratio) / kcal)]
    and [round(ratio * 100)], in that order. *)
Definition macro_of (calories : num) (ratios : gmap string num) (key : string)
    (kcal_per_gram : Z) : result macro :=
  r ← getitem ratios key;
  e ← py_mul calories r;
  q ← py_truediv e (PyInt kcal_per_gram);
  g ← py_round q;
  r' ← getitem ratios key;
  p ← py_mul r' (PyInt 100);
  pc ← py_round p;
  Ok {| grams := g; percent := pc |}.

Definition calculate_macros (calories : num) (ratios : option (gmap string num))
    : result macros :=
  let ratios := default default_ratios ratios in
  p ← macro_of calories ratios "protein" 4;
  c ← macro_of calories ratios "carbs" 4;
  f ← macro_of calories ratios "fats" 9;
  Ok {| protein := p; carbs := c; fats := f |}.

(** [round(calories * fraction)] *)
Definition portion (calories : num) (fraction : float) : result Z :=
  e ← py_mul calories (PyFloat fraction);
  py_round e.

Definition generate_meal_plan (calories : num) (meals : Z)
    : result (gmap string Z) :=
  if decide (meals = 3) then
    b ← portion calories (decimal 30 2);
    l ← portion calories (decimal 40 2);
    d ← portion calories (decimal 30 2);
    Ok {[ "breakfast" := b; "lunch" := l; "dinner" := d ]}
  else if decide (meals = 5) then
    b ← portion calories (decimal 25 2);
    s1 ← portion calories (decimal 10 2);
    l ← portion calories (decimal 30 2);
    s2 ← portion calories (decimal 10 2);
    d ← portion calories (decimal 25 2);
    Ok {[ "breakfast" := b; "snack1" := s1; "lunch" := l; "snack2" := s2;
          "dinner" := d ]}
  else
    b ← portion calories (decimal 25 2);
    l ← portion calories (decimal 35 2);
    d ← portion calories (decimal 30 2);
    s ← portion calories (decimal 10 2);
    Ok {[ "breakfast" := b; "lunch" := l; "dinner" := d; "snacks" := s ]}.

Definition calculate_weekly_change (daily_deficit_surplus : num) : result num :=
  w ← py_mul daily_deficit_surplus (PyInt 7);
  py_truediv w (PyInt 7700).

(** [weight_unit] and [height_unit] default to ['kg'] and ['cm'] at the call
    site; [convert_height] is called without [feet] and [inches], and the
    macros and the meal plan with their defaults (no ratios, four meals). *)
Definition calculate_all (age : Z) (gender : string) (weight height : num)
    (activity_level goal weight_unit height_unit : string) : result nutrition :=
  weight_kg ← convert_weight weight weight_unit;
  height_cm ← convert_height height height_unit None None;
  bmr ← calculate_bmr_mifflin weight_kg height_cm age gender;
  tdee ← calculate_tdee bmr activity_level;
  bmi ← calculate_bmi weight_kg height_cm;
  let bmi_category := get_bmi_category bmi in
  let goal_adjustment := get goal_adjustments goal 0 in
  target ← py_add tdee (PyInt goal_adjustment);
  daily_calories ← py_round target;
  macros ← calculate_macros (PyInt daily_calories) None;
  meal_plan ← generate_meal_plan (PyInt daily_calories) 4;
  weekly_change ← calculate_weekly_change (PyInt goal_adjustment);
  r_bmr ← py_round bmr;
  r_tdee ← py_round tdee;
  r_bmi ← py_round_to bmi 1;
  r_change ← py_round_to weekly_change 2;
  r_weight ← py_round_to weight_kg 1;
  r_height ← py_round_to height_cm 1;
  Ok {| bmr := r_bmr;
        tdee := r_tdee;
        daily_calories := daily_calories;
        bmi := r_bmi;
        bmi_category := bmi_category;
        nutrition_macros := macros;
        meal_plan := meal_plan;
        weekly_deficit_surplus := goal_adjustment;
        projected_weekly_change_kg := r_change;
        weight_kg := r_weight;
        height_cm := r_height |}.

(** ** The HTTP boundary ([backend/app.py])

    [calculate] reads the fields of the request, calls [calculate_all] and
    turns every exception into a failure response with status 400. The
    request is taken after JSON decoding; a field that is absent is [None].
    The time stamp of the success envelope is left out. *)

Record request : Type := {
  req_age : option Z;
  req_gender : option string;
  req_weight : option num;
  req_height : option num;
  req_activity : option string;
  req_goal : option string;
  req_weight_unit : option string;
  req_height_unit : option string
}.

Inductive response : Type :=
  | Success (data : nutrition)
  | Failure (status : Z) (error : exn).

(** [data[key]] on the decoded request *)
Definition field {A} (key : string) (v : option A) : result A :=
  match v with
  | Some a => Ok a
  | None => Raise (KeyError key)
  end.

Definition calculate (data : request) : response :=
  let r :=
    age ← field "age" (req_age data);
    gender ← field "gender" (req_gender data);
    weight ← field "weight" (req_weight data);
    height ← field "height" (req_height data);
    activity ← field "activity" (req_activity data);
    goal ← field "goal" (req_goal data);
    calculate_all age gender weight height activity goal
      (default "kg" (req_weight_unit data))
      (default "cm" (req_height_unit data)) in
  match r with
  | Ok result => Success result
  | Raise e => Failure 400 e
  end.

(** ** The specification's vocabulary *)

(** An arithmetic expression of Python evaluates its operands from left to
    right and stops at the first exception. *)
Definition lift2 (op : num -> num -> result num) (x y : result num)
    : result num :=
  a ← x; b ← y; op a b.

Declare Scope py_scope.
Delimit Scope py_scope with py.
Notation "x + y" := (lift2 py_add x y) : py_scope.
Notation "x - y" := (lift2 py_sub x y) : py_scope.
Notation "x * y" := (lift2 py_mul x y) : py_scope.
Notation "x / y" := (lift2 py_truediv x y) : py_scope.

(** [x ** 2] *)
Definition squared (x : result num) : result num := x ≫= py_square.

(** An [int] literal, a [float] literal in decimal notation and a variable. *)
Definition int (z : Z) : result num := Ok (PyInt z).
Definition flt (digits scale : Z) : result num := Ok (PyFloat (decimal digits scale)).
Definition var (x : num) : result num := Ok x.

(** [x <= y], exact, false when one side is NaN. *)
Definition py_le (x y : num) : bool := leb (to_raw x) (to_raw y).

(** A float, or an int far inside the range of the floats. *)
Definition float_sized (x : num) : Prop :=
  match x with
  | PyInt a => Z.abs a < 2 ^ 1000
  | PyFloat _ => True
  end.

Definition is_nan_num (x : num) : bool :=
  match x with PyFloat f => is_nan f | PyInt _ => false end.

Definition is_zero_num (x : num) : bool :=
  match x with PyFloat f => is_zero f | PyInt z => bool_decide (z = 0) end.

(** The multiplier of an activity level as the data model lists it; any
    other string counts as sedentary. *)
Definition multiplier_of (activity_level : string) : float :=
  if decide (activity_level = "sedentary") then decimal 12 1
  else if decide (activity_level = "light") then decimal 1375 3
  else if decide (activity_level = "moderate") then decimal 155 2
  else if decide (activity_level = "active") then decimal 1725 3
  else if decide (activity_level = "extra_active") then decimal 19 1
  else decimal 12 1.

(** The daily adjustment of a goal; any other string leaves the target at
    maintenance. *)
Definition adjustment_of (goal : string) : Z :=
  if decide (goal = "lose_fast") then -1000
  else if decide (goal = "lose") then -500
  else if decide (goal = "maintain") then 0
  else if decide (goal = "gain") then 500
  else if decide (goal = "gain_fast") then 1000
  else 0.

(** The guard of the feet/inches branch of [convert_height]. *)
Definition takes_feet_branch (from_unit : string) : Prop := from_unit = "ft".

(** The sentence of the specification on the reach of that branch: a call
    that takes it has been given [feet] or [inches]. *)
Definition feet_branch_needs_fields : Prop :=
  forall (height : num) (from_unit : string) (feet inches : option num),
    takes_feet_branch from_unit ->
    returns (convert_height height from_unit feet inches) ->
    is_Some feet \/ is_Some inches.

(** [round((calories * ratio) / kcal_per_gram)] and [round(ratio * 100)]. *)
Definition grams_of (calories ratio : num) (kcal_per_gram : Z) : result Z :=
  (var calories * var ratio / int kcal_per_gram)%py ≫= py_round.

Definition percent_of (ratio : num) : result Z :=
  (var ratio * int 100)%py ≫= py_round.

(** The distribution tables of the meal planner, in percent of the day. *)
Definition meal_percents (meals : Z) : list (string * Z) :=
  if decide (meals = 3) then
    [("breakfast", 30); ("lunch", 40); ("dinner", 30)]
  else if decide (meals = 5) then
    [("breakfast", 25); ("snack1", 10); ("lunch", 30); ("snack2", 10);
     ("dinner", 25)]
  else
    [("breakfast", 25); ("lunch", 35); ("dinner", 30); ("snacks", 10)].

(** [round(calories * fraction)] for a fraction given in percent. *)
Definition rounded_share (calories : num) (pct : Z) : result Z :=
  (var calories * flt pct 2)%py ≫= py_round.

(** The plan of a table: each meal is its rounded share, computed in the
    order of the table. *)
Fixpoint plan_of (calories : num) (table : list (string * Z))
    : result (gmap string Z) :=
  match table with
  | [] => Ok ∅
  | (name, pct) :: rest =>
      k ← rounded_share calories pct;
      m ← plan_of calories rest;
      Ok (<[name := k]> m)
  end.

(** The sum of the values of a plan. *)
Definition plan_total (plan : gmap string Z) : Z :=
  map_fold (fun _ kcal acc => kcal + acc) 0 plan.

(** The sequence of [calculate_all] as the specification tells it: units,
    BMR, TDEE, BMI, the rounded target, macros and meal plan on the target,
    the weekly projection to two decimals, weight and height to one. *)
Definition follows_sequence (age : Z) (gender : string) (weight height : num)
    (activity_level goal weight_unit height_unit : string) (r : nutrition)
    : Prop :=
  exists w_kg h_cm b t i,
    convert_weight weight weight_unit = Ok w_kg
    /\ convert_height height height_unit None None = Ok h_cm
    /\ calculate_bmr_mifflin w_kg h_cm age gender = Ok b
    /\ calculate_tdee b activity_level = Ok t
    /\ calculate_bmi w_kg h_cm = Ok i
    /\ (var t + int (adjustment_of goal))%py ≫= py_round = Ok (daily_calories r)
    /\ calculate_macros (PyInt (daily_calories r)) None = Ok (nutrition_macros r)
    /\ generate_meal_plan (PyInt (daily_calories r)) 4 = Ok (meal_plan r)
    /\ (int (adjustment_of goal) * int 7 / int 7700)%py
         ≫= (fun change => py_round_to change 2)
       = Ok (projected_weekly_change_kg r)
    /\ py_round_to w_kg 1 = Ok (weight_kg r)
    /\ py_round_to h_cm 1 = Ok (height_cm r)
    /\ py_round b = Ok (bmr r)
    /\ py_round t = Ok (tdee r)
    /\ py_round_to i 1 = Ok (bmi r)
    /\ bmi_category r = get_bmi_category i
    /\ weekly_deficit_surplus r = adjustment_of goal.

(** The brackets of the BMI label, as the specification words them. *)
Definition bmi_brackets (bmi : num) : Prop :=
  (get_bmi_category bmi = "Underweight"
     <-> py_lt bmi (PyFloat (decimal 185 1)) = true)
  /\ (get_bmi_category bmi = "Normal"
     <-> py_le (PyFloat (decimal 185 1)) bmi = true /\ py_lt bmi (PyInt 25) = true)
  /\ (get_bmi_category bmi = "Overweight"
     <-> py_le (PyInt 25) bmi = true /\ py_lt bmi (PyInt 30) = true)
  /\ (get_bmi_category bmi = "Obese" <-> py_le (PyInt 30) bmi = true).

(** ** The other endpoints of [backend/app.py]

    [custom_macros] and [meal_plan] read [calories] and an optional second
    field of the decoded request, call the calculator and turn every
    exception into a failure of status 400, as [calculate] does. *)

Module App.

Inductive reply (A : Type) : Type :=
  | Done (data : A)
  | Failed (status : Z) (error : exn).

Arguments Done {A} data.
Arguments Failed {A} status error.

Definition respond {A} (r : result A) : reply A :=
  match r with
  | Ok data => Done data
  | Raise e => Failed 400 e
  end.

Record macros_request : Type := {
  mreq_calories : option num;
  mreq_ratios : option (gmap string num)
}.

Definition custom_macros (data : macros_request) : reply macros :=
  respond (
    calories ← field "calories" (mreq_calories data);
    let ratios :=
      default {[ "protein" := PyFloat (decimal 30 2);
                 "carbs" := PyFloat (decimal 40 2);
                 "fats" := PyFloat (decimal 30 2) ]} (mreq_ratios data) in
    calculate_macros calories (Some ratios)).

Record plan_request : Type := {
  preq_calories : option num;
  preq_meals : option Z
}.

Definition meal_plan (data : plan_request) : reply (gmap string Z) :=
  respond (
    calories ← field "calories" (preq_calories data);
    let meals := default 4 (preq_meals data) in
    generate_meal_plan calories meals).

End App.

(** ** Further vocabulary *)

(** NaN or an infinity. *)
Definition nonfinite (x : num) : bool :=
  match x with
  | PyFloat f => is_nan f || is_inf f
  | PyInt _ => false
  end.

(** [-x] *)
Definition py_neg (x : num) : num :=
  match x with
  | PyInt a => PyInt (- a)
  | PyFloat f => PyFloat (SFopp f)
  end.

(** The strings that [lower] sends to ['male']: the sixteen ways to
    capitalize it. *)
Definition male_spelling (gender : string) : Prop :=
  exists c1 c2 c3 c4 : ascii,
    gender = String c1 (String c2 (String c3 (String c4 EmptyString)))
    /\ (c1 = "m"%char \/ c1 = "M"%char)
    /\ (c2 = "a"%char \/ c2 = "A"%char)
    /\ (c3 = "l"%char \/ c3 = "L"%char)
    /\ (c4 = "e"%char \/ c4 = "E"%char).

(** The required fields of the request of [calculate], in the order in which
    the handler reads them. *)
Definition missing {A} (key : string) (v : option A) : list string :=
  match v with
  | Some _ => []
  | None => [key]
  end.

Definition missing_fields (data : request) : list string :=
  missing "age" (req_age data) ++ missing "gender" (req_gender data)
  ++ missing "weight" (req_weight data) ++ missing "height" (req_height data)
  ++ missing "activity" (req_activity data) ++ missing "goal" (req_goal data).

(** The labels of [get_bmi_category] from the lightest to the heaviest. *)
Definition label_rank (label : string) : Z :=
  if decide (label = "Underweight") then 0
  else if decide (label = "Normal") then 1
  else if decide (label = "Overweight") then 2
  else 3.

(** A zero, or a float of 53 bits with its exponent between [lo] and [hi]:
    a number that is zero or of magnitude in [[2^(lo+52), 2^(hi+53))]. *)
Definition sized (f : float) (lo hi : Z) : Prop :=
  match f with
  | S754_zero _ => True
  | S754_finite _ m e => Z.pos (digits2_pos m) = 53 /\ lo <= e <= hi
  | _ => False
  end.

(** The same for a number of Python: an int below [2^(hi+53)] in magnitude,
    or a float of that size. *)
Definition num_sized (x : num) (lo hi : Z) : Prop :=
  match x with
  | PyInt z => Z.abs z < 2 ^ (hi + 53)
  | PyFloat f => sized f lo hi
  end.

(** The weights and heights of everyday requests: an integer of at most
    2^20 in magnitude, or a float that is zero or of magnitude between 2^-8
    and 2^20. *)
Definition moderate (x : num) : Prop :=
  match x with
  | PyInt z => Z.abs z <= 2 ^ 20
  | PyFloat f => sized f (-60) (-33)
  end.

(** A computation that returns a number of the given size. *)
Definition returns_sized (r : result num) (lo hi : Z) : Prop :=
  exists v, r = Ok v /\ num_sized v lo hi.

(** The value of a float in units of [2^-200]: an integer for every float
    whose exponent is at least -200. *)
Definition grid (f : float) : Z := scaled f (-200).

(** The multipliers of the activity levels as exact fractions. *)
Definition multiplier_ratio (activity_level : string) : Z * Z :=
  if decide (activity_level = "sedentary") then (12, 10)
  else if decide (activity_level = "light") then (1375, 1000)
  else if decide (activity_level = "moderate") then (155, 100)
  else if decide (activity_level = "active") then (1725, 1000)
  else if decide (activity_level = "extra_active") then (19, 10)
  else (12, 10).

(** * Properties *)

(** ** Order of the floats *)

Module F64Facts.

Lemma scaled_shift f e0 e1 :
  e0 <= e1 -> e1 <= exponent f -> scaled f e0 = scaled f e1 * 2 ^ (e1 - e0).
Proof.
  intros H0 H1. destruct f as [| | |s m e]; simpl in *; try reflexivity.
  replace (e - e0) with ((e - e1) + (e1 - e0)) by lia.
  rewrite Z.pow_add_r by lia. ring.
Qed.

Lemma compare_scaled x y e0 :
  finite_like x = true -> finite_like y = true ->
  e0 <= exponent x -> e0 <= exponent y ->
  compare x y = Some (scaled x e0 ?= scaled y e0).
Proof.
  intros Hx Hy Hex Hey.
  set (e1 := Z.min (exponent x) (exponent y)).
  assert (Hc : compare x y = Some (scaled x e1 ?= scaled y e1)).
  { destruct x, y; try discriminate; reflexivity. }
  rewrite Hc. f_equal.
  rewrite (scaled_shift x e0 e1), (scaled_shift y e0 e1) by (unfold e1; lia).
  apply Zmult_compare_compat_r.
  apply Z.lt_gt, Z.pow_pos_nonneg; unfold e1; lia.
Qed.

Lemma compare_antisym x y :
  compare y x = CompOpp <$> compare x y.
Proof.
  destruct (finite_like x) eqn:Fx, (finite_like y) eqn:Fy.
  - set (e0 := Z.min (exponent x) (exponent y)).
    rewrite (compare_scaled y x e0), (compare_scaled x y e0)
      by (trivial; unfold e0; lia).
    simpl. rewrite Z.compare_antisym. reflexivity.
  - destruct x as [|sx| |], y as [|sy| |]; try discriminate;
      try destruct sx; try destruct sy; reflexivity.
  - destruct x as [|sx| |], y as [|sy| |]; try discriminate;
      try destruct sx; try destruct sy; reflexivity.
  - destruct x as [|sx| |], y as [|sy| |]; try discriminate;
      try destruct sx; try destruct sy; reflexivity.
Qed.

Lemma ltb_false_leb x y :
  is_nan x = false -> is_nan y = false ->
  ltb x y = false <-> leb y x = true.
Proof.
  intros Hx Hy. unfold ltb, leb. rewrite (compare_antisym x y).
  assert (Hc : exists c, compare x y = Some c).
  { destruct x, y; try discriminate; eexists; reflexivity. }
  destruct Hc as [c ->]. destruct c; simpl; split; congruence.
Qed.

Lemma ltb_trans x y z :
  ltb x y = true -> ltb y z = true -> ltb x z = true.
Proof.
  unfold ltb.
  destruct (finite_like x) eqn:Fx, (finite_like y) eqn:Fy,
           (finite_like z) eqn:Fz.
  - set (e0 := Z.min (exponent x) (Z.min (exponent y) (exponent z))).
    rewrite (compare_scaled x y e0), (compare_scaled y z e0),
      (compare_scaled x z e0) by (trivial; unfold e0; lia).
    destruct (scaled x e0 ?= scaled y e0) eqn:C1; try discriminate.
    destruct (scaled y e0 ?= scaled z e0) eqn:C2; try discriminate.
    intros _ _. rewrite Z.compare_lt_iff in *. 
    replace (scaled x e0 ?= scaled z e0) with Lt; [reflexivity|].
    symmetry. apply Z.compare_lt_iff. lia.
  - destruct x, y, z; try discriminate; simpl;
      repeat match goal with |- context [if ?b then _ else _] => destruct b end;
      congruence.
  - destruct x, y, z; try discriminate; simpl;
      repeat match goal with |- context [if ?b then _ else _] => destruct b end;
      try congruence.
  - destruct x, y, z; try discriminate; simpl;
      repeat match goal with |- context [if ?b then _ else _] => destruct b end;
      try congruence.
  - destruct x, y, z; try discriminate; simpl;
      repeat match goal with |- context [if ?b then _ else _] => destruct b end;
      try congruence.
  - destruct x, y, z; try discriminate; simpl;
      repeat match goal with |- context [if ?b then _ else _] => destruct b end;
      try congruence.
  - destruct x, y, z; try discriminate; simpl;
      repeat match goal with |- context [if ?b then _ else _] => destruct b end;
      try congruence.
  - destruct x, y, z; try discriminate; simpl;
      repeat match goal with |- context [if ?b then _ else _] => destruct b end;
      try congruence.
Qed.

(** ** Rounding to nearest, ties to even *)

Lemma digits2_pos_size p : digits2_pos p = Pos.size p.
Proof. induction p; simpl; congruence. Qed.

Lemma digits_bounds p :
  2 ^ (Z.pos (digits2_pos p) - 1) <= Z.pos p < 2 ^ Z.pos (digits2_pos p).
Proof.
  rewrite digits2_pos_size. split.
  - pose proof (Pos.size_le p) as H.
    apply Pos2Z.pos_le_pos in H. rewrite Pos2Z.inj_pow in H.
    replace (Z.pos (Pos.size p)) with (Z.succ (Z.pos (Pos.size p) - 1)) in H by lia.
    rewrite Z.pow_succ_r in H by lia. change (Z.pos p~0) with (2 * Z.pos p) in H.
    lia.
  - pose proof (Pos.size_gt p) as H.
    apply Pos2Z.pos_lt_pos in H. rewrite Pos2Z.inj_pow in H. exact H.
Qed.

Lemma digits_unique p k :
  2 ^ (k - 1) <= Z.pos p < 2 ^ k -> Z.pos (digits2_pos p) = k.
Proof.
  intros [Hl Hu]. pose proof (digits_bounds p) as [Hl' Hu'].
  set (d := Z.pos (digits2_pos p)) in *.
  assert (0 < k).
  { destruct (Z.le_gt_cases k 0) as [Hk|]; [|assumption].
    assert (2 ^ k <= 2 ^ 0) by (apply Z.pow_le_mono_r; lia). simpl in *. lia. }
  assert (d - 1 < k).
  { apply (Z.pow_lt_mono_r_iff 2); try lia. }
  assert (k - 1 < d).
  { apply (Z.pow_lt_mono_r_iff 2); try lia. }
  lia.
Qed.

Lemma iter_pos_iter {A} (f : A -> A) p x : SpecFloat.iter_pos f p x = Pos.iter f x p.
Proof.
  revert x. induction p as [p IH|p IH|]; intros x; simpl.
  - rewrite !IH, !Pos.iter_swap. reflexivity.
  - rewrite !IH. reflexivity.
  - reflexivity.
Qed.

Lemma shr_1_spec m r s :
  0 <= m ->
  shr_1 (Build_shr_record m r s)
  = Build_shr_record (m / 2) (Z.odd m) (r || s).
Proof.
  intros Hm. rewrite <- Z.div2_div.
  destruct m as [|[p|p|]|p]; try reflexivity. lia.
Qed.

Lemma shr_iter x p :
  0 <= x ->
  Pos.iter shr_1 (Build_shr_record x false false) p
  = Build_shr_record (x / 2 ^ Z.pos p) (Z.odd (x / 2 ^ (Z.pos p - 1)))
      (negb (x mod 2 ^ (Z.pos p - 1) =? 0)).
Proof.
  intros Hx.
  apply (Pos.iter_ind _ shr_1 (Build_shr_record x false false)
           (fun p r => r = Build_shr_record (x / 2 ^ Z.pos p)
                             (Z.odd (x / 2 ^ (Z.pos p - 1)))
                             (negb (x mod 2 ^ (Z.pos p - 1) =? 0)))).
  - rewrite shr_1_spec by exact Hx. simpl.
    rewrite Z.div_1_r, Z.mod_1_r. reflexivity.
  - intros q r ->.
    rewrite shr_1_spec by (apply Z.div_pos; [lia|apply Z.pow_pos_nonneg; lia]).
    rewrite Pos2Z.inj_succ.
    replace (Z.succ (Z.pos q) - 1) with (Z.pos q) by lia.
    f_equal.
    + rewrite Z.pow_succ_r by lia. rewrite (Z.mul_comm 2).
      rewrite Z.div_div by (try apply Z.pow_pos_nonneg; lia). reflexivity.
    + set (h := 2 ^ (Z.pos q - 1)).
      assert (Hh : 0 < h) by (apply Z.pow_pos_nonneg; lia).
      assert (E : 2 ^ Z.pos q = h * 2).
      { unfold h. replace (Z.pos q) with (Z.succ (Z.pos q - 1)) at 1 by lia.
        rewrite Z.pow_succ_r by lia. ring. }
      rewrite E, Z.rem_mul_r by lia.
      pose proof (Z.mod_pos_bound x h Hh).
      pose proof (Z.mod_pos_bound (x / h) 2 ltac:(lia)).
      rewrite (Zmod_odd (x / h)) in *.
      destruct (Z.odd (x / h)); simpl;
        destruct (Z.eqb_spec (x mod h) 0); simpl;
        symmetry; [apply negb_true_iff| apply negb_true_iff | apply negb_false_iff| apply negb_true_iff];
        try (apply Z.eqb_neq; lia); apply Z.eqb_eq; lia.
Qed.

Lemma round_shr x p :
  0 <= x ->
  let r := SpecFloat.iter_pos shr_1 p (Build_shr_record x false false) in
  round_nearest_even (shr_m r) (loc_of_shr_record r)
  = round_half_even x (2 ^ Z.pos p).
Proof.
  intros Hx. cbv zeta. rewrite iter_pos_iter, shr_iter by exact Hx.
  unfold round_half_even. cbn [shr_m].
  set (h := 2 ^ (Z.pos p - 1)).
  assert (Hh : 0 < h) by (apply Z.pow_pos_nonneg; lia).
  assert (E : 2 ^ Z.pos p = h * 2).
  { unfold h. replace (Z.pos p) with (Z.succ (Z.pos p - 1)) at 1 by lia.
    rewrite Z.pow_succ_r by lia. ring. }
  rewrite E. rewrite Z.rem_mul_r by lia.
  pose proof (Z.mod_pos_bound x h Hh).
  rewrite (Zmod_odd (x / h)).
  destruct (Z.odd (x / h)); destruct (Z.eqb_spec (x mod h) 0) as [E0|E0]; simpl.
  - rewrite E0. replace (2 * (0 + h * 1) ?= h * 2) with Eq
      by (symmetry; apply Z.compare_eq_iff; lia). reflexivity.
  - replace (2 * (x mod h + h * 1) ?= h * 2) with Gt
      by (symmetry; apply Z.compare_gt_iff; lia). reflexivity.
  - rewrite E0. replace (2 * (0 + h * 0) ?= h * 2) with Lt
      by (symmetry; apply Z.compare_lt_iff; lia). reflexivity.
  - replace (2 * (x mod h + h * 0) ?= h * 2) with Lt
      by (symmetry; apply Z.compare_lt_iff; lia). reflexivity.
Qed.

Lemma round_half_even_bounds n d :
  0 < d ->
  n / d <= round_half_even n d <= n / d + 1
  /\ Z.abs (2 * (round_half_even n d * d - n)) <= d.
Proof.
  intros Hd. unfold round_half_even.
  pose proof (Z.div_mod n d ltac:(lia)) as E.
  pose proof (Z.mod_pos_bound n d Hd) as B.
  destruct (Z.compare_spec (2 * (n mod d)) d) as [C|C|C];
    [destruct (Z.even (n / d))| |]; split; try lia; nia.
Qed.

Lemma round_half_even_exact n d :
  0 < d -> n mod d = 0 -> round_half_even n d = n / d.
Proof.
  intros Hd Hr. unfold round_half_even. rewrite Hr.
  replace (2 * 0 ?= d) with Lt by (symmetry; apply Z.compare_lt_iff; lia).
  reflexivity.
Qed.

Lemma shr_nonpos mrs e n : n <= 0 -> shr mrs e n = (mrs, e).
Proof. destruct n; try reflexivity. lia. Qed.

Lemma fexp_normal k : -1074 <= k - 53 -> fexp prec emax k = k - 53.
Proof. unfold fexp, emin, prec, emax. lia. Qed.

Lemma binary_round_aux_exact s m e :
  Z.pos (digits2_pos m) <= 53 -> -1074 <= e <= 971 ->
  binary_round_aux prec emax s (Z.pos m) e loc_Exact = S754_finite s m e.
Proof.
  intros Hd He. unfold binary_round_aux, shr_fexp.
  cbn [Zdigits2 shr_record_of_loc].
  assert (Hn : fexp prec emax (Z.pos (digits2_pos m) + e) - e <= 0).
  { unfold fexp, emin, prec, emax. lia. }
  rewrite shr_nonpos by exact Hn.
  cbn [shr_m loc_of_shr_record round_nearest_even Zdigits2 shr_record_of_loc].
  rewrite shr_nonpos by exact Hn. cbn [shr_m].
  replace (e <=? emax - prec) with true
    by (symmetry; apply Z.leb_le; unfold emax, prec; lia).
  reflexivity.
Qed.

Lemma binary_round_aux_round s m e :
  let d := Z.pos (digits2_pos m) in
  53 < d -> -1074 <= e + (d - 53) -> e + (d - 53) + 1 <= 971 ->
  exists m' e',
    binary_round_aux prec emax s (Z.pos m) e loc_Exact = S754_finite s m' e'
    /\ Z.pos (digits2_pos m') = 53
    /\ e + (d - 53) <= e' <= e + (d - 53) + 1
    /\ Z.pos m' * 2 ^ (e' - (e + (d - 53)))
       = round_half_even (Z.pos m) (2 ^ (d - 53)).
Proof.
  intros d Hd Hlo Hhi. unfold binary_round_aux, shr_fexp.
  cbn [Zdigits2 shr_record_of_loc]. fold d.
  rewrite fexp_normal by lia.
  destruct (d + e - 53 - e) as [|p|p] eqn:En; try lia.
  assert (Ep : d - 53 = Z.pos p) by lia.
  cbn [shr].
  rewrite (round_shr (Z.pos m) p) by lia.
  rewrite <- Ep.
  pose proof (digits_bounds m) as [Bl Bu]. fold d in Bl, Bu.
  assert (P : 0 < 2 ^ (d - 53)) by (apply Z.pow_pos_nonneg; lia).
  destruct (round_half_even_bounds (Z.pos m) (2 ^ (d - 53)) P) as [[Rl Ru] _].
  assert (S1 : 2 ^ (d - 1) = 2 ^ 52 * 2 ^ (d - 53)).
  { rewrite <- Z.pow_add_r by lia. f_equal. lia. }
  assert (S2 : 2 ^ d = 2 ^ 53 * 2 ^ (d - 53)).
  { rewrite <- Z.pow_add_r by lia. f_equal. lia. }
  assert (Ql : 2 ^ 52 <= Z.pos m / 2 ^ (d - 53)).
  { apply Z.div_le_lower_bound; lia. }
  assert (Qu : Z.pos m / 2 ^ (d - 53) < 2 ^ 53).
  { apply Z.div_lt_upper_bound; lia. }
  set (r2 := round_half_even (Z.pos m) (2 ^ (d - 53))) in *.
  change (2 ^ 52) with 4503599627370496 in *.
  change (2 ^ 53) with 9007199254740992 in *.
  destruct r2 as [|m2|m2] eqn:Em2; try lia.
  destruct (Z.eq_dec (Z.pos m2) 9007199254740992) as [Ec|Ec].
  - (* the rounding carries into a new binade *)
    injection Ec as ->.
    exists 4503599627370496%positive, (e + (d - 53) + 1).
    split; [|split; [reflexivity|split; [|]]]. 2:{ lia. }
    + change (Zdigits2 9007199254740992) with 54.
      rewrite fexp_normal by lia.
      replace (54 + (e + (d - 53)) - 53 - (e + (d - 53))) with 1 by lia.
      cbn [shr SpecFloat.iter_pos shr_1 shr_m].
      replace (e + (d - 53) + 1 <=? emax - prec) with true
        by (symmetry; apply Z.leb_le; unfold emax, prec; lia).
      reflexivity.
    + replace (e + (d - 53) + 1 - (e + (d - 53))) with 1 by lia. reflexivity.
  - exists m2, (e + (d - 53)).
    assert (D2 : Z.pos (digits2_pos m2) = 53).
    { apply digits_unique. change (2 ^ (53 - 1)) with 4503599627370496.
      change (2 ^ 53) with 9007199254740992. lia. }
    split; [|split; [exact D2|split; [lia|]]].
    + cbn [Zdigits2]. rewrite D2. rewrite fexp_normal by lia.
      rewrite shr_nonpos by lia. cbn [shr_m].
      replace (e + (d - 53) <=? emax - prec) with true
        by (symmetry; apply Z.leb_le; unfold emax, prec; lia).
      reflexivity.
    + rewrite Z.sub_diag. simpl. lia.
Qed.

Lemma iter_xO p k : Z.pos (Pos.iter xO p k) = Z.pos p * 2 ^ Z.pos k.
Proof.
  apply (Pos.iter_ind _ xO p (fun k r => Z.pos r = Z.pos p * 2 ^ Z.pos k)).
  - change (Z.pos p~0) with (2 * Z.pos p). simpl. lia.
  - intros q r IH. change (Z.pos r~0) with (2 * Z.pos r).
    rewrite IH, Pos2Z.inj_succ, Z.pow_succ_r by lia. ring.
Qed.

Lemma binary_round_small s p e :
  let d := Z.pos (digits2_pos p) in
  d <= 53 -> -1074 <= e + d - 53 <= 971 ->
  exists m',
    binary_round prec emax s p e = S754_finite s m' (e + d - 53)
    /\ Z.pos m' = Z.pos p * 2 ^ (53 - d)
    /\ Z.pos (digits2_pos m') = 53.
Proof.
  intros d Hd He. unfold binary_round, shl_align. fold d.
  rewrite fexp_normal by lia.
  pose proof (digits_bounds p) as [Bl Bu]. fold d in Bl, Bu.
  destruct (d + e - 53 - e) as [|k|k] eqn:Ek; try lia.
  - assert (d = 53) by lia. exists p.
    split; [|split].
    + rewrite binary_round_aux_exact by (fold d; lia). f_equal. lia.
    + replace (53 - d) with 0 by lia. simpl. lia.
    + fold d. assumption.
  - assert (Hk : Z.pos k = 53 - d) by lia.
    exists (Pos.iter xO p k).
    assert (Hv : Z.pos (Pos.iter xO p k) = Z.pos p * 2 ^ (53 - d)).
    { rewrite iter_xO, Hk. reflexivity. }
    assert (Hdg : Z.pos (digits2_pos (Pos.iter xO p k)) = 53).
    { apply digits_unique. rewrite Hv. 
      assert (0 < 2 ^ (53 - d)) by (apply Z.pow_pos_nonneg; lia).
      replace (2 ^ (53 - 1)) with (2 ^ (d - 1) * 2 ^ (53 - d))
        by (rewrite <- Z.pow_add_r by lia; f_equal; lia).
      replace (2 ^ 53) with (2 ^ d * 2 ^ (53 - d))
        by (rewrite <- Z.pow_add_r by lia; f_equal; lia).
      nia. }
    split; [|split; assumption].
    rewrite binary_round_aux_exact by lia. f_equal. lia.
Qed.

Lemma mul_normal sx mx ex sy my ey :
  Z.pos (digits2_pos mx) = 53 -> Z.pos (digits2_pos my) = 53 ->
  -1074 <= ex + ey + 52 -> ex + ey + 54 <= 971 ->
  exists m' e',
    mul (S754_finite sx mx ex) (S754_finite sy my ey)
    = S754_finite (xorb sx sy) m' e'
    /\ Z.pos (digits2_pos m') = 53
    /\ ex + ey + 52 <= e' <= ex + ey + 54
    /\ Z.abs (2 * (Z.pos m' * 2 ^ (e' - (ex + ey)) - Z.pos mx * Z.pos my))
       <= 2 ^ (e' - (ex + ey)).
Proof.
  intros Dx Dy Hlo Hhi. unfold mul, SFmul.
  pose proof (digits_bounds mx) as [Xl Xu]. rewrite Dx in Xl, Xu.
  pose proof (digits_bounds my) as [Yl Yu]. rewrite Dy in Yl, Yu.
  change (2 ^ (53 - 1)) with (2 ^ 52) in *.
  set (d := Z.pos (digits2_pos (mx * my))).
  pose proof (digits_bounds (mx * my)) as [Pl Pu]. fold d in Pl, Pu.
  rewrite Pos2Z.inj_mul in Pl, Pu.
  assert (L : 2 ^ 104 <= Z.pos mx * Z.pos my) by (change (2 ^ 104) with (2 ^ 52 * 2 ^ 52); nia).
  assert (U : Z.pos mx * Z.pos my < 2 ^ 106) by (change (2 ^ 106) with (2 ^ 53 * 2 ^ 53); nia).
  assert (Hd : 105 <= d <= 106).
  { split.
    - assert (104 < d); [|lia]. apply (Z.pow_lt_mono_r_iff 2); lia.
    - assert (d - 1 < 106); [|lia]. apply (Z.pow_lt_mono_r_iff 2); lia. }
  destruct (binary_round_aux_round (xorb sx sy) (mx * my) (ex + ey))
    as (m' & e' & Hr & Hdg & He & Hv); fold d; try lia.
  fold d in He, Hv.
  exists m', e'. split; [exact Hr|]. split; [exact Hdg|]. split; [lia|].
  rewrite Pos2Z.inj_mul in Hv.
  assert (P : 0 < 2 ^ (d - 53)) by (apply Z.pow_pos_nonneg; lia).
  destruct (round_half_even_bounds (Z.pos mx * Z.pos my) (2 ^ (d - 53)) P)
    as [_ Hb].
  rewrite <- Hv in Hb.
  replace (e' - (ex + ey)) with ((e' - (ex + ey + (d - 53))) + (d - 53)) by lia.
  rewrite Z.pow_add_r by lia.
  assert (1 <= 2 ^ (e' - (ex + ey + (d - 53)))).
  { assert (0 < 2 ^ (e' - (ex + ey + (d - 53)))) by (apply Z.pow_pos_nonneg; lia). lia. }
  rewrite Z.mul_assoc. nia.
Qed.

(** The rounded product of a positive integer below [2^46] and a constant
    near [pct / 100], rounded again to an integer. *)
Lemma round_product s p pct mf ef :
  Z.pos (digits2_pos mf) = 53 -> -56 <= ef <= -54 ->
  Z.abs (100 * Z.pos mf - pct * 2 ^ (- ef)) <= 50 ->
  Z.pos p < 2 ^ 46 ->
  exists a k,
    binary_round prec emax s p 0 = a /\ is_inf a = false
    /\ finite_like (mul a (S754_finite false mf ef)) = true
    /\ to_Z_half_even (mul a (S754_finite false mf ef)) = (if s then - k else k)
    /\ Z.abs (100 * k - pct * Z.pos p) <= 50.
Proof.
  intros Df Hef Hc Hp.
  set (d := Z.pos (digits2_pos p)).
  pose proof (digits_bounds p) as [Bl Bu]. fold d in Bl, Bu.
  assert (Hd : 1 <= d <= 46).
  { split; [unfold d; lia|].
    assert (d - 1 < 46); [|lia]. apply (Z.pow_lt_mono_r_iff 2); lia. }
  destruct (binary_round_small s p 0) as (ma & Ha & Hma & Dma); fold d; try lia.
  fold d in Ha, Hma.
  destruct (mul_normal s ma (0 + d - 53) false mf ef Dma Df)
    as (m' & e' & Hm & Dm' & He' & Hv); try lia.
  rewrite xorb_false_r in Hm.
  exists (S754_finite s ma (0 + d - 53)).
  set (T := 2 ^ (- e')).
  set (k := round_half_even (Z.pos m') T).
  exists k. split; [exact Ha|]. split; [reflexivity|].
  split; [rewrite Hm; reflexivity|]. split.
  - rewrite Hm. unfold to_Z_half_even, scaled_num, scaled_den.
    replace (Z.max e' 0) with 0 by lia.
    replace (Z.max (- e') 0) with (- e') by lia. fold T.
    replace (Z.max 0 0) with 0 by lia. replace (Z.max (- 0) 0) with 0 by lia.
    simpl (2 ^ 0). simpl (10 ^ 0). rewrite !Z.mul_1_r. reflexivity.
  - set (E := 0 + d - 53 + ef) in *.
    set (W := 2 ^ (e' - E)) in *.
    set (A := 2 ^ (53 - d)) in *. fold A in Hma.
    set (B := 2 ^ (- ef)) in *.
    assert (HT : 0 < T) by (apply Z.pow_pos_nonneg; lia).
    assert (HW : 0 < W) by (apply Z.pow_pos_nonneg; lia).
    assert (HA : 0 < A) by (apply Z.pow_pos_nonneg; lia).
    assert (HB : 0 < B) by (apply Z.pow_pos_nonneg; lia).
    assert (HS : T * W = A * B).
    { unfold T, W, A, B. rewrite <- !Z.pow_add_r by lia. f_equal. lia. }
    assert (HW54 : W <= 2 ^ 54) by (apply Z.pow_le_mono_r; lia).
    assert (HB54 : 2 ^ 54 <= B) by (apply Z.pow_le_mono_r; lia).
    assert (HA7 : 2 ^ 7 <= A) by (apply Z.pow_le_mono_r; lia).
    assert (HpA : Z.pos p * A < 2 ^ 53).
    { replace (2 ^ 53) with (2 ^ d * A)
        by (unfold A; rewrite <- Z.pow_add_r by lia; f_equal; lia).
      apply Z.mul_lt_mono_pos_r; assumption. }
    destruct (round_half_even_bounds (Z.pos m') T HT) as [_ Hk].
    fold k in Hk.
    change (2 ^ 54) with 18014398509481984 in *.
    change (2 ^ 53) with 9007199254740992 in *.
    change (2 ^ 7) with 128 in *.
    clearbody T W A B k.
    set (X := 100 * k - pct * Z.pos p).
    set (delta := 100 * Z.pos mf - pct * B) in *.
    assert (Hdec : X * (A * B)
                   = 100 * (k * T - Z.pos m') * W
                     + 100 * (Z.pos m' * W - Z.pos ma * Z.pos mf)
                     + Z.pos p * A * delta).
    { replace (100 * (k * T - Z.pos m') * W)
        with (100 * k * (T * W) - 100 * Z.pos m' * W) by ring.
      rewrite HS, Hma. unfold X, delta. ring. }
    clearbody X delta.
    assert (Hb1 : Z.abs (100 * (k * T - Z.pos m') * W) <= 50 * (A * B)).
    { rewrite <- HS. rewrite Z.abs_mul, (Z.abs_eq W) by lia.
      replace (50 * (T * W)) with (50 * T * W) by ring.
      apply Z.mul_le_mono_nonneg_r; lia. }
    assert (Hb2 : Z.abs (100 * (Z.pos m' * W - Z.pos ma * Z.pos mf)) <= 50 * 18014398509481984).
    { lia. }
    assert (Hb3 : Z.abs (Z.pos p * A * delta) <= 9007199254740992 * 50).
    { rewrite Z.abs_mul. rewrite (Z.abs_eq (Z.pos p * A)) by lia.
      apply Z.mul_le_mono_nonneg; lia. }
    assert (HAB : 128 * 18014398509481984 <= A * B).
    { apply Z.mul_le_mono_nonneg; lia. }
    assert (Hx : Z.abs (X * (A * B)) < 51 * (A * B)) by lia.
    rewrite Z.abs_mul, (Z.abs_eq (A * B)) in Hx by lia.
    apply Z.mul_lt_mono_pos_r in Hx; lia.
Qed.

(** ** Operations without rounding error *)

Lemma binary_round_finite s p e :
  let d := Z.pos (digits2_pos p) in
  -1074 <= e + d - 53 -> e + d <= 1023 ->
  exists m' e', binary_round prec emax s p e = S754_finite s m' e'.
Proof.
  intros d Hlo Hhi.
  destruct (Z_le_gt_dec d 53) as [Hd|Hd].
  - destruct (binary_round_small s p e) as (m' & Hr & _); fold d; try lia.
    eauto.
  - unfold binary_round, shl_align. fold d. rewrite fexp_normal by lia.
    destruct (d + e - 53 - e) as [|k|k] eqn:Ek; try lia.
    destruct (binary_round_aux_round s p e) as (m' & e' & Hr & _);
      fold d; try lia.
    eauto.
Qed.

Lemma of_Z_finite z : Z.abs z < 2 ^ 1023 -> is_inf (of_Z z) = false.
Proof.
  intros Hz. unfold of_Z, binary_normalize.
  destruct z as [|p|p]; [reflexivity| |].
  - destruct (binary_round_finite false p 0) as (m' & e' & ->); [| |reflexivity].
    + pose proof (Pos2Z.is_pos (digits2_pos p)). lia.
    + pose proof (digits_bounds p) as [Bl _].
      assert (Z.pos (digits2_pos p) - 1 < 1023); [|lia].
      apply (Z.pow_lt_mono_r_iff 2); lia.
  - destruct (binary_round_finite true p 0) as (m' & e' & ->); [| |reflexivity].
    + pose proof (Pos2Z.is_pos (digits2_pos p)). lia.
    + pose proof (digits_bounds p) as [Bl _].
      assert (Z.pos (digits2_pos p) - 1 < 1023); [|lia].
      apply (Z.pow_lt_mono_r_iff 2); lia.
Qed.

Lemma digits_mul_pow2 (M q : positive) j :
  0 <= j -> Z.pos M = Z.pos q * 2 ^ j ->
  Z.pos (digits2_pos M) = Z.pos (digits2_pos q) + j.
Proof.
  intros Hj HM. apply digits_unique. rewrite HM.
  pose proof (digits_bounds q) as [Bl Bu].
  set (d := Z.pos (digits2_pos q)) in *.
  assert (0 < d) by (unfold d; lia).
  assert (0 < 2 ^ j) by (apply Z.pow_pos_nonneg; lia).
  replace (d + j - 1) with ((d - 1) + j) by lia.
  rewrite !Z.pow_add_r by lia. clearbody d. nia.
Qed.

Lemma binary_round_aux_canon s (M q : positive) E j :
  let dq := Z.pos (digits2_pos q) in
  0 <= j -> Z.pos M = Z.pos q * 2 ^ j ->
  dq <= 53 -> 53 <= dq + j ->
  -1074 <= E + j + dq - 53 -> E + j + dq - 53 < 971 ->
  binary_round_aux prec emax s (Z.pos M) E loc_Exact = canon s q (E + j).
Proof.
  intros dq Hj HM Hq HMd Hlo Hhi.
  pose proof (digits_mul_pow2 M q j Hj HM) as HdM. fold dq in HdM.
  pose proof (digits_bounds q) as [Bl Bu]. fold dq in Bl, Bu.
  assert (Hc : 0 < 2 ^ (53 - dq)) by (apply Z.pow_pos_nonneg; lia).
  assert (Hqm : 2 ^ 52 <= Z.pos q * 2 ^ (53 - dq) < 2 ^ 53).
  { replace (2 ^ 52) with (2 ^ (dq - 1) * 2 ^ (53 - dq))
      by (rewrite <- Z.pow_add_r by lia; f_equal; lia).
    replace (2 ^ 53) with (2 ^ dq * 2 ^ (53 - dq))
      by (rewrite <- Z.pow_add_r by lia; f_equal; lia).
    clearbody dq. nia. }
  unfold canon. fold dq.
  destruct (Z.eq_dec (dq + j) 53) as [E53|N53].
  - rewrite binary_round_aux_exact by lia.
    f_equal; [|lia].
    apply Pos2Z.inj. rewrite Z2Pos.id by lia. rewrite HM. f_equal. f_equal. lia.
  - destruct (binary_round_aux_round s M E) as (m' & e' & Hr & Hdg & He & Hv);
      rewrite ?HdM; try lia.
    rewrite HdM in He, Hv. rewrite Hr.
    assert (Hn : 0 < dq + j - 53) by lia.
    assert (Hdiv : Z.pos M = (Z.pos q * 2 ^ (53 - dq)) * 2 ^ (dq + j - 53)).
    { rewrite HM, <- Z.mul_assoc, <- Z.pow_add_r by lia. do 2 f_equal. lia. }
    assert (Hp : 0 < 2 ^ (dq + j - 53)) by (apply Z.pow_pos_nonneg; lia).
    rewrite round_half_even_exact in Hv
      by (try assumption; rewrite Hdiv; apply Z.mod_mul; lia).
    rewrite Hdiv, Z.div_mul in Hv by lia.
    pose proof (digits_bounds m') as [Ml Mu]. rewrite Hdg in Ml, Mu.
    change (2 ^ (53 - 1)) with (2 ^ 52) in Ml.
    assert (He' : e' = E + (dq + j - 53)).
    { destruct (Z.eq_dec e' (E + (dq + j - 53))) as [|Hne]; [assumption|].
      exfalso. assert (e' - (E + (dq + j - 53)) = 1) as H1 by lia.
      rewrite H1 in Hv. change (2 ^ 1) with 2 in Hv.
      change (2 ^ 52) with 4503599627370496 in *.
      change (2 ^ 53) with 9007199254740992 in *. lia. }
    subst e'. rewrite Z.sub_diag in Hv. change (2 ^ 0) with 1 in Hv.
    f_equal; [|lia].
    apply Pos2Z.inj. rewrite Z2Pos.id by lia. lia.
Qed.

Lemma binary_round_canon s (M q : positive) E j :
  let dq := Z.pos (digits2_pos q) in
  0 <= j -> Z.pos M = Z.pos q * 2 ^ j ->
  dq <= 53 ->
  -1074 <= E + j + dq - 53 -> E + j + dq - 53 < 971 ->
  binary_round prec emax s M E = canon s q (E + j).
Proof.
  intros dq Hj HM Hq Hlo Hhi.
  pose proof (digits_mul_pow2 M q j Hj HM) as HdM. fold dq in HdM.
  destruct (Z_le_gt_dec (dq + j) 53) as [Hs|Hl].
  - destruct (binary_round_small s M E) as (m' & Hr & Hm & _);
      rewrite ?HdM; try lia.
    rewrite HdM in Hr, Hm. rewrite Hr. unfold canon. fold dq.
    f_equal; [|lia].
    apply Pos2Z.inj. rewrite Hm, HM.
    assert (0 < 2 ^ (53 - dq)) by (apply Z.pow_pos_nonneg; lia).
    rewrite Z2Pos.id by lia.
    rewrite <- Z.mul_assoc, <- Z.pow_add_r by lia. do 2 f_equal. lia.
  - unfold binary_round, shl_align. rewrite HdM, fexp_normal by lia.
    destruct (dq + j + E - 53 - E) as [|k|k] eqn:Ek; try lia.
    apply binary_round_aux_canon; fold dq; try assumption; lia.
Qed.

Lemma digits_le_53 q : Z.pos q < 2 ^ 53 -> Z.pos (digits2_pos q) <= 53.
Proof.
  intros Hq. pose proof (digits_bounds q) as [Bl _].
  assert (Z.pos (digits2_pos q) - 1 < 53); [|lia].
  apply (Z.pow_lt_mono_r_iff 2); lia.
Qed.

Lemma exact_pos s q e :
  Z.pos q < 2 ^ 53 -> -1000 <= e <= 900 ->
  binary_round prec emax s q e = canon s q e.
Proof.
  intros Hq He. pose proof (digits_le_53 q Hq).
  pose proof (Pos2Z.is_pos (digits2_pos q)).
  replace e with (e + 0) at 2 by lia.
  apply binary_round_canon; simpl; lia.
Qed.

Lemma exact_scaled n e j :
  Z.abs n < 2 ^ 53 -> 0 <= j -> -1000 <= e <= 900 ->
  exact (n * 2 ^ j) (e - j) = exact n e.
Proof.
  intros Hn Hj He. unfold exact, binary_normalize.
  assert (Hp : 0 < 2 ^ j) by (apply Z.pow_pos_nonneg; lia).
  destruct n as [|q|q].
  - reflexivity.
  - destruct (Z.pos q * 2 ^ j) as [|M|M] eqn:EM; try lia.
    pose proof (digits_le_53 q ltac:(lia)).
    pose proof (Pos2Z.is_pos (digits2_pos q)).
    rewrite (binary_round_canon false M q (e - j) j), exact_pos by lia.
    f_equal. lia.
  - destruct (Z.neg q * 2 ^ j) as [|M|M] eqn:EM; try lia.
    pose proof (digits_le_53 q ltac:(lia)).
    pose proof (Pos2Z.is_pos (digits2_pos q)).
    rewrite (binary_round_canon true M q (e - j) j), exact_pos by lia.
    f_equal. lia.
Qed.

Lemma canon_value q :
  Z.pos q < 2 ^ 53 ->
  let d := Z.pos (digits2_pos q) in
  Z.pos (Z.to_pos (Z.pos q * 2 ^ (53 - d))) = Z.pos q * 2 ^ (53 - d)
  /\ Z.pos (digits2_pos (Z.to_pos (Z.pos q * 2 ^ (53 - d)))) = 53.
Proof.
  intros Hq d. pose proof (digits_le_53 q Hq). fold d in H.
  assert (0 < 2 ^ (53 - d)) by (apply Z.pow_pos_nonneg; lia).
  assert (E : Z.pos (Z.to_pos (Z.pos q * 2 ^ (53 - d))) = Z.pos q * 2 ^ (53 - d)).
  { rewrite Z2Pos.id by lia. reflexivity. }
  split; [exact E|].
  rewrite (digits_mul_pow2 _ q (53 - d)); fold d; try lia.
Qed.

Lemma exact_represents n e :
  Z.abs n < 2 ^ 53 -> -1000 <= e <= 900 -> represents (exact n e) n e.
Proof.
  intros Hn He. unfold exact, binary_normalize.
  destruct n as [|q|q]; [reflexivity| |].
  - rewrite exact_pos by lia. unfold canon, represents, signed.
    destruct (canon_value q ltac:(lia)) as [-> _].
    pose proof (digits_le_53 q ltac:(lia)).
    split; [lia|]. do 2 f_equal. lia.
  - rewrite exact_pos by lia. unfold canon, represents, signed.
    pose proof (digits_le_53 q ltac:(lia)).
    split; [lia|].
    change (Z.neg (Z.to_pos (Z.pos q * 2 ^ (53 - Z.pos (digits2_pos q)))))
      with (- Z.pos (Z.to_pos (Z.pos q * 2 ^ (53 - Z.pos (digits2_pos q))))).
    destruct (canon_value q ltac:(lia)) as [-> _].
    change (Z.neg q) with (- Z.pos q).
    replace (e - (e + Z.pos (digits2_pos q) - 53)) with (53 - Z.pos (digits2_pos q)) by lia.
    ring.
Qed.

Lemma mul_exact a ea b eb :
  Z.abs a < 2 ^ 53 -> Z.abs b < 2 ^ 53 -> Z.abs (a * b) < 2 ^ 53 ->
  -400 <= ea <= 400 -> -400 <= eb <= 400 -> a <> 0 -> b <> 0 ->
  mul (exact a ea) (exact b eb) = exact (a * b) (ea + eb).
Proof.
  intros Ha Hb Hab Hea Heb Na Nb.
  assert (Hcase : forall sa sb (p q : positive),
            Z.pos p < 2 ^ 53 -> Z.pos q < 2 ^ 53 -> Z.pos (p * q) < 2 ^ 53 ->
            mul (canon sa p ea) (canon sb q eb)
            = canon (xorb sa sb) (p * q) (ea + eb)).
  { intros sa sb p q Hp Hq Hpq. unfold canon at 1 2. unfold mul, SFmul.
    destruct (canon_value p Hp) as [Vp Dp].
    destruct (canon_value q Hq) as [Vq Dq].
    set (dp := Z.pos (digits2_pos p)) in *.
    set (dq := Z.pos (digits2_pos q)) in *.
    pose proof (digits_le_53 p Hp). pose proof (digits_le_53 q Hq).
    pose proof (digits_le_53 (p * q) Hpq).
    assert (0 < dp) by (unfold dp; lia). assert (0 < dq) by (unfold dq; lia).
    pose proof (Pos2Z.is_pos (digits2_pos (p * q))).
    replace (ea + eb) with ((ea + dp - 53 + (eb + dq - 53)) + (106 - dp - dq)) by lia.
    apply binary_round_aux_canon; try lia.
    - rewrite Pos2Z.inj_mul, Vp, Vq, Pos2Z.inj_mul.
      replace (106 - dp - dq) with ((53 - dp) + (53 - dq)) by lia.
      rewrite Z.pow_add_r by lia. ring.
    - pose proof (digits_bounds (p * q)) as [_ Bu].
      pose proof (digits_bounds p) as [Pl _]. pose proof (digits_bounds q) as [Ql _].
      fold dp in Pl. fold dq in Ql.
      set (dpq := Z.pos (digits2_pos (p * q))) in *.
      assert (dp - 1 + (dq - 1) < dpq); [|lia].
      apply (Z.pow_lt_mono_r_iff 2); try lia.
      rewrite Z.pow_add_r by lia. rewrite Pos2Z.inj_mul in Bu.
      assert (0 < 2 ^ (dp - 1)) by (apply Z.pow_pos_nonneg; lia).
      assert (0 < 2 ^ (dq - 1)) by (apply Z.pow_pos_nonneg; lia).
      eapply Z.le_lt_trans; [|exact Bu].
      apply Z.mul_le_mono_nonneg;
        solve [assumption | apply Z.lt_le_incl; assumption]. }
  unfold exact, binary_normalize.
  destruct a as [|p|p], b as [|q|q]; try congruence;
    [change (Z.pos p * Z.pos q) with (Z.pos (p * q)) in *
    |change (Z.pos p * Z.neg q) with (Z.neg (p * q)) in *
    |change (Z.neg p * Z.pos q) with (Z.neg (p * q)) in *
    |change (Z.neg p * Z.neg q) with (Z.pos (p * q)) in *];
    cbv iota; rewrite !exact_pos by lia; apply Hcase; lia.
Qed.

Lemma shl_align_fst m e e' :
  e' <= e -> Z.pos (fst (shl_align m e e')) = Z.pos m * 2 ^ (e - e').
Proof.
  intros He. unfold shl_align.
  destruct (e' - e) as [|d|d] eqn:Ed; try lia; cbn [fst].
  - replace (e - e') with 0 by lia. simpl. lia.
  - rewrite iter_xO. do 2 f_equal. lia.
Qed.

Lemma exact_nonzero n e :
  n <> 0 -> Z.abs n < 2 ^ 53 -> -1000 <= e <= 900 ->
  exact n e = canon (n <? 0) (Z.to_pos (Z.abs n)) e.
Proof.
  intros Hn Hb He. unfold exact, binary_normalize.
  destruct n as [|q|q]; try congruence; rewrite exact_pos by lia; reflexivity.
Qed.

Lemma canon_signed n :
  n <> 0 -> Z.abs n < 2 ^ 53 ->
  let q := Z.to_pos (Z.abs n) in
  let d := Z.pos (digits2_pos q) in
  signed (n <? 0) (Z.to_pos (Z.pos q * 2 ^ (53 - d))) = n * 2 ^ (53 - d)
  /\ 1 <= d <= 53.
Proof.
  intros Hn Hb q d.
  assert (Hq : Z.pos q = Z.abs n) by (unfold q; rewrite Z2Pos.id; lia).
  destruct (canon_value q ltac:(lia)) as [V _]. fold d in V.
  pose proof (digits_le_53 q ltac:(lia)). fold d in H.
  assert (0 < d) by (unfold d; lia).
  split; [|lia]. unfold signed.
  destruct (Z.ltb_spec n 0).
  - change (Z.neg ?p) with (- Z.pos p). rewrite V, Hq. rewrite Z.abs_neq by lia. ring.
  - rewrite V, Hq, Z.abs_eq by lia. reflexivity.
Qed.

Lemma add_sub_exact (op : Z -> Z -> Z) x ex y ey :
  (op = Z.add \/ op = Z.sub) ->
  x <> 0 -> y <> 0 ->
  Z.abs x < 2 ^ 53 -> Z.abs y < 2 ^ 53 ->
  -900 <= ex <= 900 -> -900 <= ey <= 900 ->
  let e0 := Z.min ex ey in
  let S := op (x * 2 ^ (ex - e0)) (y * 2 ^ (ey - e0)) in
  Z.abs S < 2 ^ 53 ->
  binary_normalize prec emax
    (op (cond_Zopp (x <? 0)
           (Z.pos (fst (shl_align
              (Z.to_pos (Z.pos (Z.to_pos (Z.abs x))
                         * 2 ^ (53 - Z.pos (digits2_pos (Z.to_pos (Z.abs x))))))
              (ex + Z.pos (digits2_pos (Z.to_pos (Z.abs x))) - 53)
              (Z.min (ex + Z.pos (digits2_pos (Z.to_pos (Z.abs x))) - 53)
                     (ey + Z.pos (digits2_pos (Z.to_pos (Z.abs y))) - 53))))))
        (cond_Zopp (y <? 0)
           (Z.pos (fst (shl_align
              (Z.to_pos (Z.pos (Z.to_pos (Z.abs y))
                         * 2 ^ (53 - Z.pos (digits2_pos (Z.to_pos (Z.abs y))))))
              (ey + Z.pos (digits2_pos (Z.to_pos (Z.abs y))) - 53)
              (Z.min (ex + Z.pos (digits2_pos (Z.to_pos (Z.abs x))) - 53)
                     (ey + Z.pos (digits2_pos (Z.to_pos (Z.abs y))) - 53)))))))
    (Z.min (ex + Z.pos (digits2_pos (Z.to_pos (Z.abs x))) - 53)
           (ey + Z.pos (digits2_pos (Z.to_pos (Z.abs y))) - 53))
    false
  = exact S e0.
Proof.
  intros Hop Hx Hy Bx By Hex Hey e0 S BS.
  destruct (canon_signed x Hx Bx) as [Vx Dx].
  destruct (canon_signed y Hy By) as [Vy Dy].
  set (dx := Z.pos (digits2_pos (Z.to_pos (Z.abs x)))) in *.
  set (dy := Z.pos (digits2_pos (Z.to_pos (Z.abs y)))) in *.
  set (mx := Z.to_pos (Z.pos (Z.to_pos (Z.abs x)) * 2 ^ (53 - dx))) in *.
  set (my := Z.to_pos (Z.pos (Z.to_pos (Z.abs y)) * 2 ^ (53 - dy))) in *.
  set (ez := Z.min (ex + dx - 53) (ey + dy - 53)).
  assert (Hzx : ez <= ex + dx - 53) by apply Z.le_min_l.
  assert (Hzy : ez <= ey + dy - 53) by apply Z.le_min_r.
  assert (H0x : e0 <= ex) by apply Z.le_min_l.
  assert (H0y : e0 <= ey) by apply Z.le_min_r.
  assert (Hez : ez <= e0)
    by (apply Z.min_le_compat; clear - Dx Dy; lia).
  assert (He0 : -900 <= e0 <= 900)
    by (unfold e0; clear - Hex Hey; apply Z.min_case; assumption).
  rewrite !shl_align_fst by assumption.
  assert (Cx : cond_Zopp (x <? 0) (Z.pos mx * 2 ^ (ex + dx - 53 - ez))
               = x * 2 ^ (ex - ez)).
  { transitivity (signed (x <? 0) mx * 2 ^ (ex + dx - 53 - ez)).
    - unfold cond_Zopp, signed. destruct (x <? 0); [|reflexivity].
      change (Z.neg mx) with (- Z.pos mx). ring.
    - rewrite Vx, <- Z.mul_assoc, <- Z.pow_add_r
        by (clear - Dx Hzx; lia).
      do 2 f_equal. clear. lia. }
  assert (Cy : cond_Zopp (y <? 0) (Z.pos my * 2 ^ (ey + dy - 53 - ez))
               = y * 2 ^ (ey - ez)).
  { transitivity (signed (y <? 0) my * 2 ^ (ey + dy - 53 - ez)).
    - unfold cond_Zopp, signed. destruct (y <? 0); [|reflexivity].
      change (Z.neg my) with (- Z.pos my). ring.
    - rewrite Vy, <- Z.mul_assoc, <- Z.pow_add_r
        by (clear - Dy Hzy; lia).
      do 2 f_equal. clear. lia. }
  rewrite Cx, Cy.
  assert (ES : op (x * 2 ^ (ex - ez)) (y * 2 ^ (ey - ez)) = S * 2 ^ (e0 - ez)).
  { unfold S.
    replace (ex - ez) with ((ex - e0) + (e0 - ez)) by (clear; lia).
    replace (ey - ez) with ((ey - e0) + (e0 - ez)) by (clear; lia).
    rewrite (Z.pow_add_r 2 (ex - e0)), (Z.pow_add_r 2 (ey - e0))
      by (clear - H0x H0y Hez; lia).
    destruct Hop as [-> | ->]; ring. }
  rewrite ES.
  change (binary_normalize prec emax (S * 2 ^ (e0 - ez)) ez false)
    with (exact (S * 2 ^ (e0 - ez)) ez).
  replace ez with (e0 - (e0 - ez)) at 2 by (clear; lia).
  apply exact_scaled; [exact BS|clear - Hez; lia|clear - He0; lia].
Qed.

Lemma add_exact x ex y ey :
  Z.abs x < 2 ^ 53 -> Z.abs y < 2 ^ 53 ->
  -900 <= ex <= 900 -> -900 <= ey <= 900 ->
  let e0 := Z.min ex ey in
  let S := x * 2 ^ (ex - e0) + y * 2 ^ (ey - e0) in
  Z.abs S < 2 ^ 53 ->
  add (exact x ex) (exact y ey) = exact S e0.
Proof.
  intros Bx By Hex Hey e0 S BS.
  destruct (Z.eq_dec x 0) as [->|Hx]; [|destruct (Z.eq_dec y 0) as [->|Hy]].
  - replace (add (exact 0 ex) (exact y ey)) with (exact y ey).
    + unfold S. rewrite Z.mul_0_l, Z.add_0_l.
      replace e0 with (ey - (ey - e0)) at 2 by lia.
      symmetry. apply exact_scaled; unfold e0; lia.
    + destruct (Z.eq_dec y 0) as [->|Hy]; [reflexivity|].
      rewrite (exact_nonzero y) by lia. reflexivity.
  - replace (add (exact x ex) (exact 0 ey)) with (exact x ex).
    + unfold S. rewrite Z.mul_0_l, Z.add_0_r.
      replace e0 with (ex - (ex - e0)) at 2 by lia.
      symmetry. apply exact_scaled; unfold e0; lia.
    + rewrite (exact_nonzero x) by lia. reflexivity.
  - rewrite (exact_nonzero x), (exact_nonzero y) by lia.
    unfold canon, add, SFadd.
    apply (add_sub_exact Z.add); auto.
Qed.

Lemma exact_opp n e :
  n <> 0 -> Z.abs n < 2 ^ 53 -> -1000 <= e <= 900 ->
  SFopp (exact n e) = exact (- n) e.
Proof.
  intros Hn Hb He. unfold exact, binary_normalize.
  destruct n as [|q|q]; [congruence| |];
    [change (- Z.pos q) with (Z.neg q)|change (- Z.neg q) with (Z.pos q)];
    cbv iota; rewrite !exact_pos by lia; reflexivity.
Qed.

Lemma sub_exact x ex y ey :
  Z.abs x < 2 ^ 53 -> Z.abs y < 2 ^ 53 ->
  -900 <= ex <= 900 -> -900 <= ey <= 900 ->
  let e0 := Z.min ex ey in
  let S := x * 2 ^ (ex - e0) - y * 2 ^ (ey - e0) in
  Z.abs S < 2 ^ 53 ->
  sub (exact x ex) (exact y ey) = exact S e0.
Proof.
  intros Bx By Hex Hey e0 S BS.
  destruct (Z.eq_dec y 0) as [->|Hy]; [|destruct (Z.eq_dec x 0) as [->|Hx]].
  - replace (sub (exact x ex) (exact 0 ey)) with (exact x ex).
    + unfold S. rewrite Z.mul_0_l, Z.sub_0_r.
      replace e0 with (ex - (ex - e0)) at 2 by lia.
      symmetry. apply exact_scaled; unfold e0; lia.
    + destruct (Z.eq_dec x 0) as [->|Hx]; [reflexivity|].
      rewrite (exact_nonzero x) by lia. reflexivity.
  - replace (sub (exact 0 ex) (exact y ey)) with (exact (- y) ey).
    + unfold S.
      replace (0 * 2 ^ (ex - e0) - y * 2 ^ (ey - e0))
        with (- y * 2 ^ (ey - e0)) by ring.
      replace e0 with (ey - (ey - e0)) at 2 by lia.
      symmetry. apply exact_scaled; unfold e0; lia.
    + rewrite <- exact_opp by lia.
      rewrite (exact_nonzero y) by lia. reflexivity.
  - rewrite (exact_nonzero x), (exact_nonzero y) by lia.
    unfold canon, sub, SFsub.
    apply (add_sub_exact Z.sub); auto.
Qed.

End F64Facts.

Import F64Facts.

(** ** Lookup tables *)

Lemma activity_multipliers_get activity_level :
  get activity_multipliers activity_level (decimal 12 1)
  = multiplier_of activity_level.
Proof.
  unfold get, multiplier_of, activity_multipliers.
  repeat case_decide; simplify_map_eq; reflexivity.
Qed.

Lemma goal_adjustments_get goal :
  get goal_adjustments goal 0 = adjustment_of goal.
Proof.
  unfold get, adjustment_of, goal_adjustments.
  repeat case_decide; simplify_map_eq; reflexivity.
Qed.

(** ** Unit conversion *)

Lemma convert_height_feet height feet inches :
  convert_height height "ft" feet inches
  = (var (default (PyInt 0) feet) * flt 3048 2
     + var (default (PyInt 0) inches) * flt 254 2)%py.
Proof.
  unfold convert_height, lift2, var, flt. simpl.
  destruct (py_mul (default (PyInt 0) feet) _); simpl; [|reflexivity].
  destruct (py_mul (default (PyInt 0) inches) _); reflexivity.
Qed.

Lemma convert_height_other height from_unit feet inches :
  from_unit <> "ft" ->
  convert_height height from_unit feet inches = Ok height.
Proof. intros Hu. unfold convert_height. case_decide; congruence. Qed.

Lemma convert_height_defaults height :
  convert_height height "ft" None None = Ok (PyFloat (S754_zero false)).
Proof. reflexivity. Qed.

(** ** Energy expenditure *)

Lemma calculate_bmr_male weight_kg height_cm age gender :
  lower gender = "male" ->
  calculate_bmr_mifflin weight_kg height_cm age gender
  = (int 10 * var weight_kg + flt 625 2 * var height_cm
     - int 5 * int age + int 5)%py.
Proof.
  intros Hg. unfold calculate_bmr_mifflin, lift2, int, var, flt.
  case_decide; [|congruence]. simpl.
  destruct (py_mul (PyInt 10) weight_kg); simpl; [|reflexivity].
  destruct (py_mul (PyFloat _) height_cm); simpl; [|reflexivity].
  destruct (py_add _ _); simpl; [|reflexivity].
  destruct (py_sub _ _); reflexivity.
Qed.

Lemma calculate_bmr_other weight_kg height_cm age gender :
  lower gender <> "male" ->
  calculate_bmr_mifflin weight_kg height_cm age gender
  = (int 10 * var weight_kg + flt 625 2 * var height_cm
     - int 5 * int age - int 161)%py.
Proof.
  intros Hg. unfold calculate_bmr_mifflin, lift2, int, var, flt.
  case_decide; [congruence|]. simpl.
  destruct (py_mul (PyInt 10) weight_kg); simpl; [|reflexivity].
  destruct (py_mul (PyFloat _) height_cm); simpl; [|reflexivity].
  destruct (py_add _ _); simpl; [|reflexivity].
  destruct (py_sub _ _); reflexivity.
Qed.

Lemma float_of_int_exact z :
  Z.abs z < 2 ^ 1023 -> float_of_int z = Ok (exact z 0).
Proof.
  intros Hz. unfold float_of_int. rewrite of_Z_finite by exact Hz. reflexivity.
Qed.

Lemma quarter_product h :
  Z.abs h <= 2 ^ 40 ->
  mul (decimal 625 2) (exact h 0) = exact (25 * h) (-2).
Proof.
  intros Hh. change (2 ^ 40) with 1099511627776 in Hh.
  replace (decimal 625 2) with (exact 25 (-2)) by (vm_compute; reflexivity).
  destruct (Z.eq_dec h 0) as [->|Hn].
  - vm_compute. reflexivity.
  - rewrite mul_exact by lia. reflexivity.
Qed.

Lemma calculate_bmr_integers w h age gender :
  Z.abs w <= 2 ^ 40 -> Z.abs h <= 2 ^ 40 -> Z.abs age <= 2 ^ 40 ->
  calculate_bmr_mifflin (PyInt w) (PyInt h) age gender
  = Ok (PyFloat (exact (40 * w + 25 * h - 20 * age
                        + (if decide (lower gender = "male") then 20 else -644))
                       (-2))).
Proof.
  intros Hw Hh Ha. change (2 ^ 40) with 1099511627776 in *.
  assert (B53 : 2 ^ 53 = 9007199254740992) by reflexivity.
  assert (F : forall z, Z.abs z <= 20 * 1099511627776 ->
                        float_of_int z = Ok (exact z 0)).
  { intros z Hz. apply float_of_int_exact.
    apply Z.le_lt_trans with (2 ^ 53); [rewrite B53; lia|].
    apply Z.pow_lt_mono_r; lia. }
  assert (Hab : add (exact (10 * w) 0) (exact (25 * h) (-2))
                = exact (40 * w + 25 * h) (-2)).
  { rewrite add_exact; rewrite ?B53; try lia.
    - f_equal. change (Z.min 0 (-2)) with (-2). simpl (2 ^ _). lia.
    - change (Z.min 0 (-2)) with (-2). simpl (2 ^ _). lia. }
  assert (Habc : sub (exact (40 * w + 25 * h) (-2)) (exact (5 * age) 0)
                 = exact (40 * w + 25 * h - 20 * age) (-2)).
  { rewrite sub_exact; rewrite ?B53; try lia.
    - f_equal. change (Z.min (-2) 0) with (-2). simpl (2 ^ _). lia.
    - change (Z.min (-2) 0) with (-2). simpl (2 ^ _). lia. }
  unfold calculate_bmr_mifflin.
  case_decide;
    unfold py_mul, py_add, py_sub, to_float; cbn [mbind result_bind];
    rewrite !F by lia; cbn [mbind result_bind];
    rewrite quarter_product by lia; rewrite Hab, Habc;
    do 2 f_equal.
  - rewrite add_exact; rewrite ?B53; try lia.
    + f_equal. change (Z.min (-2) 0) with (-2). simpl (2 ^ _). lia.
    + change (Z.min (-2) 0) with (-2). simpl (2 ^ _). lia.
  - rewrite sub_exact; rewrite ?B53; try lia.
    + f_equal. change (Z.min (-2) 0) with (-2). simpl (2 ^ _). lia.
    + change (Z.min (-2) 0) with (-2). simpl (2 ^ _). lia.
Qed.

Lemma calculate_tdee_eq bmr activity_level :
  calculate_tdee bmr activity_level
  = (var bmr * Ok (PyFloat (multiplier_of activity_level)))%py.
Proof.
  unfold calculate_tdee. rewrite activity_multipliers_get. reflexivity.
Qed.

Lemma multiplier_of_unknown activity_level :
  activity_level ∉ ["sedentary"; "light"; "moderate"; "active"; "extra_active"] ->
  multiplier_of activity_level = decimal 12 1.
Proof.
  intros Hn. unfold multiplier_of.
  repeat case_decide; subst; try reflexivity; exfalso; apply Hn; set_solver.
Qed.

(** ** Results of the arithmetic *)

Lemma bind_Ok {A B} (r : result A) (k : A -> result B) (b : B) :
  r ≫= k = Ok b <-> exists a, r = Ok a /\ k a = Ok b.
Proof.
  destruct r as [a|e]; simpl.
  - split; [eauto|]. intros (a' & Ha & Hk). congruence.
  - split; [discriminate|]. intros (a' & Ha & _). discriminate.
Qed.

Lemma py_mul_float_r x g :
  py_mul x (PyFloat g) = (a ← to_float x; Ok (PyFloat (mul a g))).
Proof. destruct x; reflexivity. Qed.

Lemma py_truediv_float_r x g :
  py_truediv x (PyFloat g)
  = (a ← to_float x;
     if is_zero g then Raise ZeroDivisionError else Ok (PyFloat (div a g))).
Proof. destruct x; reflexivity. Qed.

Lemma py_truediv_is_float x y v :
  py_truediv x y = Ok v -> exists f, v = PyFloat f.
Proof.
  unfold py_truediv. destruct x as [a|f], y as [b|g]; simpl.
  - case_decide; [discriminate|]. destruct (is_inf _); [discriminate|].
    intros [= <-]. eauto.
  - destruct (float_of_int a); simpl; [|discriminate].
    destruct (is_zero g); [discriminate|]. intros [= <-]. eauto.
  - destruct (float_of_int b) as [b'|]; simpl; [|discriminate].
    destruct (is_zero b'); [discriminate|]. intros [= <-]. eauto.
  - destruct (is_zero g); [discriminate|]. intros [= <-]. eauto.
Qed.

Lemma py_square_float f v :
  py_square (PyFloat f) = Ok v -> exists g, v = PyFloat g.
Proof.
  unfold py_square. destruct f; try (intros [= <-]; eauto).
  destruct (is_inf _); [discriminate|]. intros [= <-]. eauto.
Qed.

(** ** Body-mass index *)

Lemma height_m_of_zero h :
  is_zero_num h = true ->
  exists s, py_truediv h (PyInt 100) = Ok (PyFloat (S754_zero s)).
Proof.
  destruct h as [z|f]; simpl.
  - intros Hz. apply bool_decide_eq_true in Hz. subst z.
    exists false. reflexivity.
  - destruct f as [s| | |]; try discriminate. intros _.
    exists s. destruct s; reflexivity.
Qed.

Lemma calculate_bmi_zero_height w h :
  is_zero_num h = true ->
  calculate_bmi w h = (_ ← to_float w; Raise ZeroDivisionError).
Proof.
  intros Hz. destruct (height_m_of_zero h Hz) as [s Hs].
  unfold calculate_bmi. rewrite Hs. simpl.
  rewrite py_truediv_float_r. reflexivity.
Qed.

Lemma calculate_bmi_zero_raises w h :
  is_zero_num h = true -> raises (calculate_bmi w h).
Proof.
  intros Hz. rewrite calculate_bmi_zero_height by exact Hz.
  destruct (to_float w); simpl; eexists; reflexivity.
Qed.

Lemma calculate_bmi_returns w h v :
  calculate_bmi w h = Ok v <->
  exists wf hm sq,
    to_float w = Ok wf
    /\ py_truediv h (PyInt 100) = Ok (PyFloat hm)
    /\ py_square (PyFloat hm) = Ok (PyFloat sq)
    /\ is_zero sq = false
    /\ v = PyFloat (div wf sq).
Proof.
  unfold calculate_bmi. split.
  - intros H. apply bind_Ok in H as (hm & Hm & H).
    apply bind_Ok in H as (sq & Hsq & H).
    destruct (py_truediv_is_float _ _ _ Hm) as [hm' ->].
    destruct (py_square_float _ _ Hsq) as [sq' ->].
    rewrite py_truediv_float_r in H.
    apply bind_Ok in H as (wf & Hw & H).
    destruct (is_zero sq') eqn:Hz; [discriminate|].
    injection H as <-. exists wf, hm', sq'. auto.
  - intros (wf & hm & sq & Hw & Hm & Hsq & Hz & ->).
    rewrite Hm. simpl. rewrite Hsq. simpl.
    rewrite py_truediv_float_r, Hw. simpl. rewrite Hz. reflexivity.
Qed.

Lemma to_raw_not_nan x : is_nan_num x = false -> is_nan (to_raw x) = false.
Proof. destruct x as [[| |]|f]; simpl; auto. Qed.

Lemma py_lt_false_le x y :
  is_nan_num x = false -> is_nan_num y = false ->
  py_lt x y = false <-> py_le y x = true.
Proof.
  intros Hx Hy. apply F64Facts.ltb_false_leb; apply to_raw_not_nan; assumption.
Qed.

Lemma py_lt_trans x y z :
  py_lt x y = true -> py_lt y z = true -> py_lt x z = true.
Proof. apply F64Facts.ltb_trans. Qed.

Lemma get_bmi_category_number bmi :
  is_nan_num bmi = false -> bmi_brackets bmi.
Proof.
  intros Hn. unfold bmi_brackets, get_bmi_category.
  pose proof (py_lt_false_le bmi (PyFloat (decimal 185 1)) Hn eq_refl) as H1.
  pose proof (py_lt_false_le bmi (PyInt 25) Hn eq_refl) as H2.
  pose proof (py_lt_false_le bmi (PyInt 30) Hn eq_refl) as H3.
  pose proof (fun H => py_lt_trans bmi (PyFloat (decimal 185 1)) (PyInt 25) H eq_refl) as T1.
  pose proof (fun H => py_lt_trans bmi (PyInt 25) (PyInt 30) H eq_refl) as T2.
  destruct (py_lt bmi (PyFloat (decimal 185 1))) eqn:A,
           (py_lt bmi (PyInt 25)) eqn:B,
           (py_lt bmi (PyInt 30)) eqn:C;
    try (specialize (T1 eq_refl); discriminate);
    try (specialize (T2 eq_refl); discriminate);
    destruct (py_le (PyFloat (decimal 185 1)) bmi) eqn:A',
             (py_le (PyInt 25) bmi) eqn:B', (py_le (PyInt 30) bmi) eqn:C';
    try (apply proj1 in H1; specialize (H1 eq_refl); discriminate);
    try (apply proj2 in H1; specialize (H1 eq_refl); discriminate);
    try (apply proj1 in H2; specialize (H2 eq_refl); discriminate);
    try (apply proj2 in H2; specialize (H2 eq_refl); discriminate);
    try (apply proj1 in H3; specialize (H3 eq_refl); discriminate);
    try (apply proj2 in H3; specialize (H3 eq_refl); discriminate);
    repeat split; intros; try discriminate; try reflexivity;
    try (destruct_and?; discriminate).
Qed.

(** ** Macronutrients *)

Lemma macro_of_returns calories ratios key kcal ratio m :
  ratios !! key = Some ratio ->
  macro_of calories ratios key kcal = Ok m <->
  grams_of calories ratio kcal = Ok (grams m)
  /\ percent_of ratio = Ok (percent m).
Proof.
  intros Hk. unfold macro_of, getitem, grams_of, percent_of, lift2, var, int.
  rewrite Hk. simpl.
  destruct (py_mul calories ratio) as [e|]; simpl; [|split; [|intros []]; discriminate].
  destruct (py_truediv e (PyInt kcal)) as [q|]; simpl; [|split; [|intros []]; discriminate].
  destruct (py_round q) as [g|]; simpl; [|split; [|intros []]; discriminate].
  destruct (py_mul ratio (PyInt 100)) as [p|]; simpl; [|split; [|intros []]; discriminate].
  destruct (py_round p) as [pc|]; simpl; [|split; [|intros []]; discriminate].
  destruct m as [g' pc']; simpl. split.
  - intros [= <- <-]. auto.
  - intros [[= <-] [= <-]]. reflexivity.
Qed.

Lemma calculate_macros_returns calories ratios rp rc rf m :
  ratios !! "protein" = Some rp ->
  ratios !! "carbs" = Some rc ->
  ratios !! "fats" = Some rf ->
  calculate_macros calories (Some ratios) = Ok m <->
  (grams_of calories rp 4 = Ok (grams (protein m))
   /\ percent_of rp = Ok (percent (protein m)))
  /\ (grams_of calories rc 4 = Ok (grams (carbs m))
      /\ percent_of rc = Ok (percent (carbs m)))
  /\ (grams_of calories rf 9 = Ok (grams (fats m))
      /\ percent_of rf = Ok (percent (fats m))).
Proof.
  intros Hp Hc Hf. unfold calculate_macros. simpl.
  rewrite <- (macro_of_returns calories ratios "protein" 4 rp) by exact Hp.
  rewrite <- (macro_of_returns calories ratios "carbs" 4 rc) by exact Hc.
  rewrite <- (macro_of_returns calories ratios "fats" 9 rf) by exact Hf.
  destruct (macro_of calories ratios "protein" 4) as [p|]; simpl;
    [|split; [|intros []]; discriminate].
  destruct (macro_of calories ratios "carbs" 4) as [c|]; simpl;
    [|split; [|intros (_ & ? & _)]; discriminate].
  destruct (macro_of calories ratios "fats" 9) as [f|]; simpl;
    [|split; [|intros (_ & _ & ?)]; discriminate].
  destruct m as [p' c' f']; simpl. split.
  - intros [= <- <- <-]. auto.
  - intros ([= <-] & [= <-] & [= <-]). reflexivity.
Qed.

Lemma calculate_macros_2000 :
  calculate_macros (PyInt 2000) None
  = Ok {| protein := {| grams := 150; percent := 30 |};
          carbs := {| grams := 200; percent := 40 |};
          fats := {| grams := 67; percent := 30 |} |}.
Proof. vm_compute. reflexivity. Qed.

(** ** Meal plan *)

Lemma portion_rounded_share calories pct :
  portion calories (decimal pct 2) = rounded_share calories pct.
Proof. reflexivity. Qed.

Lemma generate_meal_plan_table calories meals :
  generate_meal_plan calories meals = plan_of calories (meal_percents meals).
Proof.
  unfold generate_meal_plan, meal_percents.
  repeat case_decide; cbn [plan_of]; rewrite <- !portion_rounded_share;
    cbn [mbind result_bind];
    repeat match goal with
           | |- mbind _ (portion ?c ?f) = _ =>
               destruct (portion c f); simpl; [|reflexivity]
           end;
    rewrite ?insert_empty; reflexivity.
Qed.

Lemma generate_meal_plan_2000_3 :
  generate_meal_plan (PyInt 2000) 3
  = Ok {[ "breakfast" := 600; "lunch" := 800; "dinner" := 600 ]}
  /\ plan_total {[ "breakfast" := 600; "lunch" := 800; "dinner" := 600 ]} = 2000.
Proof. split; vm_compute; reflexivity. Qed.

Lemma generate_meal_plan_6_5 :
  generate_meal_plan (PyInt 6) 5
  = Ok {[ "breakfast" := 2; "snack1" := 1; "lunch" := 2; "snack2" := 1;
          "dinner" := 2 ]}
  /\ plan_total {[ "breakfast" := 2; "snack1" := 1; "lunch" := 2; "snack2" := 1;
                  "dinner" := 2 ]} = 8.
Proof. split; vm_compute; reflexivity. Qed.

(** ** The whole calculation *)

Lemma calculate_weekly_change_eq delta :
  calculate_weekly_change (PyInt delta) = (int delta * int 7 / int 7700)%py.
Proof. reflexivity. Qed.

Lemma calculate_bmr_float f g age gender :
  is_inf (of_Z (5 * age)) = false ->
  exists b, calculate_bmr_mifflin (PyFloat f) (PyFloat g) age gender
            = Ok (PyFloat b).
Proof.
  intros Hage. unfold calculate_bmr_mifflin.
  assert (H5 : float_of_int (5 * age) = Ok (of_Z (5 * age))).
  { unfold float_of_int. rewrite Hage. reflexivity. }
  case_decide; unfold py_mul, py_add, py_sub; simpl; rewrite H5; simpl;
    eexists; reflexivity.
Qed.

Lemma convert_weight_float f weight_unit :
  exists g, convert_weight (PyFloat f) weight_unit = Ok (PyFloat g).
Proof. unfold convert_weight. case_decide; eexists; reflexivity. Qed.

Lemma calculate_tdee_float f activity_level :
  calculate_tdee (PyFloat f) activity_level
  = Ok (PyFloat (mul f (multiplier_of activity_level))).
Proof. rewrite calculate_tdee_eq. reflexivity. Qed.

Lemma calculate_all_feet_raises age gender weight height activity_level goal
    weight_unit :
  raises (calculate_all age gender weight height activity_level goal
            weight_unit "ft").
Proof.
  unfold calculate_all. rewrite convert_height_defaults.
  destruct (convert_weight weight weight_unit) as [w_kg|e]; simpl;
    [|eexists; reflexivity].
  destruct (calculate_bmr_mifflin _ _ _ _) as [b|e]; simpl;
    [|eexists; reflexivity].
  destruct (calculate_tdee _ _) as [t|e]; simpl; [|eexists; reflexivity].
  destruct (calculate_bmi_zero_raises w_kg (PyFloat (S754_zero false)) eq_refl)
    as [e ->].
  eexists; reflexivity.
Qed.

Lemma of_Z_sized k z :
  0 < k <= 2 ^ 20 -> Z.abs z < 2 ^ 1000 -> is_inf (of_Z (k * z)) = false.
Proof.
  intros Hk Hz. apply of_Z_finite.
  replace (2 ^ 1023) with (2 ^ 23 * 2 ^ 1000)
    by (rewrite <- Z.pow_add_r by lia; reflexivity).
  rewrite Z.abs_mul, (Z.abs_eq k) by lia.
  change (2 ^ 20) with 1048576 in Hk. change (2 ^ 23) with 8388608.
  assert (0 < 2 ^ 1000) by (apply Z.pow_pos_nonneg; lia).
  set (B := 2 ^ 1000) in *. clearbody B. nia.
Qed.

Lemma calculate_bmr_int_float a g age gender :
  is_inf (of_Z (10 * a)) = false -> is_inf (of_Z (5 * age)) = false ->
  exists b, calculate_bmr_mifflin (PyInt a) (PyFloat g) age gender
            = Ok (PyFloat b).
Proof.
  intros Ha Hage. unfold calculate_bmr_mifflin.
  assert (H10 : float_of_int (10 * a) = Ok (of_Z (10 * a))).
  { unfold float_of_int. rewrite Ha. reflexivity. }
  assert (H5 : float_of_int (5 * age) = Ok (of_Z (5 * age))).
  { unfold float_of_int. rewrite Hage. reflexivity. }
  case_decide; unfold py_mul, py_add, py_sub, to_float;
    cbn [mbind result_bind]; rewrite H10; cbn [mbind result_bind];
    rewrite H5; cbn [mbind result_bind]; eexists; reflexivity.
Qed.

Lemma calculate_all_feet_zero_division age gender weight height
    activity_level goal weight_unit :
  float_sized weight -> Z.abs age < 2 ^ 1000 ->
  calculate_all age gender weight height activity_level goal
    weight_unit "ft" = Raise ZeroDivisionError.
Proof.
  intros Hw Hage.
  assert (H5 : is_inf (of_Z (5 * age)) = false)
    by (apply of_Z_sized; [change (2 ^ 20) with 1048576; lia|exact Hage]).
  assert (Hfloat : forall g,
    (w_kg ← Ok (PyFloat g);
     bmr ← calculate_bmr_mifflin w_kg (PyFloat (S754_zero false)) age gender;
     tdee ← calculate_tdee bmr activity_level;
     bmi ← calculate_bmi w_kg (PyFloat (S754_zero false));
     Ok bmi) = Raise ZeroDivisionError).
  { intros g. cbn [mbind result_bind].
    destruct (calculate_bmr_float g (S754_zero false) age gender H5) as [b ->].
    cbn [mbind result_bind]. rewrite calculate_tdee_float.
    cbn [mbind result_bind].
    rewrite (calculate_bmi_zero_height (PyFloat g) (PyFloat (S754_zero false)))
      by reflexivity.
    reflexivity. }
  unfold calculate_all. rewrite convert_height_defaults.
  destruct weight as [a|f]; cbn [float_sized] in Hw.
  - assert (H1 : is_inf (of_Z a) = false).
    { replace a with (1 * a) by lia.
      apply of_Z_sized; [change (2 ^ 20) with 1048576; lia|exact Hw]. }
    assert (H10 : is_inf (of_Z (10 * a)) = false)
      by (apply of_Z_sized; [change (2 ^ 20) with 1048576; lia|exact Hw]).
    assert (Hf : float_of_int a = Ok (of_Z a)).
    { unfold float_of_int. rewrite H1. reflexivity. }
    unfold convert_weight. case_decide.
    + rewrite py_mul_float_r. unfold to_float. rewrite Hf.
      cbn [mbind result_bind].
      specialize (Hfloat (mul (of_Z a) (decimal 453592 6))).
      cbn [mbind result_bind] in Hfloat.
      destruct (calculate_bmr_mifflin _ _ _ _); cbn [mbind result_bind] in *;
        [|congruence].
      destruct (calculate_tdee _ _); cbn [mbind result_bind] in *;
        [|congruence].
      destruct (calculate_bmi _ _); cbn [mbind result_bind] in *; congruence.
    + cbn [mbind result_bind].
      destruct (calculate_bmr_int_float a (S754_zero false) age gender H10 H5)
        as [b ->].
      cbn [mbind result_bind]. rewrite calculate_tdee_float.
      cbn [mbind result_bind].
      rewrite (calculate_bmi_zero_height (PyInt a) (PyFloat (S754_zero false)))
        by reflexivity.
      unfold to_float. rewrite Hf. reflexivity.
  - destruct (convert_weight_float f weight_unit) as [g ->].
    specialize (Hfloat g). cbn [mbind result_bind] in *.
    destruct (calculate_bmr_mifflin _ _ _ _); cbn [mbind result_bind] in *;
      [|congruence].
    destruct (calculate_tdee _ _); cbn [mbind result_bind] in *;
      [|congruence].
    destruct (calculate_bmi _ _); cbn [mbind result_bind] in *; congruence.
Qed.

(** ** Drift of the meal plan *)

Lemma portion_bound c pct mf ef :
  decimal pct 2 = S754_finite false mf ef ->
  Z.pos (digits2_pos mf) = 53 -> -56 <= ef <= -54 ->
  Z.abs (100 * Z.pos mf - pct * 2 ^ (- ef)) <= 50 ->
  Z.abs c < 2 ^ 46 ->
  exists k, portion (PyInt c) (decimal pct 2) = Ok k
            /\ Z.abs (100 * k - pct * c) <= 50.
Proof.
  intros Hf Df Hef Hc Hb. rewrite Hf. unfold portion.
  rewrite py_mul_float_r. unfold to_float, float_of_int, of_Z, binary_normalize.
  destruct c as [|p|p].
  - exists 0. split; [reflexivity|]. lia.
  - destruct (F64Facts.round_product false p pct mf ef Df Hef Hc)
      as (a & k & -> & Ha & Hfin & Hk & Hbd); [lia|].
    exists k. rewrite Ha. cbn [mbind result_bind]. split; [|exact Hbd].
    unfold py_round. rewrite <- Hk.
    destruct (mul a (S754_finite false mf ef)); try discriminate; reflexivity.
  - destruct (F64Facts.round_product true p pct mf ef Df Hef Hc)
      as (a & k & -> & Ha & Hfin & Hk & Hbd); [lia|].
    exists (- k). rewrite Ha. cbn [mbind result_bind]. split; [|lia].
    unfold py_round. rewrite <- Hk.
    destruct (mul a (S754_finite false mf ef)); try discriminate; reflexivity.
Qed.

Lemma portion_percent c pct :
  pct ∈ [10; 25; 30; 35; 40] ->
  Z.abs c < 2 ^ 46 ->
  exists k, portion (PyInt c) (decimal pct 2) = Ok k
            /\ Z.abs (100 * k - pct * c) <= 50.
Proof.
  intros Hp Hc.
  repeat (apply elem_of_cons in Hp as [->|Hp]);
    [..|apply elem_of_nil in Hp as []];
    (eapply portion_bound;
     [vm_compute; reflexivity | vm_compute; reflexivity | lia
     |vm_compute; intro; discriminate | exact Hc]).
Qed.

Lemma plan_total_empty : plan_total ∅ = 0.
Proof. apply map_fold_empty. Qed.

Lemma plan_total_insert name kcal (plan : gmap string Z) :
  plan !! name = None ->
  plan_total (<[name := kcal]> plan) = kcal + plan_total plan.
Proof.
  intros Hn. unfold plan_total.
  rewrite map_fold_insert_L; [reflexivity| |exact Hn].
  intros. lia.
Qed.

Lemma plan_total_3 b l d :
  plan_total {[ "breakfast" := b; "lunch" := l; "dinner" := d ]} = b + l + d.
Proof.
  rewrite <- insert_empty.
  rewrite !plan_total_insert, plan_total_empty by (simplify_map_eq; reflexivity).
  lia.
Qed.

Lemma plan_total_4 b l d s :
  plan_total {[ "breakfast" := b; "lunch" := l; "dinner" := d; "snacks" := s ]}
  = b + l + d + s.
Proof.
  rewrite <- insert_empty.
  rewrite !plan_total_insert, plan_total_empty by (simplify_map_eq; reflexivity).
  lia.
Qed.

Lemma plan_total_5 b s1 l s2 d :
  plan_total {[ "breakfast" := b; "snack1" := s1; "lunch" := l; "snack2" := s2;
                "dinner" := d ]}
  = b + s1 + l + s2 + d.
Proof.
  rewrite <- insert_empty.
  rewrite !plan_total_insert, plan_total_empty by (simplify_map_eq; reflexivity).
  lia.
Qed.

Lemma calculate_all_zero_height age gender weight height activity_level goal
    weight_unit height_unit :
  is_zero_num height = true ->
  raises (calculate_all age gender weight height activity_level goal
            weight_unit height_unit).
Proof.
  intros Hz. destruct (decide (height_unit = "ft")) as [->|Hu].
  { apply calculate_all_feet_raises. }
  unfold calculate_all. rewrite convert_height_other by exact Hu.
  destruct (convert_weight weight weight_unit) as [w_kg|e];
    cbn [mbind result_bind]; [|eexists; reflexivity].
  destruct (calculate_bmr_mifflin _ _ _ _) as [b|e];
    cbn [mbind result_bind]; [|eexists; reflexivity].
  destruct (calculate_tdee _ _) as [t|e];
    cbn [mbind result_bind]; [|eexists; reflexivity].
  destruct (calculate_bmi_zero_raises w_kg height Hz) as [e ->].
  eexists; reflexivity.
Qed.

(** ** The HTTP boundary *)

Lemma calculate_reports age gender weight height activity goal weight_unit
    height_unit :
  raises (calculate_all age gender weight height activity goal
            (default "kg" weight_unit) (default "cm" height_unit)) ->
  exists e,
    calculate {| req_age := Some age; req_gender := Some gender;
                 req_weight := Some weight; req_height := Some height;
                 req_activity := Some activity; req_goal := Some goal;
                 req_weight_unit := weight_unit;
                 req_height_unit := height_unit |} = Failure 400 e.
Proof.
  intros [e He]. exists e. unfold calculate. cbn [field mbind result_bind
    req_age req_gender req_weight req_height req_activity req_goal
    req_weight_unit req_height_unit].
  rewrite He. reflexivity.
Qed.

Lemma projected_change_values :
  (calculate_weekly_change (PyInt (-1000)) ≫= fun x => py_round_to x 2)
  = Ok (PyFloat (decimal (-91) 2))
  /\ (calculate_weekly_change (PyInt (-500)) ≫= fun x => py_round_to x 2)
     = Ok (PyFloat (decimal (-45) 2))
  /\ (calculate_weekly_change (PyInt 0) ≫= fun x => py_round_to x 2)
     = Ok (PyFloat (S754_zero false))
  /\ (calculate_weekly_change (PyInt 500) ≫= fun x => py_round_to x 2)
     = Ok (PyFloat (decimal 45 2))
  /\ (calculate_weekly_change (PyInt 1000) ≫= fun x => py_round_to x 2)
     = Ok (PyFloat (decimal 91 2)).
Proof. repeat split; vm_compute; reflexivity. Qed.

(** * The claims of the specification *)

(** C1. [calculate_all] returns a result exactly when every step of the
    sequence of the specification succeeds, and the result is the one of the
    sequence: the daily target is [round(tdee + delta)] with the adjustment
    [delta] of the goal (0 for an unknown goal), macros and meal plan are
    computed on that target, the weekly change is
    [round(delta * 7 / 7700, 2)], and weight and height are the normalized
    values rounded to one decimal. *)
Theorem calculate_all_sequence age gender weight height activity_level goal
    weight_unit height_unit r :
  calculate_all age gender weight height activity_level goal
    weight_unit height_unit = Ok r <->
  follows_sequence age gender weight height activity_level goal
    weight_unit height_unit r.
Proof.
  unfold calculate_all, follows_sequence. rewrite goal_adjustments_get.
  split.
  - intros H.
    apply bind_Ok in H as (w_kg & Hw & H).
    apply bind_Ok in H as (h_cm & Hh & H).
    apply bind_Ok in H as (b & Hb & H).
    apply bind_Ok in H as (t & Ht & H).
    apply bind_Ok in H as (i & Hi & H).
    apply bind_Ok in H as (target & Htarget & H).
    apply bind_Ok in H as (daily & Hdaily & H).
    apply bind_Ok in H as (ms & Hms & H).
    apply bind_Ok in H as (plan & Hplan & H).
    apply bind_Ok in H as (change & Hchange & H).
    apply bind_Ok in H as (rb & Hrb & H).
    apply bind_Ok in H as (rt & Hrt & H).
    apply bind_Ok in H as (ri & Hri & H).
    apply bind_Ok in H as (rc & Hrc & H).
    apply bind_Ok in H as (rw & Hrw & H).
    apply bind_Ok in H as (rh & Hrh & H).
    injection H as <-. simpl.
    exists w_kg, h_cm, b, t, i.
    rewrite calculate_weekly_change_eq in Hchange.
    unfold lift2, var, int in *. simpl in *.
    rewrite Htarget, Hchange. simpl. tauto.
  - intros (w_kg & h_cm & b & t & i & Hw & Hh & Hb & Ht & Hi & Hd & Hm & Hp
            & Hc & Hrw & Hrh & Hrb & Hrt & Hri & Hcat & Hwd).
    rewrite Hw, Hh. cbn [mbind result_bind].
    rewrite Hb. cbn [mbind result_bind].
    rewrite Ht. cbn [mbind result_bind].
    rewrite Hi. cbn [mbind result_bind].
    unfold lift2, var, int in Hd, Hc. cbn [mbind result_bind] in Hd, Hc.
    apply bind_Ok in Hd as (target & -> & Hd). cbn [mbind result_bind].
    rewrite Hd. cbn [mbind result_bind].
    rewrite Hm. cbn [mbind result_bind].
    rewrite Hp. cbn [mbind result_bind].
    rewrite calculate_weekly_change_eq.
    unfold lift2, var, int. cbn [mbind result_bind].
    apply bind_Ok in Hc as (change & -> & Hc). cbn [mbind result_bind].
    rewrite Hrb. cbn [mbind result_bind].
    rewrite Hrt. cbn [mbind result_bind].
    rewrite Hri. cbn [mbind result_bind].
    rewrite Hc. cbn [mbind result_bind].
    rewrite Hrw. cbn [mbind result_bind].
    rewrite Hrh. cbn [mbind result_bind].
    destruct r; cbn in *. subst. reflexivity.
Qed.

Lemma calculate_all_sequence_witness :
  exists r,
    calculate_all 25 "male" (PyInt 70) (PyInt 175) "sedentary" "lose" "kg" "cm"
    = Ok r
    /\ daily_calories r = 1508
    /\ follows_sequence 25 "male" (PyInt 70) (PyInt 175) "sedentary" "lose"
         "kg" "cm" r.
Proof.
  eexists. split; [vm_compute; reflexivity|]. split; [reflexivity|].
  apply (proj1 (calculate_all_sequence 25 "male" (PyInt 70) (PyInt 175)
                  "sedentary" "lose" "kg" "cm" _)).
  vm_compute. reflexivity.
Defined.

(** C2, as the specification states it, fails on its own example: for a male
    of 70 kg, 175 cm and 25 years the result is 1673.75, not 1073.75. *)
Lemma calculate_bmr_example_is_not_1073_75 :
  calculate_bmr_mifflin (PyInt 70) (PyInt 175) 25 "male"
  = Ok (PyFloat (decimal 167375 2))
  /\ calculate_bmr_mifflin (PyFloat (decimal 70 0)) (PyFloat (decimal 175 0))
       25 "male"
     = Ok (PyFloat (decimal 167375 2))
  /\ F64.eqb (decimal 167375 2) (decimal 107375 2) = false.
Proof. repeat split; vm_compute; reflexivity. Qed.

(** C2, amended. The BMR is [10*weight + 6.25*height - 5*age + 5] when the
    lower-cased gender is ['male'] and [... - 161] otherwise, evaluated in
    Python arithmetic; on integers up to 2^40 no operation rounds and the
    float returned is exactly the value of the formula; the example of the
    specification gives 1673.75; the value is not clamped and can be
    negative. *)
Theorem calculate_bmr_mifflin_formula weight_kg height_cm age gender :
  (lower gender = "male" ->
   calculate_bmr_mifflin weight_kg height_cm age gender
   = (int 10 * var weight_kg + flt 625 2 * var height_cm
      - int 5 * int age + int 5)%py)
  /\ (lower gender <> "male" ->
      calculate_bmr_mifflin weight_kg height_cm age gender
      = (int 10 * var weight_kg + flt 625 2 * var height_cm
         - int 5 * int age - int 161)%py)
  /\ (forall w h,
        weight_kg = PyInt w -> height_cm = PyInt h ->
        Z.abs w <= 2 ^ 40 -> Z.abs h <= 2 ^ 40 -> Z.abs age <= 2 ^ 40 ->
        exists f,
          calculate_bmr_mifflin weight_kg height_cm age gender = Ok (PyFloat f)
          /\ represents f
               (4 * (10 * w) + 25 * h - 4 * (5 * age)
                + 4 * (if decide (lower gender = "male") then 5 else -161))
               (-2))
  /\ calculate_bmr_mifflin (PyInt 70) (PyInt 175) 25 "male"
     = Ok (PyFloat (decimal 167375 2))
  /\ (exists b, calculate_bmr_mifflin (PyInt 1) (PyInt 1) 100 "female" = Ok b
                /\ py_lt b (PyInt 0) = true).
Proof.
  split; [apply calculate_bmr_male|]. split; [apply calculate_bmr_other|].
  split.
  { intros w h -> -> Hw Hh Ha. eexists.
    split; [apply calculate_bmr_integers; assumption|].
    match goal with |- represents _ ?n _ =>
      replace n with (40 * w + 25 * h - 20 * age
                      + (if decide (lower gender = "male") then 20 else -644))
        by (case_decide; lia)
    end.
    apply exact_represents; [|lia].
    change (2 ^ 40) with 1099511627776 in *.
    change (2 ^ 53) with 9007199254740992.
    case_decide; lia. }
  split; [vm_compute; reflexivity|].
  eexists. split; vm_compute; reflexivity.
Qed.

Lemma calculate_bmr_mifflin_formula_witness :
  lower "Male" = "male"
  /\ calculate_bmr_mifflin (PyInt 80) (PyFloat (decimal 1805 1)) 40 "Male"
     = (int 10 * var (PyInt 80) + flt 625 2 * var (PyFloat (decimal 1805 1))
        - int 5 * int 40 + int 5)%py
  /\ lower "female" <> "male"
  /\ calculate_bmr_mifflin (PyInt 60) (PyInt 165) 30 "female"
     = (int 10 * var (PyInt 60) + flt 625 2 * var (PyInt 165)
        - int 5 * int 30 - int 161)%py
  /\ (Z.abs 60 <= 2 ^ 40 /\ Z.abs 165 <= 2 ^ 40 /\ Z.abs 30 <= 2 ^ 40)
  /\ exists f,
       calculate_bmr_mifflin (PyInt 60) (PyInt 165) 30 "female"
       = Ok (PyFloat f)
       /\ represents f
            (4 * (10 * 60) + 25 * 165 - 4 * (5 * 30)
             + 4 * (if decide (lower "female" = "male") then 5 else -161))
            (-2).
Proof.
  split; [reflexivity|]. split.
  { apply (proj1 (calculate_bmr_mifflin_formula (PyInt 80)
                    (PyFloat (decimal 1805 1)) 40 "Male")). reflexivity. }
  split; [discriminate|]. split.
  { apply (proj1 (proj2 (calculate_bmr_mifflin_formula (PyInt 60) (PyInt 165)
                           30 "female"))). discriminate. }
  split; [repeat split; discriminate|].
  apply (proj1 (proj2 (proj2 (calculate_bmr_mifflin_formula (PyInt 60)
                                (PyInt 165) 30 "female"))) 60 165);
    try reflexivity; discriminate.
Defined.

(** C3, as the specification states it, fails for a height that is not zero
    but whose square underflows: [calculate_bmi(70, 1e-170)] raises
    [ZeroDivisionError]. *)
Lemma calculate_bmi_nonzero_height_raises :
  is_zero_num (PyFloat (decimal 1 170)) = false
  /\ calculate_bmi (PyInt 70) (PyFloat (decimal 1 170)) = Raise ZeroDivisionError
  /\ ~ returns (calculate_bmi (PyInt 70) (PyFloat (decimal 1 170))).
Proof.
  split; [reflexivity|]. split; [vm_compute; reflexivity|].
  intros [v Hv]. vm_compute in Hv. discriminate.
Qed.

(** C3, amended. With a zero height [calculate_bmi] raises (the division by
    zero, once the weight is converted) and [calculate] answers with a
    failure of status 400; it returns exactly when [(height/100) ** 2] is a
    non-zero float, and then the value is [weight / (height/100) ** 2]. *)
Theorem calculate_bmi_spec weight_kg height_cm :
  (is_zero_num height_cm = true ->
   calculate_bmi weight_kg height_cm
   = (_ ← to_float weight_kg; Raise ZeroDivisionError)
   /\ raises (calculate_bmi weight_kg height_cm)
   /\ forall age gender activity goal weight_unit height_unit,
        exists e,
          calculate {| req_age := Some age; req_gender := Some gender;
                       req_weight := Some weight_kg;
                       req_height := Some height_cm;
                       req_activity := Some activity; req_goal := Some goal;
                       req_weight_unit := weight_unit;
                       req_height_unit := height_unit |} = Failure 400 e)
  /\ (forall v,
        calculate_bmi weight_kg height_cm = Ok v <->
        exists wf hm sq,
          to_float weight_kg = Ok wf
          /\ (var height_cm / int 100)%py = Ok (PyFloat hm)
          /\ squared (Ok (PyFloat hm)) = Ok (PyFloat sq)
          /\ is_zero sq = false
          /\ v = PyFloat (div wf sq))
  /\ calculate_bmi weight_kg height_cm
     = (var weight_kg / squared (var height_cm / int 100))%py.
Proof.
  split; [|split].
  - intros Hz. split; [apply calculate_bmi_zero_height; exact Hz|].
    split; [apply calculate_bmi_zero_raises; exact Hz|].
    intros. apply calculate_reports. apply calculate_all_zero_height. exact Hz.
  - intros v. apply calculate_bmi_returns.
  - unfold calculate_bmi, lift2, squared, var, int. cbn [mbind result_bind].
    destruct (py_truediv height_cm (PyInt 100)) as [hm|];
      cbn [mbind result_bind]; [|destruct weight_kg; reflexivity].
    destruct (py_square hm); reflexivity.
Qed.

Lemma calculate_bmi_spec_witness :
  is_zero_num (PyFloat (S754_zero true)) = true
  /\ raises (calculate_bmi (PyInt 70) (PyFloat (S754_zero true)))
  /\ calculate_bmi (PyInt 70) (PyInt 175)
     = Ok (PyFloat (S754_finite false 6433713753386423 (-48))).
Proof.
  split; [reflexivity|]. split.
  - apply (proj1 (calculate_bmi_spec (PyInt 70) (PyFloat (S754_zero true)))).
    reflexivity.
  - apply (proj1 (proj2 (calculate_bmi_spec (PyInt 70) (PyInt 175)))).
    eexists _, _, _. repeat split; vm_compute; reflexivity.
Defined.

(** C4. With the height unit ['ft'] the height is converted without feet and
    inches, so it is [0.0] whatever height was given; the BMI of a zero
    height raises, and every such call of [calculate_all] raises and never
    returns: it is the division by zero of the BMI for every weight and age
    inside the range of the floats. The HTTP layer answers with a failure. *)
Theorem calculate_all_feet_fails age gender weight height activity_level goal
    weight_unit :
  convert_height height "ft" None None = Ok (PyFloat (S754_zero false))
  /\ raises (calculate_bmi weight (PyFloat (S754_zero false)))
  /\ raises (calculate_all age gender weight height activity_level goal
               weight_unit "ft")
  /\ ~ returns (calculate_all age gender weight height activity_level goal
                  weight_unit "ft")
  /\ (float_sized weight -> Z.abs age < 2 ^ 1000 ->
      calculate_all age gender weight height activity_level goal
        weight_unit "ft" = Raise ZeroDivisionError)
  /\ exists e,
       calculate {| req_age := Some age; req_gender := Some gender;
                    req_weight := Some weight; req_height := Some height;
                    req_activity := Some activity_level; req_goal := Some goal;
                    req_weight_unit := Some weight_unit;
                    req_height_unit := Some "ft" |} = Failure 400 e.
Proof.
  split; [reflexivity|].
  split; [apply calculate_bmi_zero_raises; reflexivity|].
  split; [apply calculate_all_feet_raises|].
  split.
  { intros [r Hr].
    destruct (calculate_all_feet_raises age gender weight height
                activity_level goal weight_unit) as [e He].
    congruence. }
  split; [apply calculate_all_feet_zero_division|].
  apply (calculate_reports age gender weight height activity_level goal
           (Some weight_unit) (Some "ft")).
  apply calculate_all_feet_raises.
Qed.

Lemma calculate_all_feet_fails_witness :
  float_sized (PyInt 70) /\ Z.abs 25 < 2 ^ 1000
  /\ calculate_all 25 "male" (PyInt 70) (PyFloat (decimal 59 1))
       "moderate" "maintain" "kg" "ft" = Raise ZeroDivisionError.
Proof.
  assert (Hw : float_sized (PyInt 70)).
  { cbn. apply Z.lt_le_trans with (2 ^ 7); [reflexivity|].
    apply Z.pow_le_mono_r; lia. }
  assert (Ha : Z.abs 25 < 2 ^ 1000).
  { apply Z.lt_le_trans with (2 ^ 5); [reflexivity|].
    apply Z.pow_le_mono_r; lia. }
  split; [exact Hw|]. split; [exact Ha|].
  exact (proj1 (proj2 (proj2 (proj2 (proj2
           (calculate_all_feet_fails 25 "male" (PyInt 70)
              (PyFloat (decimal 59 1)) "moderate" "maintain" "kg")))))
           Hw Ha).
Defined.

(** C5, as the specification states it, fails for a BMI that is not a
    number: NaN is labelled ['Obese'] although [NaN >= 30] is false. *)
Lemma get_bmi_category_nan_breaks_brackets :
  ~ bmi_brackets (PyFloat S754_nan).
Proof.
  intros (_ & _ & _ & Hob). apply proj1 in Hob.
  specialize (Hob eq_refl). discriminate.
Qed.

(** C5, amended. For every BMI that is a number the label is ['Underweight']
    iff [bmi < 18.5], ['Normal'] iff [18.5 <= bmi < 25], ['Overweight'] iff
    [25 <= bmi < 30] and ['Obese'] iff [bmi >= 30]; 18.5, 25.0 and 30.0 are
    ['Normal'], ['Overweight'] and ['Obese']; NaN is ['Obese']. *)
Theorem get_bmi_category_brackets bmi :
  (is_nan_num bmi = false -> bmi_brackets bmi)
  /\ get_bmi_category (PyFloat (decimal 185 1)) = "Normal"
  /\ get_bmi_category (PyFloat (decimal 250 1)) = "Overweight"
  /\ get_bmi_category (PyFloat (decimal 300 1)) = "Obese"
  /\ get_bmi_category (PyFloat S754_nan) = "Obese".
Proof.
  split; [apply get_bmi_category_number|].
  repeat split; vm_compute; reflexivity.
Qed.

Lemma get_bmi_category_brackets_witness :
  is_nan_num (PyFloat (decimal 2286 2)) = false
  /\ bmi_brackets (PyFloat (decimal 2286 2))
  /\ get_bmi_category (PyFloat (decimal 2286 2)) = "Normal".
Proof.
  split; [reflexivity|]. split; [|vm_compute; reflexivity].
  apply (proj1 (get_bmi_category_brackets (PyFloat (decimal 2286 2)))).
  reflexivity.
Defined.

(** C6. Without ratios [calculate_macros] uses 0.30, 0.40 and 0.30; with
    ratios it returns exactly when the six roundings succeed, with grams
    [round(calories * ratio / 4)] for protein and carbs and
    [round(calories * ratio / 9)] for fats and percent [round(ratio * 100)];
    for 2000 calories that is 150 g / 30, 200 g / 40 and 67 g / 30. *)
Theorem calculate_macros_spec calories ratios rp rc rf m :
  ratios !! "protein" = Some rp ->
  ratios !! "carbs" = Some rc ->
  ratios !! "fats" = Some rf ->
  (calculate_macros calories (Some ratios) = Ok m <->
   (grams_of calories rp 4 = Ok (grams (protein m))
    /\ percent_of rp = Ok (percent (protein m)))
   /\ (grams_of calories rc 4 = Ok (grams (carbs m))
       /\ percent_of rc = Ok (percent (carbs m)))
   /\ (grams_of calories rf 9 = Ok (grams (fats m))
       /\ percent_of rf = Ok (percent (fats m))))
  /\ calculate_macros calories None
     = calculate_macros calories
         (Some {[ "protein" := PyFloat (decimal 30 2);
                  "carbs" := PyFloat (decimal 40 2);
                  "fats" := PyFloat (decimal 30 2) ]})
  /\ calculate_macros (PyInt 2000) None
     = Ok {| protein := {| grams := 150; percent := 30 |};
             carbs := {| grams := 200; percent := 40 |};
             fats := {| grams := 67; percent := 30 |} |}.
Proof.
  intros Hp Hc Hf.
  split; [apply calculate_macros_returns; assumption|].
  split; [reflexivity|apply calculate_macros_2000].
Qed.

Lemma calculate_macros_spec_witness :
  exists m,
    calculate_macros (PyInt 1508)
      (Some {[ "protein" := PyFloat (decimal 25 2);
               "carbs" := PyFloat (decimal 50 2);
               "fats" := PyFloat (decimal 25 2) ]}) = Ok m
    /\ grams_of (PyInt 1508) (PyFloat (decimal 25 2)) 4 = Ok (grams (protein m))
    /\ grams (protein m) = 94 /\ grams (carbs m) = 188 /\ grams (fats m) = 42.
Proof.
  eexists. split; [vm_compute; reflexivity|].
  split; [|repeat split].
  refine (proj1 (proj1 (proj1 (proj1
    (calculate_macros_spec (PyInt 1508)
       {[ "protein" := PyFloat (decimal 25 2);
          "carbs" := PyFloat (decimal 50 2);
          "fats" := PyFloat (decimal 25 2) ]}
       (PyFloat (decimal 25 2)) (PyFloat (decimal 50 2))
       (PyFloat (decimal 25 2)) _ eq_refl eq_refl eq_refl)) _))).
  vm_compute. reflexivity.
Defined.

(** C7. [generate_meal_plan] is the plan of the table of its meal count
    (30/40/30 for 3 meals, 25/10/30/10/25 for 5, 25/35/30/10 for any other
    count), each meal being [round(calories * fraction)]; 2000 calories in 3
    meals give 600, 800 and 600, which sum to 2000. *)
Theorem generate_meal_plan_spec calories meals :
  generate_meal_plan calories meals = plan_of calories (meal_percents meals)
  /\ meal_percents 3 = [("breakfast", 30); ("lunch", 40); ("dinner", 30)]
  /\ meal_percents 5 = [("breakfast", 25); ("snack1", 10); ("lunch", 30);
                        ("snack2", 10); ("dinner", 25)]
  /\ (meals <> 3 -> meals <> 5 ->
      meal_percents meals = [("breakfast", 25); ("lunch", 35); ("dinner", 30);
                             ("snacks", 10)])
  /\ (forall pct, rounded_share calories pct
                  = (var calories * flt pct 2)%py ≫= py_round)
  /\ generate_meal_plan (PyInt 2000) 3
     = Ok {[ "breakfast" := 600; "lunch" := 800; "dinner" := 600 ]}
  /\ plan_total {[ "breakfast" := 600; "lunch" := 800; "dinner" := 600 ]} = 2000.
Proof.
  split; [apply generate_meal_plan_table|].
  split; [reflexivity|]. split; [reflexivity|].
  split. { intros H3 H5. unfold meal_percents. repeat case_decide; congruence. }
  split; [reflexivity|]. apply generate_meal_plan_2000_3.
Qed.

Lemma generate_meal_plan_spec_witness :
  (4 <> 3 /\ 4 <> 5)
  /\ meal_percents 4 = [("breakfast", 25); ("lunch", 35); ("dinner", 30);
                        ("snacks", 10)]
  /\ generate_meal_plan (PyInt 1508) 4
     = Ok {[ "breakfast" := 377; "lunch" := 528; "dinner" := 452;
             "snacks" := 151 ]}.
Proof.
  split; [split; discriminate|]. split.
  - apply (proj1 (proj2 (proj2 (proj2
             (generate_meal_plan_spec (PyInt 1508) 4))))); discriminate.
  - vm_compute. reflexivity.
Defined.

(** C8, as the specification states it, fails: 6 calories in 5 meals give
    2 + 1 + 2 + 1 + 2 = 8, which is 2 away from 6. *)
Lemma generate_meal_plan_drift_exceeds_1 :
  exists plan,
    generate_meal_plan (PyInt 6) 5 = Ok plan
    /\ plan_total plan = 8
    /\ ~ (Z.abs (plan_total plan - 6) <= 1).
Proof.
  eexists. split; [apply generate_meal_plan_6_5|].
  split; [apply generate_meal_plan_6_5|].
  rewrite (proj2 generate_meal_plan_6_5). vm_compute. intros H. apply H.
  reflexivity.
Qed.

(** C8, amended. For an integer number of calories below 2^46 in magnitude
    the plan is returned and its sum differs from the calories by at most 2,
    and by at most 1 when the meal count is not 5. *)
Theorem generate_meal_plan_total calories meals :
  Z.abs calories < 2 ^ 46 ->
  exists plan,
    generate_meal_plan (PyInt calories) meals = Ok plan
    /\ Z.abs (plan_total plan - calories) <= 2
    /\ (meals <> 5 -> Z.abs (plan_total plan - calories) <= 1).
Proof.
  intros Hc. set (c := calories) in *.
  destruct (portion_percent c 10 ltac:(set_solver) Hc) as (k10 & E10 & B10).
  destruct (portion_percent c 25 ltac:(set_solver) Hc) as (k25 & E25 & B25).
  destruct (portion_percent c 30 ltac:(set_solver) Hc) as (k30 & E30 & B30).
  destruct (portion_percent c 35 ltac:(set_solver) Hc) as (k35 & E35 & B35).
  destruct (portion_percent c 40 ltac:(set_solver) Hc) as (k40 & E40 & B40).
  unfold generate_meal_plan. repeat case_decide.
  - rewrite E30, E40. cbn [mbind result_bind].
    eexists. split; [reflexivity|]. rewrite plan_total_3. lia.
  - rewrite E25, E10, E30. cbn [mbind result_bind].
    eexists. split; [reflexivity|]. rewrite plan_total_5. lia.
  - rewrite E25, E35, E30, E10. cbn [mbind result_bind].
    eexists. split; [reflexivity|]. rewrite plan_total_4. lia.
Qed.

Lemma generate_meal_plan_total_witness :
  Z.abs 1508 < 2 ^ 46
  /\ exists plan,
       generate_meal_plan (PyInt 1508) 4 = Ok plan
       /\ Z.abs (plan_total plan - 1508) <= 2
       /\ (4 <> 5 -> Z.abs (plan_total plan - 1508) <= 1).
Proof.
  split; [reflexivity|].
  apply (generate_meal_plan_total 1508 4). reflexivity.
Defined.

(** C9. The TDEE is the BMR times the multiplier of the activity level (1.2,
    1.375, 1.55, 1.725, 1.9); an unknown level takes 1.2 as ['sedentary']
    does; on a float BMR the call always returns; [1073.75] at
    ['sedentary'] gives [1288.5]. *)
Theorem calculate_tdee_spec bmr activity_level :
  calculate_tdee bmr activity_level
  = (var bmr * Ok (PyFloat (multiplier_of activity_level)))%py
  /\ (forall f, bmr = PyFloat f ->
        calculate_tdee bmr activity_level
        = Ok (PyFloat (mul f (multiplier_of activity_level))))
  /\ multiplier_of "sedentary" = decimal 12 1
  /\ multiplier_of "light" = decimal 1375 3
  /\ multiplier_of "moderate" = decimal 155 2
  /\ multiplier_of "active" = decimal 1725 3
  /\ multiplier_of "extra_active" = decimal 19 1
  /\ (activity_level ∉ ["sedentary"; "light"; "moderate"; "active";
                         "extra_active"] ->
      multiplier_of activity_level = decimal 12 1
      /\ calculate_tdee bmr activity_level = calculate_tdee bmr "sedentary")
  /\ calculate_tdee (PyFloat (decimal 107375 2)) "sedentary"
     = Ok (PyFloat (decimal 12885 1)).
Proof.
  split; [apply calculate_tdee_eq|].
  split; [intros f ->; apply calculate_tdee_float|].
  repeat (split; [reflexivity|]).
  split; [|vm_compute; reflexivity].
  intros Hu. split; [apply multiplier_of_unknown; exact Hu|].
  rewrite !calculate_tdee_eq, multiplier_of_unknown by exact Hu. reflexivity.
Qed.

Lemma calculate_tdee_spec_witness :
  ("couch" ∉ ["sedentary"; "light"; "moderate"; "active"; "extra_active"])
  /\ calculate_tdee (PyFloat (decimal 167375 2)) "couch"
     = Ok (PyFloat (mul (decimal 167375 2) (decimal 12 1)))
  /\ calculate_tdee (PyFloat (decimal 167375 2)) "couch"
     = calculate_tdee (PyFloat (decimal 167375 2)) "sedentary".
Proof.
  assert (Hu : "couch" ∉ ["sedentary"; "light"; "moderate"; "active";
                          "extra_active"]).
  { intros H. repeat (apply elem_of_cons in H as [H|H]; [discriminate|]).
    apply elem_of_nil in H. exact H. }
  destruct (calculate_tdee_spec (PyFloat (decimal 167375 2)) "couch")
    as (_ & Hf & _ & _ & _ & _ & _ & Hun & _).
  split; [exact Hu|]. split.
  - rewrite (Hf (decimal 167375 2) eq_refl), (proj1 (Hun Hu)). reflexivity.
  - exact (proj2 (Hun Hu)).
Defined.

(** C10, as the specification states it, fails in its last part: the
    feet/inches branch is taken with the unit ['ft'] alone, without feet or
    inches; [convert_height(175, 'ft')] returns [0.0]. *)
Lemma convert_height_feet_branch_without_fields :
  ~ feet_branch_needs_fields.
Proof.
  intros H.
  destruct (H (PyInt 175) "ft" None None eq_refl) as [[x Hx]|[x Hx]];
    try discriminate.
  eexists. reflexivity.
Qed.

(** C10, amended. With the unit ['ft'] the result is
    [feet*30.48 + inches*2.54], whatever the height value is; with any other
    unit the height is returned unchanged; the feet/inches branch is taken
    whenever the unit is ['ft'], and a call without feet and inches takes
    both as 0 and returns [0.0]. *)
Theorem convert_height_spec height from_unit feet inches :
  (from_unit = "ft" ->
   convert_height height from_unit feet inches
   = (var (default (PyInt 0) feet) * flt 3048 2
      + var (default (PyInt 0) inches) * flt 254 2)%py)
  /\ (from_unit <> "ft" ->
      convert_height height from_unit feet inches = Ok height)
  /\ convert_height height "ft" None None = Ok (PyFloat (S754_zero false)).
Proof.
  split; [intros ->; apply convert_height_feet|].
  split; [apply convert_height_other|reflexivity].
Qed.

Lemma convert_height_spec_witness :
  convert_height (PyInt 0) "ft" (Some (PyInt 5)) (Some (PyInt 9))
  = (var (PyInt 5) * flt 3048 2 + var (PyInt 9) * flt 254 2)%py
  /\ convert_height (PyInt 0) "ft" (Some (PyInt 5)) (Some (PyInt 9))
     = Ok (PyFloat (decimal 17526 2))
  /\ "cm" <> "ft"
  /\ convert_height (PyFloat (decimal 1755 1)) "cm" None None
     = Ok (PyFloat (decimal 1755 1)).
Proof.
  split.
  { apply (proj1 (convert_height_spec (PyInt 0) "ft" (Some (PyInt 5))
                    (Some (PyInt 9)))). reflexivity. }
  split; [vm_compute; reflexivity|]. split; [discriminate|].
  apply (proj1 (proj2 (convert_height_spec (PyFloat (decimal 1755 1)) "cm"
                         None None))). discriminate.
Defined.

(** * Further properties of the code *)

(** ** Units *)

(** X1. Only the exact strings ['lbs'] and ['ft'] select a conversion: with
    any other weight unit and any other height unit [calculate_all] behaves
    as with ['kg'] and ['cm']. *)
Theorem calculate_all_other_units age gender weight height activity_level goal
    weight_unit height_unit :
  weight_unit <> "lbs" -> height_unit <> "ft" ->
  calculate_all age gender weight height activity_level goal
    weight_unit height_unit
  = calculate_all age gender weight height activity_level goal "kg" "cm".
Proof.
  intros Hw Hh. unfold calculate_all.
  rewrite !convert_height_other by (exact Hh || discriminate).
  unfold convert_weight. repeat case_decide; try congruence; reflexivity.
Qed.

Lemma calculate_all_other_units_witness :
  "LBS" <> "lbs" /\ "feet" <> "ft"
  /\ calculate_all 30 "female" (PyInt 154) (PyInt 165) "light" "gain"
       "LBS" "feet"
     = calculate_all 30 "female" (PyInt 154) (PyInt 165) "light" "gain"
         "kg" "cm".
Proof.
  split; [discriminate|]. split; [discriminate|].
  apply (calculate_all_other_units 30 "female" (PyInt 154) (PyInt 165)
           "light" "gain" "LBS" "feet"); discriminate.
Defined.

(** ** Gender *)

Lemma lower_ascii_letter (c x : ascii) :
  x ∈ ["m"; "a"; "l"; "e"]%char ->
  lower_ascii c = x <->
  c = x \/ c = ascii_of_nat (nat_of_ascii x - 32).
Proof.
  intros Hx.
  repeat (apply elem_of_cons in Hx as [->|Hx]);
    [..|apply elem_of_nil in Hx as []];
    destruct c as [[] [] [] [] [] [] [] []]; vm_compute;
    (split; [intros H; try discriminate H; auto
            |intros [H|H]; try discriminate H; reflexivity]).
Qed.

Lemma lower_male gender : lower gender = "male" <-> male_spelling gender.
Proof.
  unfold male_spelling. split.
  - destruct gender as [|c1 [|c2 [|c3 [|c4 [|c5 rest]]]]]; try discriminate.
    cbn [lower]. intros [= H1 H2 H3 H4].
    apply (proj1 (lower_ascii_letter c1 "m" ltac:(repeat constructor))) in H1.
    apply (proj1 (lower_ascii_letter c2 "a" ltac:(repeat constructor))) in H2.
    apply (proj1 (lower_ascii_letter c3 "l" ltac:(repeat constructor))) in H3.
    apply (proj1 (lower_ascii_letter c4 "e" ltac:(repeat constructor))) in H4.
    exists c1, c2, c3, c4. auto.
  - intros (c1 & c2 & c3 & c4 & -> & H1 & H2 & H3 & H4).
    destruct H1 as [-> | ->], H2 as [-> | ->], H3 as [-> | ->],
      H4 as [-> | ->]; reflexivity.
Qed.

(** X2. The male constant [+5] is used exactly for the sixteen
    capitalizations of ['male']; every other string, ['M'] or ['man'] or
    ['male '] included, takes the constant [-161]. *)
Theorem calculate_bmr_mifflin_gender weight_kg height_cm age gender :
  (male_spelling gender ->
   calculate_bmr_mifflin weight_kg height_cm age gender
   = calculate_bmr_mifflin weight_kg height_cm age "male")
  /\ (~ male_spelling gender ->
      calculate_bmr_mifflin weight_kg height_cm age gender
      = calculate_bmr_mifflin weight_kg height_cm age "female").
Proof.
  split; intros Hg; rewrite <- lower_male in Hg.
  - rewrite !calculate_bmr_male by (exact Hg || reflexivity). reflexivity.
  - rewrite !calculate_bmr_other by (exact Hg || discriminate). reflexivity.
Qed.

Lemma calculate_bmr_mifflin_gender_witness :
  male_spelling "MaLe"
  /\ calculate_bmr_mifflin (PyInt 70) (PyInt 175) 25 "MaLe"
     = calculate_bmr_mifflin (PyInt 70) (PyInt 175) 25 "male"
  /\ ~ male_spelling "M"
  /\ calculate_bmr_mifflin (PyInt 70) (PyInt 175) 25 "M"
     = calculate_bmr_mifflin (PyInt 70) (PyInt 175) 25 "female".
Proof.
  assert (H1 : male_spelling "MaLe") by (apply lower_male; reflexivity).
  assert (H2 : ~ male_spelling "M").
  { intros H. apply lower_male in H. discriminate H. }
  split; [exact H1|]. split.
  { exact (proj1 (calculate_bmr_mifflin_gender (PyInt 70) (PyInt 175) 25
                    "MaLe") H1). }
  split; [exact H2|].
  exact (proj2 (calculate_bmr_mifflin_gender (PyInt 70) (PyInt 175) 25 "M") H2).
Defined.

(** ** The steps behind a result *)

Lemma calculate_all_steps age gender weight height activity_level goal
    weight_unit height_unit r :
  calculate_all age gender weight height activity_level goal
    weight_unit height_unit = Ok r ->
  exists w_kg h_cm b t i target,
    convert_weight weight weight_unit = Ok w_kg
    /\ convert_height height height_unit None None = Ok h_cm
    /\ calculate_bmr_mifflin w_kg h_cm age gender = Ok b
    /\ calculate_tdee b activity_level = Ok t
    /\ calculate_bmi w_kg h_cm = Ok i
    /\ py_add t (PyInt (adjustment_of goal)) = Ok target
    /\ py_round target = Ok (daily_calories r)
    /\ calculate_macros (PyInt (daily_calories r)) None
       = Ok (nutrition_macros r)
    /\ generate_meal_plan (PyInt (daily_calories r)) 4 = Ok (meal_plan r)
    /\ (calculate_weekly_change (PyInt (adjustment_of goal))
          ≫= fun change => py_round_to change 2)
       = Ok (projected_weekly_change_kg r)
    /\ py_round b = Ok (bmr r)
    /\ py_round t = Ok (tdee r)
    /\ py_round_to i 1 = Ok (bmi r)
    /\ py_round_to w_kg 1 = Ok (weight_kg r)
    /\ py_round_to h_cm 1 = Ok (height_cm r)
    /\ bmi_category r = get_bmi_category i
    /\ weekly_deficit_surplus r = adjustment_of goal.
Proof.
  unfold calculate_all. rewrite goal_adjustments_get. intros H.
  apply bind_Ok in H as (w_kg & Hw & H).
  apply bind_Ok in H as (h_cm & Hh & H).
  apply bind_Ok in H as (b & Hb & H).
  apply bind_Ok in H as (t & Ht & H).
  apply bind_Ok in H as (i & Hi & H).
  apply bind_Ok in H as (target & Htarget & H).
  apply bind_Ok in H as (daily & Hdaily & H).
  apply bind_Ok in H as (ms & Hms & H).
  apply bind_Ok in H as (plan & Hplan & H).
  apply bind_Ok in H as (change & Hchange & H).
  apply bind_Ok in H as (rb & Hrb & H).
  apply bind_Ok in H as (rt & Hrt & H).
  apply bind_Ok in H as (ri & Hri & H).
  apply bind_Ok in H as (rc & Hrc & H).
  apply bind_Ok in H as (rw & Hrw & H).
  apply bind_Ok in H as (rh & Hrh & H).
  injection H as <-. cbn [daily_calories nutrition_macros meal_plan
    projected_weekly_change_kg bmr tdee bmi weight_kg height_cm bmi_category
    weekly_deficit_surplus].
  exists w_kg, h_cm, b, t, i, target.
  rewrite Hchange. cbn [mbind result_bind]. tauto.
Qed.

(** ** The request of [calculate] *)

(** X3. A request that lacks a required field is answered with status 400
    and the [KeyError] of the first missing field, in the order age, gender,
    weight, height, activity, goal; a success means that no field was
    missing and that [calculate_all] returned the data, with ['kg'] and
    ['cm'] for the units that the request leaves out. *)
Theorem calculate_required_fields data :
  (forall key rest,
     missing_fields data = key :: rest ->
     calculate data = Failure 400 (KeyError key))
  /\ (forall r,
        calculate data = Success r ->
        missing_fields data = []
        /\ exists age gender weight height activity goal,
             req_age data = Some age /\ req_gender data = Some gender
             /\ req_weight data = Some weight /\ req_height data = Some height
             /\ req_activity data = Some activity /\ req_goal data = Some goal
             /\ calculate_all age gender weight height activity goal
                  (default "kg" (req_weight_unit data))
                  (default "cm" (req_height_unit data)) = Ok r).
Proof.
  destruct data as [a g w h ac go wu hu].
  unfold calculate, missing_fields.
  cbn [req_age req_gender req_weight req_height req_activity req_goal
       req_weight_unit req_height_unit].
  split.
  - intros key rest H.
    destruct a; [|injection H as <- _; reflexivity].
    destruct g; [|injection H as <- _; reflexivity].
    destruct w; [|injection H as <- _; reflexivity].
    destruct h; [|injection H as <- _; reflexivity].
    destruct ac; [|injection H as <- _; reflexivity].
    destruct go; [|injection H as <- _; reflexivity].
    discriminate H.
  - intros r H.
    destruct a; [|discriminate H].
    destruct g; [|discriminate H].
    destruct w; [|discriminate H].
    destruct h; [|discriminate H].
    destruct ac; [|discriminate H].
    destruct go; [|discriminate H].
    split; [reflexivity|].
    cbn [field mbind result_bind] in H.
    destruct (calculate_all _ _ _ _ _ _ _ _) as [r'|e] eqn:E;
      [|discriminate H].
    injection H as ->.
    eexists _, _, _, _, _, _. repeat (split; [reflexivity|]). exact E.
Qed.

Lemma calculate_required_fields_witness :
  let data := {| req_age := Some 25; req_gender := Some "male";
                 req_weight := None; req_height := Some (PyInt 175);
                 req_activity := None; req_goal := Some "lose";
                 req_weight_unit := None; req_height_unit := None |} in
  missing_fields data = ["weight"; "activity"]
  /\ calculate data = Failure 400 (KeyError "weight").
Proof.
  intros data. split; [reflexivity|].
  apply (proj1 (calculate_required_fields data) "weight" ["activity"]).
  reflexivity.
Defined.

(** ** The ratios of [calculate_macros] *)

Lemma macro_of_missing calories ratios key kcal :
  ratios !! key = None ->
  macro_of calories ratios key kcal = Raise (KeyError key).
Proof. intros H. unfold macro_of, getitem. rewrite H. reflexivity. Qed.

Lemma raises_bind {A B} (r : result A) (k : A -> result B) :
  (forall a, r = Ok a -> raises (k a)) -> raises (r ≫= k).
Proof.
  intros H. destruct r as [a|e]; cbn [mbind result_bind].
  - apply H. reflexivity.
  - eexists. reflexivity.
Qed.

Lemma raises_Raise {A} (e : exn) : raises (Raise e : result A).
Proof. eexists. reflexivity. Qed.

(** X4. A dictionary of ratios is used as it is given: it is not completed
    with the defaults, so that a dictionary without ['protein'] raises
    [KeyError('protein')] at once and one without ['carbs'] or ['fats']
    never gives a result; and no key other than the three is read. *)
Theorem calculate_macros_ratios calories ratios :
  (ratios !! "protein" = None ->
   calculate_macros calories (Some ratios) = Raise (KeyError "protein"))
  /\ (ratios !! "protein" = None \/ ratios !! "carbs" = None
      \/ ratios !! "fats" = None ->
      raises (calculate_macros calories (Some ratios)))
  /\ (forall ratios',
        ratios' !! "protein" = ratios !! "protein" ->
        ratios' !! "carbs" = ratios !! "carbs" ->
        ratios' !! "fats" = ratios !! "fats" ->
        calculate_macros calories (Some ratios')
        = calculate_macros calories (Some ratios)).
Proof.
  unfold calculate_macros. cbn [default from_option id]. split; [|split].
  - intros H. rewrite (macro_of_missing _ _ "protein") by exact H.
    reflexivity.
  - intros [H|[H|H]].
    + rewrite (macro_of_missing _ _ "protein") by exact H.
      apply raises_Raise.
    + apply raises_bind. intros p _.
      rewrite (macro_of_missing _ _ "carbs") by exact H. apply raises_Raise.
    + apply raises_bind. intros p _. apply raises_bind. intros c _.
      rewrite (macro_of_missing _ _ "fats") by exact H. apply raises_Raise.
  - intros ratios' Hp Hc Hf. unfold macro_of, getitem.
    rewrite Hp, Hc, Hf. reflexivity.
Qed.

Lemma calculate_macros_ratios_witness :
  let ratios : gmap string num :=
    {[ "protein" := PyFloat (decimal 50 2); "carbs" := PyFloat (decimal 50 2) ]}
  in
  ratios !! "fats" = None
  /\ raises (calculate_macros (PyInt 2000) (Some ratios))
  /\ calculate_macros (PyInt 2000)
       (Some {[ "carbs" := PyFloat (decimal 50 2) ]})
     = Raise (KeyError "protein").
Proof.
  intros ratios. split; [reflexivity|]. split.
  - apply (proj1 (proj2 (calculate_macros_ratios (PyInt 2000) ratios))).
    right. right. reflexivity.
  - apply (proj1 (calculate_macros_ratios (PyInt 2000)
                    {[ "carbs" := PyFloat (decimal 50 2) ]})).
    reflexivity.
Defined.

(** ** Numbers that are not finite *)

Lemma nonfinite_mul f g :
  is_nan f || is_inf f = true -> is_nan (mul f g) || is_inf (mul f g) = true.
Proof. destruct f, g; try discriminate; intros; reflexivity. Qed.

Lemma nonfinite_mul_r f g :
  is_nan g || is_inf g = true -> is_nan (mul f g) || is_inf (mul f g) = true.
Proof. destruct f, g; try discriminate; intros; reflexivity. Qed.

Lemma nonfinite_add f g :
  is_nan f || is_inf f = true -> is_nan (add f g) || is_inf (add f g) = true.
Proof.
  destruct f as [| [] | |], g as [| [] | |]; try discriminate; intros;
    reflexivity.
Qed.

Lemma nonfinite_add_r f g :
  is_nan g || is_inf g = true -> is_nan (add f g) || is_inf (add f g) = true.
Proof.
  destruct f as [| [] | |], g as [| [] | |]; try discriminate; intros;
    reflexivity.
Qed.

Lemma nonfinite_sub f g :
  is_nan f || is_inf f = true -> is_nan (sub f g) || is_inf (sub f g) = true.
Proof.
  destruct f as [| [] | |], g as [| [] | |]; try discriminate; intros;
    reflexivity.
Qed.

Lemma nonfinite_sub_r f g :
  is_nan g || is_inf g = true -> is_nan (sub f g) || is_inf (sub f g) = true.
Proof.
  destruct f as [| [] | |], g as [| [] | |]; try discriminate; intros;
    reflexivity.
Qed.

Lemma nonfinite_div f g :
  is_nan f || is_inf f = true -> is_nan (div f g) || is_inf (div f g) = true.
Proof. destruct f, g; try discriminate; intros; reflexivity. Qed.

Lemma py_mul_nonfinite x y v :
  nonfinite x = true \/ nonfinite y = true ->
  py_mul x y = Ok v -> nonfinite v = true.
Proof.
  unfold py_mul.
  destruct x as [a|f], y as [b|g]; cbn [nonfinite to_float];
    intros [H|H]; try discriminate H;
    try destruct (float_of_int _) as [c|e]; cbn [mbind result_bind];
    intros [= <-]; cbn [nonfinite];
    first [apply nonfinite_mul; exact H | apply nonfinite_mul_r; exact H].
Qed.

Lemma py_add_nonfinite x y v :
  nonfinite x = true \/ nonfinite y = true ->
  py_add x y = Ok v -> nonfinite v = true.
Proof.
  unfold py_add.
  destruct x as [a|f], y as [b|g]; cbn [nonfinite to_float];
    intros [H|H]; try discriminate H;
    try destruct (float_of_int _) as [c|e]; cbn [mbind result_bind];
    intros [= <-]; cbn [nonfinite];
    first [apply nonfinite_add; exact H | apply nonfinite_add_r; exact H].
Qed.

Lemma py_sub_nonfinite x y v :
  nonfinite x = true \/ nonfinite y = true ->
  py_sub x y = Ok v -> nonfinite v = true.
Proof.
  unfold py_sub.
  destruct x as [a|f], y as [b|g]; cbn [nonfinite to_float];
    intros [H|H]; try discriminate H;
    try destruct (float_of_int _) as [c|e]; cbn [mbind result_bind];
    intros [= <-]; cbn [nonfinite];
    first [apply nonfinite_sub; exact H | apply nonfinite_sub_r; exact H].
Qed.

Lemma py_truediv_nonfinite x k v :
  nonfinite x = true -> py_truediv x (PyInt k) = Ok v -> nonfinite v = true.
Proof.
  unfold py_truediv. destruct x as [a|f]; cbn [nonfinite to_float];
    intros H; [discriminate H|].
  cbn [mbind result_bind]. destruct (float_of_int k) as [b|e];
    cbn [mbind result_bind]; [|discriminate].
  destruct (is_zero b); [discriminate|].
  intros [= <-]. cbn [nonfinite]. apply nonfinite_div. exact H.
Qed.

Lemma py_round_nonfinite x :
  nonfinite x = true ->
  py_round x = Raise (if is_nan_num x then ValueError else OverflowError).
Proof. destruct x as [a|[]]; try discriminate; reflexivity. Qed.

Lemma raises_bind_l {A B} (r : result A) (k : A -> result B) :
  raises r -> raises (r ≫= k).
Proof. intros [e ->]. eexists. reflexivity. Qed.

Lemma macro_of_nonfinite calories ratios key kcal :
  nonfinite calories = true -> raises (macro_of calories ratios key kcal).
Proof.
  intros H. unfold macro_of.
  apply raises_bind. intros r _.
  apply raises_bind. intros e He.
  apply py_mul_nonfinite in He; [|left; exact H].
  apply raises_bind. intros q Hq.
  apply py_truediv_nonfinite in Hq; [|exact He].
  rewrite py_round_nonfinite by exact Hq. eexists. reflexivity.
Qed.

Lemma portion_nonfinite calories fraction :
  nonfinite calories = true ->
  is_nan fraction = false -> is_zero fraction = false ->
  portion calories fraction
  = Raise (if is_nan_num calories then ValueError else OverflowError).
Proof.
  destruct calories as [a|f]; [discriminate|].
  destruct f, fraction; try discriminate; intros; reflexivity.
Qed.

(** X5. Calories that are NaN or infinite never give a meal plan or macros:
    the meal planner raises [ValueError] on NaN and [OverflowError] on an
    infinity, whatever the meal count, and [calculate_macros] raises
    whatever the ratios. *)
Theorem nonfinite_calories_rejected calories meals ratios :
  nonfinite calories = true ->
  generate_meal_plan calories meals
  = Raise (if is_nan_num calories then ValueError else OverflowError)
  /\ raises (calculate_macros calories ratios).
Proof.
  intros H. split.
  - unfold generate_meal_plan.
    repeat case_decide;
      repeat (rewrite portion_nonfinite by (exact H || reflexivity));
      reflexivity.
  - unfold calculate_macros. apply raises_bind_l.
    apply macro_of_nonfinite. exact H.
Qed.

Lemma nonfinite_calories_rejected_witness :
  nonfinite (PyFloat (S754_infinity true)) = true
  /\ generate_meal_plan (PyFloat (S754_infinity true)) 3 = Raise OverflowError
  /\ raises (calculate_macros (PyFloat (S754_infinity true)) None).
Proof.
  split; [reflexivity|].
  apply (nonfinite_calories_rejected (PyFloat (S754_infinity true)) 3 None).
  reflexivity.
Defined.

(** ** Weights and heights that are not numbers *)

Lemma convert_weight_nonfinite weight weight_unit w_kg :
  nonfinite weight = true ->
  convert_weight weight weight_unit = Ok w_kg -> nonfinite w_kg = true.
Proof.
  intros H. unfold convert_weight. case_decide.
  - apply py_mul_nonfinite. left. exact H.
  - intros [= <-]. exact H.
Qed.

Lemma calculate_bmr_nonfinite weight_kg height_cm age gender b :
  nonfinite weight_kg = true \/ nonfinite height_cm = true ->
  calculate_bmr_mifflin weight_kg height_cm age gender = Ok b ->
  nonfinite b = true.
Proof.
  intros H. unfold calculate_bmr_mifflin. case_decide; intros E;
    apply bind_Ok in E as (x & Hx & E);
    apply bind_Ok in E as (y & Hy & E);
    apply bind_Ok in E as (xy & Hxy & E);
    apply bind_Ok in E as (c & Hc & E);
    apply bind_Ok in E as (xyc & Hxyc & E);
    (assert (Hn : nonfinite xy = true);
     [apply (py_add_nonfinite x y); [|exact Hxy];
      destruct H as [H|H];
      [left; apply (py_mul_nonfinite _ _ _ (or_intror H) Hx)
      |right; apply (py_mul_nonfinite _ _ _ (or_intror H) Hy)]|]);
    apply (py_sub_nonfinite _ _ _ (or_introl Hn)) in Hxyc.
  - apply (py_add_nonfinite _ _ _ (or_introl Hxyc) E).
  - apply (py_sub_nonfinite _ _ _ (or_introl Hxyc) E).
Qed.

(** X6. A weight or a height that is NaN or infinite is never answered with
    a result: [calculate_all] raises for every age, gender, activity level,
    goal and unit, and the endpoint answers with status 400. *)
Theorem calculate_all_rejects_nonfinite age gender weight height
    activity_level goal weight_unit height_unit :
  nonfinite weight = true \/ nonfinite height = true ->
  raises (calculate_all age gender weight height activity_level goal
            weight_unit height_unit)
  /\ exists e,
       calculate {| req_age := Some age; req_gender := Some gender;
                    req_weight := Some weight; req_height := Some height;
                    req_activity := Some activity_level;
                    req_goal := Some goal;
                    req_weight_unit := Some weight_unit;
                    req_height_unit := Some height_unit |} = Failure 400 e.
Proof.
  intros H.
  assert (R : raises (calculate_all age gender weight height activity_level
                        goal weight_unit height_unit)).
  { destruct (decide (height_unit = "ft")) as [->|Hu].
    { apply calculate_all_feet_raises. }
    unfold calculate_all. rewrite convert_height_other by exact Hu.
    apply raises_bind. intros w_kg Hw. cbn [mbind result_bind].
    apply raises_bind. intros b Hb.
    apply calculate_bmr_nonfinite in Hb;
      [|destruct H as [H|H];
        [left; exact (convert_weight_nonfinite _ _ _ H Hw)|right; exact H]].
    apply raises_bind. intros t Ht.
    apply (py_mul_nonfinite _ _ _ (or_introl Hb)) in Ht.
    apply raises_bind. intros i _.
    apply raises_bind. intros target Htarget.
    apply (py_add_nonfinite _ _ _ (or_introl Ht)) in Htarget.
    rewrite (py_round_nonfinite target) by exact Htarget.
    apply raises_Raise. }
  split; [exact R|].
  apply (calculate_reports age gender weight height activity_level goal
           (Some weight_unit) (Some height_unit)).
  exact R.
Qed.

Lemma calculate_all_rejects_nonfinite_witness :
  (nonfinite (PyFloat S754_nan) = true \/ nonfinite (PyInt 175) = true)
  /\ raises (calculate_all 25 "male" (PyFloat S754_nan) (PyInt 175)
               "sedentary" "lose" "kg" "cm").
Proof.
  split; [left; reflexivity|].
  apply (calculate_all_rejects_nonfinite 25 "male" (PyFloat S754_nan)
           (PyInt 175) "sedentary" "lose" "kg" "cm").
  left. reflexivity.
Defined.

(** ** The goal in the result *)

(** X7. Whatever the goal string, a result carries one of five pairs of
    daily adjustment and projected weekly change: -1000 and -0.91 kg, -500
    and -0.45 kg, 0 and 0.0 kg, 500 and 0.45 kg, 1000 and 0.91 kg; the pair
    is the one of the goal when the goal is one of the five known names and
    (0, 0.0) for every other string. *)
Theorem calculate_all_projection age gender weight height activity_level goal
    weight_unit height_unit r :
  calculate_all age gender weight height activity_level goal
    weight_unit height_unit = Ok r ->
  (weekly_deficit_surplus r, projected_weekly_change_kg r)
  ∈ [(-1000, PyFloat (decimal (-91) 2)); (-500, PyFloat (decimal (-45) 2));
     (0, PyFloat (S754_zero false)); (500, PyFloat (decimal 45 2));
     (1000, PyFloat (decimal 91 2))]
  /\ weekly_deficit_surplus r = adjustment_of goal
  /\ (goal ∉ ["lose_fast"; "lose"; "maintain"; "gain"; "gain_fast"] ->
      weekly_deficit_surplus r = 0
      /\ projected_weekly_change_kg r = PyFloat (S754_zero false)).
Proof.
  intros H.
  apply calculate_all_steps in H
    as (w_kg & h_cm & b & t & i & target & _ & _ & _ & _ & _ & _ & _ & _ & _
        & Hc & _ & _ & _ & _ & _ & _ & Hd).
  destruct projected_change_values as (P1 & P2 & P3 & P4 & P5).
  rewrite Hd. split; [|split; [reflexivity|]].
  - revert Hc. unfold adjustment_of. repeat case_decide; intros Hc;
      [rewrite P1 in Hc|rewrite P2 in Hc|rewrite P3 in Hc|rewrite P4 in Hc
      |rewrite P5 in Hc|rewrite P3 in Hc];
      injection Hc as <-; rewrite !elem_of_cons; auto 10.
  - intros Hg. revert Hc. unfold adjustment_of.
    repeat case_decide; subst;
      try solve [exfalso; apply Hg; repeat constructor];
      rewrite P3; intros [= <-]; split; reflexivity.
Qed.

Lemma calculate_all_projection_witness :
  exists r,
    calculate_all 25 "male" (PyInt 70) (PyInt 175) "sedentary" "lose_fast"
      "kg" "cm" = Ok r
    /\ weekly_deficit_surplus r = -1000
    /\ projected_weekly_change_kg r = PyFloat (decimal (-91) 2)
    /\ (weekly_deficit_surplus r, projected_weekly_change_kg r)
       ∈ [(-1000, PyFloat (decimal (-91) 2)); (-500, PyFloat (decimal (-45) 2));
          (0, PyFloat (S754_zero false)); (500, PyFloat (decimal 45 2));
          (1000, PyFloat (decimal 91 2))].
Proof.
  eexists. split; [vm_compute; reflexivity|].
  split; [reflexivity|]. split; [vm_compute; reflexivity|].
  refine (proj1 (calculate_all_projection 25 "male" (PyInt 70) (PyInt 175)
                   "sedentary" "lose_fast" "kg" "cm" _ _)).
  vm_compute. reflexivity.
Defined.

(** ** The meals of a plan *)

(** X8. For an integer number of calories below 2^46 in magnitude every meal
    of the plan is its exact share of the day rounded to a nearest integer:
    it is within one half of [pct * calories / 100], the floating-point
    product notwithstanding; and the plan has the names of its table and no
    other. *)
Theorem generate_meal_plan_shares calories meals :
  Z.abs calories < 2 ^ 46 ->
  exists plan,
    generate_meal_plan (PyInt calories) meals = Ok plan
    /\ (forall name,
          is_Some (plan !! name) <-> name ∈ (meal_percents meals).*1)
    /\ (forall name pct,
          (name, pct) ∈ meal_percents meals ->
          exists kcal,
            plan !! name = Some kcal
            /\ Z.abs (100 * kcal - pct * calories) <= 50).
Proof.
  intros Hc. set (c := calories) in *.
  destruct (portion_percent c 10 ltac:(set_solver) Hc) as (k10 & E10 & B10).
  destruct (portion_percent c 25 ltac:(set_solver) Hc) as (k25 & E25 & B25).
  destruct (portion_percent c 30 ltac:(set_solver) Hc) as (k30 & E30 & B30).
  destruct (portion_percent c 35 ltac:(set_solver) Hc) as (k35 & E35 & B35).
  destruct (portion_percent c 40 ltac:(set_solver) Hc) as (k40 & E40 & B40).
  unfold generate_meal_plan, meal_percents. repeat case_decide.
  - rewrite E30, E40. cbn [mbind result_bind].
    eexists. split; [reflexivity|]. split.
    + intros name. cbn [fmap list_fmap fst].
      rewrite !lookup_insert_is_Some', lookup_singleton_is_Some, !elem_of_cons,
        elem_of_nil. intuition auto.
    + intros name pct Hin.
      repeat (apply elem_of_cons in Hin as [[= -> ->]|Hin]);
        [..|apply elem_of_nil in Hin as []];
        (eexists; split; [reflexivity|assumption]).
  - rewrite E25, E10, E30. cbn [mbind result_bind].
    eexists. split; [reflexivity|]. split.
    + intros name. cbn [fmap list_fmap fst].
      rewrite !lookup_insert_is_Some', lookup_singleton_is_Some, !elem_of_cons,
        elem_of_nil. intuition auto.
    + intros name pct Hin.
      repeat (apply elem_of_cons in Hin as [[= -> ->]|Hin]);
        [..|apply elem_of_nil in Hin as []];
        (eexists; split; [reflexivity|assumption]).
  - rewrite E25, E35, E30, E10. cbn [mbind result_bind].
    eexists. split; [reflexivity|]. split.
    + intros name. cbn [fmap list_fmap fst].
      rewrite !lookup_insert_is_Some', lookup_singleton_is_Some, !elem_of_cons,
        elem_of_nil. intuition auto.
    + intros name pct Hin.
      repeat (apply elem_of_cons in Hin as [[= -> ->]|Hin]);
        [..|apply elem_of_nil in Hin as []];
        (eexists; split; [reflexivity|assumption]).
Qed.

Lemma generate_meal_plan_shares_witness :
  Z.abs 1508 < 2 ^ 46
  /\ exists plan,
       generate_meal_plan (PyInt 1508) 4 = Ok plan
       /\ (forall name,
             is_Some (plan !! name) <-> name ∈ (meal_percents 4).*1)
       /\ (forall name pct,
             (name, pct) ∈ meal_percents 4 ->
             exists kcal,
               plan !! name = Some kcal
               /\ Z.abs (100 * kcal - pct * 1508) <= 50).
Proof.
  split; [reflexivity|].
  apply (generate_meal_plan_shares 1508 4). reflexivity.
Defined.

(** ** Rounding to the nearest integer *)

Lemma round_half_even_spec n d :
  0 < d ->
  Z.abs (2 * (round_half_even n d * d - n)) <= d
  /\ (Z.abs (2 * (round_half_even n d * d - n)) = d ->
      Z.even (round_half_even n d) = true).
Proof.
  intros Hd. unfold round_half_even.
  pose proof (Z.div_mod n d ltac:(lia)) as E.
  pose proof (Z.mod_pos_bound n d Hd) as B.
  set (q := n / d) in *. set (r := n mod d) in *. clearbody q r.
  assert (E0 : 2 * (q * d - n) = - (2 * r)) by lia.
  assert (E1 : 2 * ((q + 1) * d - n) = 2 * d - 2 * r) by lia.
  destruct (2 * r ?= d) eqn:C.
  - apply Z.compare_eq_iff in C. destruct (Z.even q) eqn:Ev.
    + rewrite E0. split; [lia|]. intros _. exact Ev.
    + rewrite E1. split; [lia|]. intros _. rewrite Z.even_add, Ev.
      reflexivity.
  - assert (C' : 2 * r < d) by (apply Z.compare_lt_iff; exact C).
    rewrite E0. split; [lia|]. intros H. lia.
  - assert (C' : d < 2 * r) by (apply Z.compare_gt_iff; exact C).
    rewrite E1. split; [lia|]. intros H. lia.
Qed.

Lemma round_half_even_unique n d k :
  0 < d ->
  Z.abs (2 * (k * d - n)) <= d ->
  (Z.abs (2 * (k * d - n)) = d -> Z.even k = true) ->
  k = round_half_even n d.
Proof.
  intros Hd Hk Ek.
  destruct (round_half_even_spec n d Hd) as [Hr Er].
  set (k' := round_half_even n d) in *. clearbody k'.
  assert (Hd1 : k - k' = 0 \/ k - k' = 1 \/ k - k' = -1) by nia.
  destruct Hd1 as [H|[H|H]]; [lia| |].
  - assert (E1 : Z.abs (2 * (k * d - n)) = d) by nia.
    assert (E2 : Z.abs (2 * (k' * d - n)) = d) by nia.
    specialize (Ek E1). specialize (Er E2).
    replace k with (k' + 1) in Ek by lia.
    rewrite Z.even_add, Er in Ek. discriminate Ek.
  - assert (E1 : Z.abs (2 * (k * d - n)) = d) by nia.
    assert (E2 : Z.abs (2 * (k' * d - n)) = d) by nia.
    specialize (Ek E1). specialize (Er E2).
    replace k' with (k + 1) in Er by lia.
    rewrite Z.even_add, Ek in Er. discriminate Er.
Qed.

Lemma round_half_even_opp n d :
  0 < d -> round_half_even (- n) d = - round_half_even n d.
Proof.
  intros Hd. symmetry. apply round_half_even_unique; [exact Hd| |].
  - destruct (round_half_even_spec n d Hd) as [Hr _].
    replace (2 * (- round_half_even n d * d - - n))
      with (- (2 * (round_half_even n d * d - n))) by ring.
    rewrite Z.abs_opp. exact Hr.
  - destruct (round_half_even_spec n d Hd) as [_ Er].
    replace (2 * (- round_half_even n d * d - - n))
      with (- (2 * (round_half_even n d * d - n))) by ring.
    rewrite Z.abs_opp, Z.even_opp. exact Er.
Qed.

Lemma round_half_even_scale n d c :
  0 < d -> 0 < c -> round_half_even (n * c) (d * c) = round_half_even n d.
Proof.
  intros Hd Hc. symmetry. apply round_half_even_unique; [nia| |].
  - destruct (round_half_even_spec n d Hd) as [Hr _].
    replace (2 * (round_half_even n d * (d * c) - n * c))
      with (2 * (round_half_even n d * d - n) * c) by ring.
    rewrite Z.abs_mul, (Z.abs_eq c) by lia. nia.
  - destruct (round_half_even_spec n d Hd) as [_ Er].
    replace (2 * (round_half_even n d * (d * c) - n * c))
      with (2 * (round_half_even n d * d - n) * c) by ring.
    rewrite Z.abs_mul, (Z.abs_eq c) by lia. intros H. apply Er. nia.
Qed.

Lemma to_Z_half_even_exact n e :
  Z.abs n < 2 ^ 53 -> -1000 <= e <= 0 ->
  to_Z_half_even (exact n e) = round_half_even n (2 ^ (- e)).
Proof.
  intros Hn He. destruct (Z.eq_dec n 0) as [->|Hz].
  { unfold round_half_even. rewrite Z.div_0_l, Zmod_0_l
      by (apply Z.pow_nonzero; lia).
    assert (0 < 2 ^ (- e)) by (apply Z.pow_pos_nonneg; lia).
    replace (2 * 0 ?= 2 ^ (- e)) with Lt
      by (symmetry; apply Z.compare_lt_iff; lia).
    reflexivity. }
  rewrite exact_nonzero by (assumption || lia).
  destruct (canon_signed n Hz Hn) as [Hs Hd].
  unfold canon, to_Z_half_even, scaled_num, scaled_den.
  set (q := Z.to_pos (Z.abs n)) in *.
  set (d := Z.pos (digits2_pos q)) in *.
  set (M := Z.to_pos (Z.pos q * 2 ^ (53 - d))) in *.
  clearbody M. clearbody d. clear q.
  rewrite (Z.max_r (e + d - 53) 0) by lia.
  rewrite (Z.max_l (- (e + d - 53)) 0) by lia.
  change (10 ^ Z.max 0 0) with 1. change (10 ^ Z.max (- 0) 0) with 1.
  change (2 ^ 0) with 1. rewrite !Z.mul_1_r.
  assert (HM : Z.pos M = Z.abs n * 2 ^ (53 - d)).
  { unfold signed in Hs. destruct (n <? 0) eqn:S.
    - apply Z.ltb_lt in S. rewrite Z.abs_neq by lia. lia.
    - apply Z.ltb_ge in S. rewrite Z.abs_eq by lia. lia. }
  rewrite HM.
  replace (2 ^ (- (e + d - 53))) with (2 ^ (- e) * 2 ^ (53 - d))
    by (rewrite <- Z.pow_add_r by lia; f_equal; lia).
  rewrite (round_half_even_scale (Z.abs n) (2 ^ (- e)) (2 ^ (53 - d)))
    by (apply Z.pow_pos_nonneg; lia).
  destruct (n <? 0) eqn:S.
  - apply Z.ltb_lt in S. rewrite Z.abs_neq by lia.
    rewrite round_half_even_opp by (apply Z.pow_pos_nonneg; lia). lia.
  - apply Z.ltb_ge in S. rewrite Z.abs_eq by lia. reflexivity.
Qed.

Lemma py_round_exact n e :
  Z.abs n < 2 ^ 53 -> -1000 <= e <= 0 ->
  py_round (PyFloat (exact n e)) = Ok (round_half_even n (2 ^ (- e))).
Proof.
  intros Hn He. rewrite <- to_Z_half_even_exact by assumption.
  pose proof (exact_represents n e Hn ltac:(lia)) as R.
  unfold py_round. destruct (exact n e); try reflexivity; destruct R.
Qed.

(** ** Integer inputs *)

(** X9. For an integer weight in kilograms, an integer height in
    centimetres and an age, each of at most 2^40 in magnitude, a result
    shows the exact value of the Mifflin-St Jeor formula rounded to the
    nearest integer, a half going to the even one: [bmr] is
    [10*w + 6.25*h - 5*age + 5] (or [- 161]) counted in quarters and divided
    by 4; and it shows weight and height as they were given, as integers. *)
Theorem calculate_all_integer_display age gender w h activity_level goal
    weight_unit height_unit r :
  weight_unit <> "lbs" -> height_unit <> "ft" ->
  Z.abs w <= 2 ^ 40 -> Z.abs h <= 2 ^ 40 -> Z.abs age <= 2 ^ 40 ->
  calculate_all age gender (PyInt w) (PyInt h) activity_level goal
    weight_unit height_unit = Ok r ->
  bmr r = round_half_even
            (40 * w + 25 * h - 20 * age
             + (if decide (lower gender = "male") then 20 else -644)) 4
  /\ weight_kg r = PyInt w
  /\ height_cm r = PyInt h.
Proof.
  intros Hwu Hhu Hw Hh Ha H.
  apply calculate_all_steps in H
    as (w_kg & h_cm & b & t & i & target & Ew & Eh & Eb & _ & _ & _ & _ & _
        & _ & _ & Rb & _ & _ & Rw & Rh & _ & _).
  rewrite convert_height_other in Eh by exact Hhu. injection Eh as <-.
  unfold convert_weight in Ew. case_decide; [contradiction|].
  injection Ew as <-.
  rewrite calculate_bmr_integers in Eb by assumption. injection Eb as <-.
  change (2 ^ 40) with 1099511627776 in *.
  rewrite py_round_exact in Rb.
  - injection Rb as <-. split; [reflexivity|].
    unfold py_round_to in Rw, Rh. case_decide; [|lia].
    injection Rw as <-. injection Rh as <-. split; reflexivity.
  - change (2 ^ 53) with 9007199254740992. case_decide; lia.
  - lia.
Qed.

Lemma calculate_all_integer_display_witness :
  exists r,
    ("kg" <> "lbs" /\ "cm" <> "ft")
    /\ (Z.abs 70 <= 2 ^ 40 /\ Z.abs 175 <= 2 ^ 40 /\ Z.abs 25 <= 2 ^ 40)
    /\ calculate_all 25 "male" (PyInt 70) (PyInt 175) "sedentary" "lose"
         "kg" "cm" = Ok r
    /\ bmr r = 1674
    /\ bmr r = round_half_even
                 (40 * 70 + 25 * 175 - 20 * 25
                  + (if decide (lower "male" = "male") then 20 else -644)) 4
    /\ weight_kg r = PyInt 70
    /\ height_cm r = PyInt 175.
Proof.
  eexists. split; [split; discriminate|].
  split; [repeat split; discriminate|].
  split; [vm_compute; reflexivity|]. split; [reflexivity|].
  refine (calculate_all_integer_display 25 "male" 70 175 "sedentary" "lose"
            "kg" "cm" _ _ _ _ _ _ _);
    [discriminate|discriminate|discriminate|discriminate|discriminate|].
  vm_compute. reflexivity.
Defined.

(** ** The sign of the height *)

Lemma binary_round_aux_opp s m e l :
  binary_round_aux prec emax (negb s) m e l
  = SFopp (binary_round_aux prec emax s m e l).
Proof.
  unfold binary_round_aux.
  destruct (shr_fexp prec emax m e l) as [mrs' e'].
  destruct (shr_fexp prec emax _ e' loc_Exact) as [mrs'' e''].
  destruct (shr_m mrs''); [reflexivity| |reflexivity].
  destruct (Z.leb e'' (emax - prec)); reflexivity.
Qed.

Lemma div_opp_l f g :
  is_nan g = false -> div (SFopp f) g = SFopp (div f g).
Proof.
  intros Hg. unfold div.
  destruct f as [sf|sf| |sf mf ef], g as [sg|sg| |sg mg eg];
    try discriminate Hg; try reflexivity;
    try (destruct sf, sg; reflexivity).
  cbn [SFopp SFdiv].
  destruct (SFdiv_core_binary prec emax (Z.pos mf) ef (Z.pos mg) eg)
    as [[mz ez] lz].
  replace (xorb (negb sf) sg) with (negb (xorb sf sg))
    by (destruct sf, sg; reflexivity).
  apply binary_round_aux_opp.
Qed.

Lemma py_square_opp f : py_square (PyFloat (SFopp f)) = py_square (PyFloat f).
Proof.
  destruct f as [s|s| |s m e]; try reflexivity.
  unfold py_square. cbn [SFopp].
  replace (mul (S754_finite (negb s) m e) (S754_finite (negb s) m e))
    with (mul (S754_finite s m e) (S754_finite s m e))
    by (unfold mul; cbn [SFmul]; destruct s; reflexivity).
  reflexivity.
Qed.

Lemma raw_of_Z_opp a : a <> 0 -> raw_of_Z (- a) = SFopp (raw_of_Z a).
Proof. destruct a; [congruence|reflexivity|reflexivity]. Qed.

Lemma is_inf_opp f : is_inf (SFopp f) = is_inf f.
Proof. destruct f; reflexivity. Qed.

Lemma is_zero_opp f : is_zero (SFopp f) = is_zero f.
Proof. destruct f; reflexivity. Qed.

Lemma py_truediv_neg height_cm :
  py_truediv (py_neg height_cm) (PyInt 100) = py_truediv height_cm (PyInt 100)
  \/ exists q,
       py_truediv (py_neg height_cm) (PyInt 100) = Ok (PyFloat (SFopp q))
       /\ py_truediv height_cm (PyInt 100) = Ok (PyFloat q).
Proof.
  destruct height_cm as [a|f]; cbn [py_neg].
  - destruct (decide (a = 0)) as [->|Ha]; [left; reflexivity|].
    unfold py_truediv. case_decide; [left; reflexivity|].
    unfold of_ratio. rewrite raw_of_Z_opp by exact Ha.
    rewrite div_opp_l by reflexivity. rewrite is_inf_opp.
    destruct (is_inf _); [left; reflexivity|].
    right. eexists. split; reflexivity.
  - unfold py_truediv. cbn [to_float mbind result_bind].
    destruct (float_of_int 100) as [b|e] eqn:E; [|discriminate E].
    cbn [mbind result_bind].
    assert (Hb : is_nan b = false).
    { unfold float_of_int in E. vm_compute in E. injection E as <-.
      reflexivity. }
    destruct (is_zero b); [left; reflexivity|].
    rewrite div_opp_l by exact Hb.
    right. eexists. split; reflexivity.
Qed.

(** X10. The BMI does not see the sign of the height: a negative height
    gives the result (or the exception) of the positive one, so a negative
    height is answered with a plausible BMI instead of an error. *)
Theorem calculate_bmi_height_sign weight_kg height_cm :
  calculate_bmi weight_kg (py_neg height_cm)
  = calculate_bmi weight_kg height_cm.
Proof.
  unfold calculate_bmi.
  destruct (py_truediv_neg height_cm) as [->|(q & -> & ->)];
    [reflexivity|].
  cbn [mbind result_bind]. rewrite py_square_opp. reflexivity.
Qed.

(** ** Order of the labels *)

Lemma leb_ltb_trans x y z :
  leb x y = true -> ltb y z = true -> ltb x z = true.
Proof.
  unfold ltb, leb.
  destruct (finite_like x) eqn:Fx, (finite_like y) eqn:Fy,
           (finite_like z) eqn:Fz.
  - set (e0 := Z.min (exponent x) (Z.min (exponent y) (exponent z))).
    rewrite (compare_scaled x y e0), (compare_scaled y z e0),
      (compare_scaled x z e0) by (trivial; unfold e0; lia).
    destruct (scaled y e0 ?= scaled z e0) eqn:C2; try discriminate.
    assert (L2 : scaled y e0 < scaled z e0)
      by (apply Z.compare_lt_iff; exact C2).
    destruct (scaled x e0 ?= scaled y e0) eqn:C1; try discriminate;
      intros _ _;
      [apply Z.compare_eq_iff in C1
      |assert (L1 : scaled x e0 < scaled y e0)
         by (apply Z.compare_lt_iff; exact C1)];
      (replace (scaled x e0 ?= scaled z e0) with Lt; [reflexivity|];
       symmetry; apply Z.compare_lt_iff; lia).
  - destruct x, y, z; try discriminate; simpl;
      repeat match goal with |- context [if ?b then _ else _] => destruct b end;
      congruence.
  - destruct x, y, z; try discriminate; simpl;
      repeat match goal with |- context [if ?b then _ else _] => destruct b end;
      try congruence.
  - destruct x, y, z; try discriminate; simpl;
      repeat match goal with |- context [if ?b then _ else _] => destruct b end;
      try congruence.
  - destruct x, y, z; try discriminate; simpl;
      repeat match goal with |- context [if ?b then _ else _] => destruct b end;
      try congruence.
  - destruct x, y, z; try discriminate; simpl;
      repeat match goal with |- context [if ?b then _ else _] => destruct b end;
      try congruence.
  - destruct x, y, z; try discriminate; simpl;
      repeat match goal with |- context [if ?b then _ else _] => destruct b end;
      try congruence.
  - destruct x, y, z; try discriminate; simpl;
      repeat match goal with |- context [if ?b then _ else _] => destruct b end;
      try congruence.
Qed.

Lemma py_le_lt_trans x y z :
  py_le x y = true -> py_lt y z = true -> py_lt x z = true.
Proof. apply leb_ltb_trans. Qed.

(** X11. The label is monotone in the BMI: of two BMI values the smaller or
    equal one never has the heavier label. *)
Theorem get_bmi_category_monotone x y :
  py_le x y = true ->
  label_rank (get_bmi_category x) <= label_rank (get_bmi_category y).
Proof.
  intros Hxy. unfold get_bmi_category.
  pose proof (py_le_lt_trans x y (PyFloat (decimal 185 1)) Hxy) as T1.
  pose proof (py_le_lt_trans x y (PyInt 25) Hxy) as T2.
  pose proof (py_le_lt_trans x y (PyInt 30) Hxy) as T3.
  destruct (py_lt y (PyFloat (decimal 185 1)));
    [rewrite (T1 eq_refl); reflexivity|].
  destruct (py_lt y (PyInt 25)).
  { rewrite (T2 eq_refl). destruct (py_lt x _); discriminate. }
  destruct (py_lt y (PyInt 30)).
  { rewrite (T3 eq_refl). destruct (py_lt x _), (py_lt x _); discriminate. }
  destruct (py_lt x _), (py_lt x _), (py_lt x _); discriminate.
Qed.

Lemma get_bmi_category_monotone_witness :
  py_le (PyFloat (decimal 2286 2)) (PyInt 27) = true
  /\ get_bmi_category (PyFloat (decimal 2286 2)) = "Normal"
  /\ get_bmi_category (PyInt 27) = "Overweight"
  /\ label_rank (get_bmi_category (PyFloat (decimal 2286 2)))
     <= label_rank (get_bmi_category (PyInt 27)).
Proof.
  split; [vm_compute; reflexivity|].
  split; [vm_compute; reflexivity|].
  split; [vm_compute; reflexivity|].
  apply (get_bmi_category_monotone (PyFloat (decimal 2286 2)) (PyInt 27)).
  vm_compute. reflexivity.
Defined.

(** ** The other endpoints *)

Lemma respond_raises {A} (r : result A) :
  raises r -> exists e, App.respond r = App.Failed 400 e.
Proof. intros [e ->]. exists e. reflexivity. Qed.

(** X12. The macros endpoint answers a request without ['calories'] with
    status 400 and [KeyError('calories')]; without ['ratios'] it computes
    with 0.30, 0.40 and 0.30 as [calculate_macros] does on its own; and
    ratios that lack one of the three names are not completed from the
    defaults but answered with status 400. *)
Theorem custom_macros_request data :
  (App.mreq_calories data = None ->
   App.custom_macros data = App.Failed 400 (KeyError "calories"))
  /\ (forall calories,
        App.mreq_calories data = Some calories ->
        (App.mreq_ratios data = None ->
         App.custom_macros data
         = App.respond (calculate_macros calories None))
        /\ (forall ratios,
              App.mreq_ratios data = Some ratios ->
              ratios !! "protein" = None \/ ratios !! "carbs" = None
              \/ ratios !! "fats" = None ->
              exists e, App.custom_macros data = App.Failed 400 e)).
Proof.
  unfold App.custom_macros. split.
  - intros ->. reflexivity.
  - intros calories ->. cbn [field mbind result_bind]. split.
    + intros ->. reflexivity.
    + intros ratios -> H. cbn [default from_option id].
      apply respond_raises. unfold calculate_macros.
      cbn [default from_option id].
      destruct H as [H|[H|H]].
      * rewrite (macro_of_missing _ _ "protein") by exact H.
        apply raises_Raise.
      * apply raises_bind. intros p _.
        rewrite (macro_of_missing _ _ "carbs") by exact H.
        apply raises_Raise.
      * apply raises_bind. intros p _. apply raises_bind. intros c _.
        rewrite (macro_of_missing _ _ "fats") by exact H.
        apply raises_Raise.
Qed.

Lemma custom_macros_request_witness :
  let data := {| App.mreq_calories := Some (PyInt 2000);
                 App.mreq_ratios :=
                   Some {[ "protein" := PyFloat (decimal 50 2) ]} |} in
  exists e, App.custom_macros data = App.Failed 400 e.
Proof.
  intros data.
  apply (proj2 (proj2 (custom_macros_request data) (PyInt 2000) eq_refl)
           {[ "protein" := PyFloat (decimal 50 2) ]} eq_refl).
  right. left. reflexivity.
Defined.

Lemma generate_meal_plan_integer c meals :
  Z.abs c < 2 ^ 46 ->
  exists k10 k25 k30 k35 k40,
    Z.abs (100 * k10 - 10 * c) <= 50
    /\ Z.abs (100 * k25 - 25 * c) <= 50
    /\ Z.abs (100 * k30 - 30 * c) <= 50
    /\ Z.abs (100 * k35 - 35 * c) <= 50
    /\ Z.abs (100 * k40 - 40 * c) <= 50
    /\ generate_meal_plan (PyInt c) meals
       = Ok (if decide (meals = 3) then
               {[ "breakfast" := k30; "lunch" := k40; "dinner" := k30 ]}
             else if decide (meals = 5) then
               {[ "breakfast" := k25; "snack1" := k10; "lunch" := k30;
                  "snack2" := k10; "dinner" := k25 ]}
             else
               {[ "breakfast" := k25; "lunch" := k35; "dinner" := k30;
                  "snacks" := k10 ]}).
Proof.
  intros Hc.
  destruct (portion_percent c 10 ltac:(repeat constructor) Hc)
    as (k10 & E10 & B10).
  destruct (portion_percent c 25 ltac:(repeat constructor) Hc)
    as (k25 & E25 & B25).
  destruct (portion_percent c 30 ltac:(repeat constructor) Hc)
    as (k30 & E30 & B30).
  destruct (portion_percent c 35 ltac:(repeat constructor) Hc)
    as (k35 & E35 & B35).
  destruct (portion_percent c 40 ltac:(repeat constructor) Hc)
    as (k40 & E40 & B40).
  exists k10, k25, k30, k35, k40. repeat (split; [assumption|]).
  unfold generate_meal_plan. repeat case_decide.
  - rewrite E30, E40. reflexivity.
  - rewrite E25, E10, E30. reflexivity.
  - rewrite E25, E35, E30, E10. reflexivity.
Qed.

(** X13. The meal-plan endpoint answers a request without ['calories'] with
    status 400 and [KeyError('calories')]; for an integer number of calories
    below 2^46 in magnitude it always answers with a plan, whose sum is
    within 2 of the calories; and every meal count other than 3 and 5, as
    well as none, gives the plan of four meals. *)
Theorem meal_plan_request data :
  (App.preq_calories data = None ->
   App.meal_plan data = App.Failed 400 (KeyError "calories"))
  /\ (forall c,
        App.preq_calories data = Some (PyInt c) -> Z.abs c < 2 ^ 46 ->
        exists plan,
          App.meal_plan data = App.Done plan
          /\ Z.abs (plan_total plan - c) <= 2
          /\ (App.preq_meals data <> Some 3 ->
              App.preq_meals data <> Some 5 ->
              generate_meal_plan (PyInt c) 4 = Ok plan
              /\ Z.abs (plan_total plan - c) <= 1)).
Proof.
  unfold App.meal_plan. split.
  - intros ->. reflexivity.
  - intros c -> Hc. cbn [field mbind result_bind].
    set (meals := default 4 (App.preq_meals data)).
    destruct (generate_meal_plan_integer c meals Hc)
      as (k10 & k25 & k30 & k35 & k40 & B10 & B25 & B30 & B35 & B40 & E).
    assert (E4 : meals <> 3 -> meals <> 5 ->
                 generate_meal_plan (PyInt c) 4
                 = generate_meal_plan (PyInt c) meals).
    { intros N3 N5. unfold generate_meal_plan.
      repeat case_decide; try discriminate; try contradiction; reflexivity. }
    rewrite E in E4 |- *. eexists. split; [reflexivity|].
    repeat case_decide.
    + rewrite plan_total_3. split; [lia|]. intros H3 _. exfalso.
      apply H3. unfold meals in *. destruct (App.preq_meals data); cbn in *;
        congruence.
    + rewrite plan_total_5. split; [lia|]. intros _ H5. exfalso.
      apply H5. unfold meals in *. destruct (App.preq_meals data); cbn in *;
        congruence.
    + rewrite plan_total_4. split; [lia|]. intros _ _. split; [|lia].
      apply E4; assumption.
Qed.

Lemma meal_plan_request_witness :
  let data := {| App.preq_calories := Some (PyInt 1508);
                 App.preq_meals := Some 0 |} in
  Z.abs 1508 < 2 ^ 46
  /\ exists plan,
       App.meal_plan data = App.Done plan
       /\ Z.abs (plan_total plan - 1508) <= 2
       /\ (App.preq_meals data <> Some 3 ->
           App.preq_meals data <> Some 5 ->
           generate_meal_plan (PyInt 1508) 4 = Ok plan
           /\ Z.abs (plan_total plan - 1508) <= 1).
Proof.
  intros data. split; [reflexivity|].
  apply (proj2 (meal_plan_request data) 1508); reflexivity.
Defined.

(** ** Rounding of a quotient *)

Lemma new_location_spec D r :
  0 < D -> 0 <= r < D ->
  new_location D r
  = if r =? 0 then loc_Exact else loc_Inexact (2 * r ?= D).
Proof.
  intros HD Hr. unfold new_location, new_location_even, new_location_odd.
  destruct (Z.even D) eqn:Ev; [reflexivity|].
  destruct (r =? 0); [reflexivity|]. f_equal.
  assert (Od : Z.odd D = true) by (rewrite <- Z.negb_even, Ev; reflexivity).
  apply Z.odd_spec in Od as [k Hk].
  destruct (Z.compare_spec (2 * r + 1) D), (Z.compare_spec (2 * r) D);
    try reflexivity; lia.
Qed.

(** The bits behind the mantissa after [p] shifts, when the record starts
    with the bits of a location: the mantissa is the quotient, the round bit
    is the last bit shifted out, the sticky bit tells whether anything else
    was lost. *)
Lemma shr_iter_loc x l p :
  0 <= x ->
  Pos.iter shr_1 (shr_record_of_loc x l) p
  = Build_shr_record (x / 2 ^ Z.pos p) (Z.odd (x / 2 ^ (Z.pos p - 1)))
      (negb (x mod 2 ^ (Z.pos p - 1) =? 0)
       || match l with loc_Exact => false | _ => true end).
Proof.
  intros Hx.
  set (b := match l with loc_Exact => false | _ => true end).
  apply (Pos.iter_ind _ shr_1 (shr_record_of_loc x l)
           (fun p r => r = Build_shr_record (x / 2 ^ Z.pos p)
                             (Z.odd (x / 2 ^ (Z.pos p - 1)))
                             (negb (x mod 2 ^ (Z.pos p - 1) =? 0) || b))).
  - assert (E : shr_1 (shr_record_of_loc x l)
                = Build_shr_record (x / 2) (Z.odd x) b).
    { unfold b. destruct l as [|[]]; cbn [shr_record_of_loc];
        rewrite shr_1_spec by exact Hx; reflexivity. }
    rewrite E. simpl. rewrite Z.div_1_r, Z.mod_1_r. reflexivity.
  - intros q r ->.
    rewrite shr_1_spec by (apply Z.div_pos; [lia|apply Z.pow_pos_nonneg; lia]).
    rewrite Pos2Z.inj_succ.
    replace (Z.succ (Z.pos q) - 1) with (Z.pos q) by lia.
    f_equal.
    + rewrite Z.pow_succ_r by lia. rewrite (Z.mul_comm 2).
      rewrite Z.div_div by (try apply Z.pow_pos_nonneg; lia). reflexivity.
    + set (h := 2 ^ (Z.pos q - 1)).
      assert (Hh : 0 < h) by (apply Z.pow_pos_nonneg; lia).
      assert (E : 2 ^ Z.pos q = h * 2).
      { unfold h. replace (Z.pos q) with (Z.succ (Z.pos q - 1)) at 1 by lia.
        rewrite Z.pow_succ_r by lia. ring. }
      rewrite E, Z.rem_mul_r by lia.
      pose proof (Z.mod_pos_bound x h Hh).
      pose proof (Z.mod_pos_bound (x / h) 2 ltac:(lia)).
      rewrite (Zmod_odd (x / h)) in *.
      destruct (Z.odd (x / h)); simpl;
        destruct (Z.eqb_spec (x mod h) 0) as [E0|E0]; simpl.
      * replace (x mod h + h * 1 =? 0) with false
          by (symmetry; apply Z.eqb_neq; lia). reflexivity.
      * replace (x mod h + h * 1 =? 0) with false
          by (symmetry; apply Z.eqb_neq; lia). reflexivity.
      * replace (x mod h + h * 0 =? 0) with true
          by (symmetry; apply Z.eqb_eq; lia). reflexivity.
      * replace (x mod h + h * 0 =? 0) with false
          by (symmetry; apply Z.eqb_neq; lia). reflexivity.
Qed.

Lemma round_quotient_zero N D :
  0 <= N -> 0 < D ->
  round_nearest_even (N / D) (new_location D (N mod D))
  = round_half_even N D.
Proof.
  intros HN HD. pose proof (Z.mod_pos_bound N D HD) as Hr.
  rewrite new_location_spec by assumption. unfold round_half_even.
  destruct (Z.eqb_spec (N mod D) 0) as [E|E].
  - rewrite E. replace (2 * 0 ?= D) with Lt
      by (symmetry; apply Z.compare_lt_iff; lia). reflexivity.
  - cbn [round_nearest_even]. destruct (2 * (N mod D) ?= D); reflexivity.
Qed.

Lemma round_quotient_shift N D p :
  0 <= N -> 0 < D ->
  let r := SpecFloat.iter_pos shr_1 p
             (shr_record_of_loc (N / D) (new_location D (N mod D))) in
  round_nearest_even (shr_m r) (loc_of_shr_record r)
  = round_half_even N (D * 2 ^ Z.pos p).
Proof.
  intros HN HD. cbv zeta.
  pose proof (Z.mod_pos_bound N D HD) as Hr.
  assert (Hq : 0 <= N / D) by (apply Z.div_pos; lia).
  rewrite iter_pos_iter, shr_iter_loc by exact Hq.
  rewrite new_location_spec by assumption.
  unfold round_half_even. cbn [shr_m].
  set (h := 2 ^ (Z.pos p - 1)).
  assert (Hh : 0 < h) by (apply Z.pow_pos_nonneg; lia).
  assert (E : 2 ^ Z.pos p = h * 2).
  { unfold h. replace (Z.pos p) with (Z.succ (Z.pos p - 1)) at 1 by lia.
    rewrite Z.pow_succ_r by lia. ring. }
  rewrite E.
  rewrite <- (Z.div_div N D (h * 2)) by lia.
  rewrite (Z.rem_mul_r N D (h * 2)) by lia.
  set (q := N / D) in *. set (r := N mod D) in *.
  rewrite <- (Z.div_div q h 2) by lia.
  rewrite (Z.rem_mul_r q h 2) by lia.
  pose proof (Z.mod_pos_bound q h Hh) as Hl.
  rewrite (Zmod_odd (q / h)).
  set (low := q mod h) in *. set (m := q / h / 2). clearbody low m q r.
  destruct (Z.odd (q / h)); destruct (Z.eqb_spec low 0) as [E0|E0];
    destruct (Z.eqb_spec r 0) as [E1|E1]; cbn [negb orb loc_of_shr_record
      round_nearest_even].
  - replace (2 * (r + D * (low + h * 1)) ?= D * (h * 2)) with Eq
      by (symmetry; apply Z.compare_eq_iff; nia). reflexivity.
  - replace (2 * (r + D * (low + h * 1)) ?= D * (h * 2)) with Gt
      by (symmetry; apply Z.compare_gt_iff; nia). reflexivity.
  - replace (2 * (r + D * (low + h * 1)) ?= D * (h * 2)) with Gt
      by (symmetry; apply Z.compare_gt_iff; nia). reflexivity.
  - replace (2 * (r + D * (low + h * 1)) ?= D * (h * 2)) with Gt
      by (symmetry; apply Z.compare_gt_iff; nia). reflexivity.
  - replace (2 * (r + D * (low + h * 0)) ?= D * (h * 2)) with Lt
      by (symmetry; apply Z.compare_lt_iff; nia). reflexivity.
  - replace (2 * (r + D * (low + h * 0)) ?= D * (h * 2)) with Lt
      by (symmetry; apply Z.compare_lt_iff; nia). reflexivity.
  - replace (2 * (r + D * (low + h * 0)) ?= D * (h * 2)) with Lt
      by (symmetry; apply Z.compare_lt_iff; nia). reflexivity.
  - replace (2 * (r + D * (low + h * 0)) ?= D * (h * 2)) with Lt
      by (symmetry; apply Z.compare_lt_iff; nia). reflexivity.
Qed.

Lemma shr_record_of_loc_m x l : shr_m (shr_record_of_loc x l) = x.
Proof. destruct l as [|[]]; reflexivity. Qed.

Lemma shr_record_of_loc_loc x l :
  loc_of_shr_record (shr_record_of_loc x l) = l.
Proof. destruct l as [|[]]; reflexivity. Qed.

(** The float made of a quotient [N / D] of at least 53 bits and of the
    location of [N / D] between the quotient and its successor is the
    fraction rounded to 53 bits, ties to even. *)
Lemma binary_round_aux_quotient s N D mq e :
  0 <= N -> 0 < D -> N / D = Z.pos mq ->
  let d := Z.pos (digits2_pos mq) in
  53 <= d -> -1074 <= e + (d - 53) -> e + (d - 53) + 1 <= 971 ->
  exists m' e',
    binary_round_aux prec emax s (N / D) e (new_location D (N mod D))
    = S754_finite s m' e'
    /\ Z.pos (digits2_pos m') = 53
    /\ e + (d - 53) <= e' <= e + (d - 53) + 1
    /\ Z.pos m' * 2 ^ (e' - (e + (d - 53)))
       = round_half_even N (D * 2 ^ (d - 53)).
Proof.
  intros HN HD Hq d Hd Hlo Hhi.
  assert (R1 : exists rec,
             shr_fexp prec emax (N / D) e (new_location D (N mod D))
             = (rec, e + (d - 53))
             /\ round_nearest_even (shr_m rec) (loc_of_shr_record rec)
                = round_half_even N (D * 2 ^ (d - 53))).
  { unfold shr_fexp.
    replace (Zdigits2 (N / D)) with d by (rewrite Hq; reflexivity).
    rewrite fexp_normal by lia.
    destruct (d + e - 53 - e) as [|p|p] eqn:En; try lia.
    - eexists. split.
      + cbn [shr]. f_equal. lia.
      + rewrite shr_record_of_loc_m, shr_record_of_loc_loc.
        replace (d - 53) with 0 by lia. rewrite Z.mul_1_r.
        apply round_quotient_zero; assumption.
    - eexists. split.
      + cbn [shr]. f_equal. lia.
      + replace (d - 53) with (Z.pos p) by lia.
        apply round_quotient_shift; assumption. }
  destruct R1 as (rec & E1 & E2).
  unfold binary_round_aux. rewrite E1, E2.
  pose proof (digits_bounds mq) as [Bl Bu]. fold d in Bl, Bu.
  assert (P : 0 < 2 ^ (d - 53)) by (apply Z.pow_pos_nonneg; lia).
  assert (PD : 0 < D * 2 ^ (d - 53)) by lia.
  destruct (round_half_even_bounds N (D * 2 ^ (d - 53)) PD) as [[Rl Ru] _].
  rewrite <- (Z.div_div N D (2 ^ (d - 53))) in Rl, Ru by lia.
  rewrite Hq in Rl, Ru.
  assert (S1 : 2 ^ (d - 1) = 2 ^ 52 * 2 ^ (d - 53)).
  { rewrite <- Z.pow_add_r by lia. f_equal. lia. }
  assert (S2 : 2 ^ d = 2 ^ 53 * 2 ^ (d - 53)).
  { rewrite <- Z.pow_add_r by lia. f_equal. lia. }
  assert (Ql : 2 ^ 52 <= Z.pos mq / 2 ^ (d - 53)).
  { apply Z.div_le_lower_bound; lia. }
  assert (Qu : Z.pos mq / 2 ^ (d - 53) < 2 ^ 53).
  { apply Z.div_lt_upper_bound; lia. }
  set (r2 := round_half_even N (D * 2 ^ (d - 53))) in *.
  change (2 ^ 52) with 4503599627370496 in *.
  change (2 ^ 53) with 9007199254740992 in *.
  unfold shr_fexp.
  destruct r2 as [|m2|m2] eqn:Em2; try lia.
  destruct (Z.eq_dec (Z.pos m2) 9007199254740992) as [Ec|Ec].
  - injection Ec as ->.
    exists 4503599627370496%positive, (e + (d - 53) + 1).
    split; [|split; [reflexivity|split; [|]]]. 2:{ lia. }
    + change (Zdigits2 9007199254740992) with 54.
      rewrite fexp_normal by lia.
      replace (54 + (e + (d - 53)) - 53 - (e + (d - 53))) with 1 by lia.
      cbn [shr SpecFloat.iter_pos shr_1 shr_m shr_record_of_loc].
      replace (e + (d - 53) + 1 <=? emax - prec) with true
        by (symmetry; apply Z.leb_le; unfold emax, prec; lia).
      reflexivity.
    + replace (e + (d - 53) + 1 - (e + (d - 53))) with 1 by lia. reflexivity.
  - exists m2, (e + (d - 53)).
    assert (D2 : Z.pos (digits2_pos m2) = 53).
    { apply digits_unique. change (2 ^ (53 - 1)) with 4503599627370496.
      change (2 ^ 53) with 9007199254740992. lia. }
    split; [|split; [exact D2|split; [lia|]]].
    + cbn [Zdigits2]. rewrite D2. rewrite fexp_normal by lia.
      rewrite shr_nonpos by lia. cbn [shr_m shr_record_of_loc].
      replace (e + (d - 53) <=? emax - prec) with true
        by (symmetry; apply Z.leb_le; unfold emax, prec; lia).
      reflexivity.
    + rewrite Z.sub_diag. simpl. lia.
Qed.

(** The quotient of two finite floats, whatever the width of their
    mantissas: a 53-bit float within half a unit in the last place of the
    exact quotient. *)
Lemma div_finite sx mx ex sy my ey :
  let c := 53 - Z.pos (digits2_pos mx) + Z.pos (digits2_pos my) in
  let e0 := ex - ey - c in
  0 <= c -> -1074 <= e0 -> e0 + 2 <= 971 ->
  exists m' e',
    div (S754_finite sx mx ex) (S754_finite sy my ey)
    = S754_finite (xorb sx sy) m' e'
    /\ Z.pos (digits2_pos m') = 53
    /\ e0 <= e' <= e0 + 2
    /\ Z.abs (2 * (Z.pos m' * 2 ^ (e' - e0) * Z.pos my - Z.pos mx * 2 ^ c))
       <= 2 ^ (e' - e0) * Z.pos my.
Proof.
  intros c e0 Hc Hlo Hhi.
  set (d1 := Z.pos (digits2_pos mx)) in *.
  set (d2 := Z.pos (digits2_pos my)) in *.
  assert (Ec : c = 53 - d1 + d2) by reflexivity.
  assert (Ee : e0 = ex - ey - c) by reflexivity.
  clearbody e0. clearbody c.
  pose proof (digits_bounds mx) as [Xl Xu]. fold d1 in Xl, Xu.
  pose proof (digits_bounds my) as [Yl Yu]. fold d2 in Yl, Yu.
  assert (Hd1 : 1 <= d1) by (unfold d1; lia).
  assert (Hd2 : 1 <= d2) by (unfold d2; lia).
  set (N := Z.pos mx * 2 ^ c).
  assert (Pc : 0 < 2 ^ c) by (apply Z.pow_pos_nonneg; lia).
  assert (HN : 0 < N) by (unfold N; lia).
  assert (Ecore : SFdiv_core_binary prec emax (Z.pos mx) ex (Z.pos my) ey
                  = (N / Z.pos my, e0, new_location (Z.pos my) (N mod Z.pos my))).
  { unfold SFdiv_core_binary. cbn [Zdigits2]. fold d1 d2.
    rewrite fexp_normal by lia.
    replace (Z.min (d1 + ex - (d2 + ey) - 53) (ex - ey)) with e0 by lia.
    replace (ex - ey - e0) with c by lia.
    assert (Em : match c with
                 | 0 => Z.pos mx
                 | Z.pos _ => Z.shiftl (Z.pos mx) c
                 | Z.neg _ => 0
                 end = N).
    { unfold N. destruct c as [|p|p] eqn:Ec0; try lia.
      rewrite Z.shiftl_mul_pow2 by lia. reflexivity. }
    rewrite Em. unfold Z.div, Z.modulo.
    destruct (Z.div_eucl N (Z.pos my)) as [q r]. reflexivity. }
  unfold div, SFdiv. rewrite Ecore.
  assert (L52 : 2 ^ 52 <= N / Z.pos my).
  { apply Z.div_le_lower_bound; [lia|].
    assert (E : 2 ^ (d1 - 1) * 2 ^ c = 2 ^ 52 * 2 ^ d2).
    { rewrite <- !Z.pow_add_r by lia. f_equal. lia. }
    unfold N. nia. }
  assert (U54 : N / Z.pos my < 2 ^ 54).
  { apply Z.div_lt_upper_bound; [lia|].
    assert (E : 2 ^ d1 * 2 ^ c = 2 ^ 54 * 2 ^ (d2 - 1)).
    { rewrite <- !Z.pow_add_r by lia. f_equal. lia. }
    unfold N. nia. }
  destruct (N / Z.pos my) as [|mq|mq] eqn:Eq;
    [change (2 ^ 52) with 4503599627370496 in L52; lia| |lia].
  set (d := Z.pos (digits2_pos mq)).
  pose proof (digits_bounds mq) as [Ql Qu]. fold d in Ql, Qu.
  assert (Hd : 53 <= d <= 54).
  { split.
    - assert (52 < d); [|lia]. apply (Z.pow_lt_mono_r_iff 2); lia.
    - assert (d - 1 < 54); [|lia]. apply (Z.pow_lt_mono_r_iff 2); lia. }
  rewrite <- Eq.
  destruct (binary_round_aux_quotient (xorb sx sy) N (Z.pos my) mq e0)
    as (m' & e' & Hr & Hdg & He & Hv); fold d; try lia.
  fold d in He, Hv.
  exists m', e'. split; [exact Hr|]. split; [exact Hdg|]. split; [lia|].
  assert (P : 0 < 2 ^ (d - 53)) by (apply Z.pow_pos_nonneg; lia).
  assert (PD : 0 < Z.pos my * 2 ^ (d - 53)) by lia.
  destruct (round_half_even_bounds N (Z.pos my * 2 ^ (d - 53)) PD) as [_ Hb].
  rewrite <- Hv in Hb.
  replace (e' - e0) with ((e' - (e0 + (d - 53))) + (d - 53)) by lia.
  rewrite Z.pow_add_r by lia.
  set (t := 2 ^ (e' - (e0 + (d - 53)))) in *.
  assert (Ht : 1 <= t).
  { assert (0 < t) by (apply Z.pow_pos_nonneg; lia). lia. }
  fold N.
  replace (Z.pos m' * (t * 2 ^ (d - 53)) * Z.pos my - N)
    with (Z.pos m' * t * (Z.pos my * 2 ^ (d - 53)) - N) by ring.
  clearbody t N. nia.
Qed.

(** ** Grams of a macronutrient *)

(** An integer nearest to a fraction [P / Q] is also nearest to a fraction
    [A / B] that lies within [1 / (2 * B)] of [P / Q]. *)
Lemma round_half_even_near P Q A B :
  0 < Q -> 0 < B ->
  2 * Z.abs (P * B - A * Q) < Q ->
  Z.abs (2 * (round_half_even P Q * B - A)) <= B.
Proof.
  intros HQ HB Hn.
  destruct (round_half_even_bounds P Q HQ) as [_ Hk].
  set (k := round_half_even P Q) in *. clearbody k.
  assert (E : (k * B - A) * Q = B * (k * Q - P) + (P * B - A * Q)) by ring.
  assert (H1 : 2 * Z.abs ((k * B - A) * Q) < (B + 1) * Q).
  { rewrite E.
    pose proof (Z.abs_triangle (B * (k * Q - P)) (P * B - A * Q)) as T.
    rewrite Z.abs_mul, (Z.abs_eq B) in T by lia.
    assert (T2 : 2 * (B * Z.abs (k * Q - P)) <= B * Q).
    { replace (2 * (B * Z.abs (k * Q - P)))
        with (B * (2 * Z.abs (k * Q - P))) by ring.
      apply Z.mul_le_mono_nonneg_l; lia. }
    lia. }
  rewrite Z.abs_mul, (Z.abs_eq Q) in H1 by lia.
  assert (H2 : 2 * Z.abs (k * B - A) < B + 1).
  { apply (Z.mul_lt_mono_pos_r Q); [exact HQ|]. lia. }
  lia.
Qed.

Lemma grams_arith a Ua F mf ma W1 mx W2 mg g Gs mq Tq pct :
  0 < a -> ma = a * Ua -> 2 ^ 13 <= Ua -> 2 ^ 54 <= F ->
  Z.abs (100 * mf - pct * F) <= 50 ->
  1 <= W1 <= 2 ^ 54 -> Z.abs (2 * (mx * W1 - ma * mf)) <= W1 ->
  1 <= W2 <= 4 -> mg = g * Gs -> 0 < mg < 2 ^ 53 -> 0 < ma < 2 ^ 53 ->
  Z.abs (2 * (mq * W2 * mg - mx * 2 ^ 53)) <= W2 * mg ->
  0 < Tq -> 0 < Gs -> 0 < g ->
  Tq * W1 * W2 * Gs = Ua * F * 2 ^ 53 ->
  2 * Z.abs (mq * (100 * g) - pct * a * Tq) < Tq.
Proof.
  intros Ha Hma HUa HF Hf HW1 Hx HW2 Hmg Bmg Bma Hq HT HGs Hg HS.
  set (S := W1 * W2 * Gs).
  assert (HSp : 0 < S).
  { unfold S. apply Z.mul_pos_pos; [apply Z.mul_pos_pos|];
      clear - HW1 HW2 HGs; lia. }
  set (Z0 := mq * (100 * g) - pct * a * Tq).
  assert (Hdec : Z0 * S
                 = 100 * W1 * (mq * W2 * mg - mx * 2 ^ 53)
                   + 100 * 2 ^ 53 * (mx * W1 - ma * mf)
                   + 2 ^ 53 * ma * (100 * mf - pct * F)).
  { unfold Z0, S.
    replace ((mq * (100 * g) - pct * a * Tq) * (W1 * W2 * Gs))
      with (100 * W1 * mq * W2 * (g * Gs) - pct * a * (Tq * W1 * W2 * Gs))
      by ring.
    rewrite HS, <- Hmg, Hma. ring. }
  change (2 ^ 53) with 9007199254740992 in *.
  change (2 ^ 54) with 18014398509481984 in *.
  change (2 ^ 13) with 8192 in *.
  set (t1 := mq * W2 * mg - mx * 9007199254740992) in *.
  set (t2 := mx * W1 - ma * mf) in *.
  set (t3 := 100 * mf - pct * F) in *.
  rewrite Z.abs_mul, (Z.abs_eq 2) in Hq, Hx by (clear; lia).
  pose proof (Z.abs_nonneg t1) as N1. pose proof (Z.abs_nonneg t2) as N2.
  pose proof (Z.abs_nonneg t3) as N3.
  assert (B1 : Z.abs (100 * W1 * t1)
               <= 50 * 18014398509481984 * (4 * 9007199254740992)).
  { rewrite Z.abs_mul, (Z.abs_eq (100 * W1)) by (clear - HW1; lia).
    assert (Wm : W2 * mg <= 4 * 9007199254740992)
      by (apply Z.mul_le_mono_nonneg; clear - HW2 Bmg; lia).
    assert (T1 : Z.abs t1 <= 2 * 9007199254740992)
      by (clear - Hq Wm; lia).
    apply (Z.le_trans _ (100 * 18014398509481984 * (2 * 9007199254740992)));
      [|clear; lia].
    apply Z.mul_le_mono_nonneg; [clear - HW1; lia|clear - HW1; lia
                                |exact N1|exact T1]. }
  assert (B2 : Z.abs (100 * 9007199254740992 * t2)
               <= 50 * 9007199254740992 * 18014398509481984).
  { rewrite Z.abs_mul, (Z.abs_eq (100 * 9007199254740992)) by (clear; lia).
    clear - Hx HW1. lia. }
  assert (B3 : Z.abs (9007199254740992 * ma * t3)
               <= 9007199254740992 * 9007199254740992 * 50).
  { rewrite Z.abs_mul, (Z.abs_eq (9007199254740992 * ma))
      by (clear - Bma; lia).
    apply Z.mul_le_mono_nonneg; [clear - Bma; lia|clear - Bma; lia
                                |exact N3|exact Hf]. }
  assert (HZ : Z.abs (Z0 * S)
               <= 50 * 18014398509481984 * (4 * 9007199254740992)
                  + 50 * 9007199254740992 * 18014398509481984
                  + 9007199254740992 * 9007199254740992 * 50).
  { rewrite Hdec.
    eapply Z.le_trans; [apply Z.abs_triangle|].
    apply Z.add_le_mono; [|exact B3].
    eapply Z.le_trans; [apply Z.abs_triangle|].
    apply Z.add_le_mono; [exact B1|exact B2]. }
  assert (HR : 8192 * 18014398509481984 * 9007199254740992
               <= Tq * S).
  { unfold S. replace (Tq * (W1 * W2 * Gs)) with (Tq * W1 * W2 * Gs) by ring.
    rewrite HS.
    apply Z.mul_le_mono_nonneg_r; [clear; lia|].
    apply Z.mul_le_mono_nonneg; [clear; lia|exact HUa|clear; lia|exact HF]. }
  rewrite Z.abs_mul, (Z.abs_eq S) in HZ by (clear - HSp; lia).
  apply (Z.mul_lt_mono_pos_r S); [exact HSp|].
  rewrite <- Z.mul_assoc.
  remember (Z.abs Z0 * S) as P eqn:EP. remember (Tq * S) as Q eqn:EQ.
  clear - HZ HR. lia.
Qed.

Lemma to_Z_half_even_small s m e :
  e <= 0 ->
  to_Z_half_even (S754_finite s m e)
  = (if s then - round_half_even (Z.pos m) (2 ^ (- e))
     else round_half_even (Z.pos m) (2 ^ (- e))).
Proof.
  intros He. unfold to_Z_half_even, scaled_num, scaled_den.
  rewrite (Z.max_r e 0), (Z.max_l (- e) 0) by lia.
  change (10 ^ Z.max 0 0) with 1. change (10 ^ Z.max (- 0) 0) with 1.
  change (2 ^ 0) with 1. rewrite !Z.mul_1_r. reflexivity.
Qed.

Lemma digits_lt p k : Z.pos p < 2 ^ k -> 0 <= k -> Z.pos (digits2_pos p) <= k.
Proof.
  intros Hp Hk. pose proof (digits_bounds p) as [Bl _].
  assert (Z.pos (digits2_pos p) - 1 < k); [|lia].
  apply (Z.pow_lt_mono_r_iff 2); lia.
Qed.

(** [round((calories * ratio) / kcal)] for an integer number of calories
    below 2^40 in magnitude, a ratio that is a literal of two decimals and
    a small divisor: the integer nearest to [pct * calories / (100 * kcal)],
    up to the choice at a tie. *)
Lemma grams_bound c pct g mf ef mg eg :
  decimal pct 2 = S754_finite false mf ef ->
  Z.pos (digits2_pos mf) = 53 -> -56 <= ef <= -54 ->
  Z.abs (100 * Z.pos mf - pct * 2 ^ (- ef)) <= 50 ->
  float_of_int g = Ok (S754_finite false mg eg) ->
  Z.pos (digits2_pos mg) = 53 -> -52 <= eg <= -49 ->
  Z.pos mg = g * 2 ^ (- eg) ->
  Z.abs c < 2 ^ 40 ->
  exists k,
    grams_of (PyInt c) (PyFloat (decimal pct 2)) g = Ok k
    /\ Z.abs (2 * (k * (100 * g) - pct * c)) <= 100 * g.
Proof.
  intros Hf Df Hef Hpf Hg Dg Heg Hmg Hc.
  assert (Pg : 0 < g).
  { assert (0 < 2 ^ (- eg)) by (apply Z.pow_pos_nonneg; lia). nia. }
  rewrite Hf. unfold grams_of, lift2, var, int.
  cbn [mbind result_bind].
  rewrite py_mul_float_r. cbn [to_float].
  destruct (decide (c = 0)) as [->|Hc0].
  { exists 0. split; [|lia].
    change (float_of_int 0) with (Ok (S754_zero false) : result float).
    cbn [mbind result_bind]. unfold py_truediv.
    cbn [to_float mbind result_bind]. rewrite Hg.
    cbn [mbind result_bind is_zero]. reflexivity. }
  rewrite float_of_int_exact
    by (change (2 ^ 1023) with (2 ^ 40 * 2 ^ 983);
        assert (0 < 2 ^ 983) by (apply Z.pow_pos_nonneg; lia); nia).
  cbn [mbind result_bind].
  assert (Hc53 : Z.abs c < 2 ^ 53)
    by (change (2 ^ 53) with (2 ^ 40 * 2 ^ 13);
        change (2 ^ 13) with 8192; lia).
  rewrite exact_nonzero by (assumption || lia).
  destruct (canon_signed c Hc0 Hc53) as [Hs Hd].
  assert (Hq53 : Z.pos (Z.to_pos (Z.abs c)) < 2 ^ 53) by lia.
  destruct (canon_value (Z.to_pos (Z.abs c)) Hq53) as [HM DM].
  unfold canon.
  set (a := Z.to_pos (Z.abs c)) in *.
  set (d := Z.pos (digits2_pos a)) in *.
  set (M := Z.to_pos (Z.pos a * 2 ^ (53 - d))) in *.
  assert (Hd40 : d <= 40) by (apply digits_lt; lia).
  destruct (mul_normal (c <? 0) M (0 + d - 53) false mf ef DM Df)
    as (mx & ex & Hx & Dx & Ex & Vx); try lia.
  rewrite xorb_false_r in Hx. rewrite Hx. clear Hx.
  unfold py_truediv. cbn [to_float mbind result_bind]. rewrite Hg.
  cbn [mbind result_bind is_zero].
  destruct (div_finite (c <? 0) mx ex false mg eg)
    as (mq & eq & Hq & Dq & Eq & Vq); rewrite ?Dx, ?Dg; try lia.
  rewrite Dx, Dg in Eq, Vq.
  rewrite xorb_false_r in Hq. rewrite Hq. clear Hq.
  replace (53 - 53 + 53) with 53 in * by lia.
  unfold py_round. rewrite to_Z_half_even_small by lia.
  set (Tq := 2 ^ (- eq)).
  set (k := round_half_even (Z.pos mq) Tq).
  assert (HT : 0 < Tq) by (apply Z.pow_pos_nonneg; lia).
  assert (Hk : Z.abs (2 * (k * (100 * g) - pct * Z.pos a)) <= 100 * g).
  { apply round_half_even_near; [exact HT|lia|].
    apply (grams_arith (Z.pos a) (2 ^ (53 - d)) (2 ^ (- ef)) (Z.pos mf)
             (Z.pos M) (2 ^ (ex - (0 + d - 53 + ef))) (Z.pos mx)
             (2 ^ (eq - (ex - eg - 53))) (Z.pos mg) g (2 ^ (- eg)));
      try assumption; try lia.
    - change (2 ^ 13) with (2 ^ (53 - 40)). apply Z.pow_le_mono_r; lia.
    - apply Z.pow_le_mono_r; lia.
    - split.
      + assert (0 < 2 ^ (ex - (0 + d - 53 + ef)))
          by (apply Z.pow_pos_nonneg; lia). lia.
      + apply Z.pow_le_mono_r; lia.
    - split.
      + assert (0 < 2 ^ (eq - (ex - eg - 53)))
          by (apply Z.pow_pos_nonneg; lia). lia.
      + change 4 with (2 ^ 2). apply Z.pow_le_mono_r; lia.
    - pose proof (digits_bounds mg) as [_ Bu]. rewrite Dg in Bu. lia.
    - pose proof (digits_bounds M) as [_ Bu]. rewrite DM in Bu. lia.
    - unfold Tq. rewrite <- !Z.pow_add_r by lia. f_equal. lia. }
  assert (Ha : Z.pos a = Z.abs c) by (unfold a; rewrite Z2Pos.id; lia).
  clearbody k Tq M d a.
  destruct (c <? 0) eqn:Sg.
  - apply Z.ltb_lt in Sg. exists (- k). split; [reflexivity|].
    rewrite Ha in Hk. rewrite (Z.abs_neq c) in Hk by lia.
    replace (2 * (- k * (100 * g) - pct * c))
      with (- (2 * (k * (100 * g) - pct * - c))) by ring.
    rewrite Z.abs_opp. exact Hk.
  - apply Z.ltb_ge in Sg. exists k. split; [reflexivity|].
    rewrite Ha in Hk. rewrite (Z.abs_eq c) in Hk by lia. exact Hk.
Qed.

Lemma grams_default c pct g :
  (pct, g) ∈ [(30, 4); (40, 4); (30, 9)] ->
  Z.abs c < 2 ^ 40 ->
  exists k,
    grams_of (PyInt c) (PyFloat (decimal pct 2)) g = Ok k
    /\ Z.abs (2 * (k * (100 * g) - pct * c)) <= 100 * g.
Proof.
  intros Hp Hc.
  repeat (apply elem_of_cons in Hp as [[= -> ->]|Hp]);
    [..|apply elem_of_nil in Hp as []];
    (eapply grams_bound;
     [vm_compute; reflexivity | vm_compute; reflexivity | lia
     |vm_compute; intro; discriminate | vm_compute; reflexivity
     |vm_compute; reflexivity | lia | vm_compute; reflexivity | exact Hc]).
Qed.

Lemma calculate_macros_integer c :
  Z.abs c < 2 ^ 40 ->
  exists m,
    calculate_macros (PyInt c) None = Ok m
    /\ percent (protein m) = 30 /\ percent (carbs m) = 40
    /\ percent (fats m) = 30
    /\ Z.abs (40 * grams (protein m) - 3 * c) <= 20
    /\ Z.abs (10 * grams (carbs m) - c) <= 5
    /\ Z.abs (30 * grams (fats m) - c) <= 15
    /\ Z.abs (4 * grams (protein m) + 4 * grams (carbs m)
              + 9 * grams (fats m) - c) <= 8.
Proof.
  intros Hc.
  destruct (grams_default c 30 4 ltac:(repeat constructor) Hc)
    as (kp & Ep & Bp).
  destruct (grams_default c 40 4 ltac:(repeat constructor) Hc)
    as (kc & Ec & Bc).
  destruct (grams_default c 30 9 ltac:(repeat constructor) Hc)
    as (kf & Ef & Bf).
  exists {| protein := {| grams := kp; percent := 30 |};
            carbs := {| grams := kc; percent := 40 |};
            fats := {| grams := kf; percent := 30 |} |}.
  cbn [protein carbs fats grams percent].
  split; [|repeat split; try reflexivity; lia].
  change (calculate_macros (PyInt c) None)
    with (calculate_macros (PyInt c) (Some default_ratios)).
  apply (calculate_macros_returns (PyInt c) default_ratios
           (PyFloat (decimal 30 2)) (PyFloat (decimal 40 2))
           (PyFloat (decimal 30 2))); try reflexivity.
  cbn [protein carbs fats grams percent].
  repeat split; try assumption; vm_compute; reflexivity.
Qed.

(** X14. With the default ratios and an integer number of calories below
    2^40 in magnitude [calculate_macros] always returns; the percents are
    30, 40 and 30; each number of grams is the integer nearest to its exact
    value ([0.3 * calories / 4], [0.4 * calories / 4], [0.3 * calories / 9]),
    the floating-point product and quotient notwithstanding; and the energy
    of the grams, at 4, 4 and 9 kcal per gram, is within 8 kcal of the
    calories. *)
Theorem calculate_macros_default_grams c :
  Z.abs c < 2 ^ 40 ->
  exists m,
    calculate_macros (PyInt c) None = Ok m
    /\ percent (protein m) = 30 /\ percent (carbs m) = 40
    /\ percent (fats m) = 30
    /\ Z.abs (40 * grams (protein m) - 3 * c) <= 20
    /\ Z.abs (10 * grams (carbs m) - c) <= 5
    /\ Z.abs (30 * grams (fats m) - c) <= 15
    /\ Z.abs (4 * grams (protein m) + 4 * grams (carbs m)
              + 9 * grams (fats m) - c) <= 8.
Proof. apply calculate_macros_integer. Qed.

Lemma calculate_macros_default_grams_witness :
  Z.abs 1508 < 2 ^ 40
  /\ exists m,
       calculate_macros (PyInt 1508) None = Ok m
       /\ percent (protein m) = 30 /\ percent (carbs m) = 40
       /\ percent (fats m) = 30
       /\ Z.abs (40 * grams (protein m) - 3 * 1508) <= 20
       /\ Z.abs (10 * grams (carbs m) - 1508) <= 5
       /\ Z.abs (30 * grams (fats m) - 1508) <= 15
       /\ Z.abs (4 * grams (protein m) + 4 * grams (carbs m)
                 + 9 * grams (fats m) - 1508) <= 8.
Proof.
  split; [reflexivity|].
  apply (calculate_macros_default_grams 1508). reflexivity.
Defined.

(** ** Sizes of the floats of a computation *)

Lemma sized_weaken f lo hi lo' hi' :
  sized f lo hi -> lo' <= lo -> hi <= hi' -> sized f lo' hi'.
Proof. destruct f; cbn; intros; try tauto. intuition lia. Qed.

Lemma sized_finite_like f lo hi : sized f lo hi -> finite_like f = true.
Proof. destruct f; cbn; intros; try tauto; reflexivity. Qed.

Lemma exact_sized n e k :
  Z.abs n < 2 ^ k -> 0 <= k <= 53 -> -1000 <= e <= 900 ->
  sized (exact n e) (e - 52) (e + k - 53)
  /\ is_zero (exact n e) = bool_decide (n = 0).
Proof.
  intros Hn Hk He. destruct (decide (n = 0)) as [->|Hz].
  { split; [exact I|reflexivity]. }
  assert (Hn53 : Z.abs n < 2 ^ 53).
  { assert (2 ^ k <= 2 ^ 53) by (apply Z.pow_le_mono_r; lia). lia. }
  rewrite exact_nonzero by assumption.
  assert (Hq : Z.pos (Z.to_pos (Z.abs n)) < 2 ^ 53)
    by (rewrite Z2Pos.id; lia).
  destruct (canon_value _ Hq) as [_ Dg].
  unfold canon. cbn [sized is_zero].
  rewrite bool_decide_eq_false_2 by exact Hz.
  split; [|reflexivity]. split; [exact Dg|].
  assert (Z.pos (digits2_pos (Z.to_pos (Z.abs n))) <= k).
  { apply digits_lt; [rewrite Z2Pos.id; lia|lia]. }
  lia.
Qed.

Lemma mul_sized x y l1 h1 l2 h2 :
  sized x l1 h1 -> sized y l2 h2 ->
  -1074 <= l1 + l2 + 52 -> h1 + h2 + 54 <= 971 ->
  sized (mul x y) (l1 + l2 + 52) (h1 + h2 + 54)
  /\ is_zero (mul x y) = is_zero x || is_zero y.
Proof.
  intros Hx Hy Hlo Hhi.
  destruct x as [sx|sx| |sx mx ex], y as [sy|sy| |sy my ey];
    cbn [sized] in Hx, Hy; try contradiction;
    try (split; [exact I|reflexivity]).
  destruct Hx as [Dx Ex], Hy as [Dy Ey].
  destruct (mul_normal sx mx ex sy my ey Dx Dy) as (m' & e' & -> & Dm & Em & _);
    try lia.
  cbn [sized is_zero orb]. split; [|reflexivity]. split; [exact Dm|lia].
Qed.

Lemma div_sized x y l1 h1 l2 h2 :
  sized x l1 h1 -> sized y l2 h2 -> is_zero y = false ->
  -1074 <= l1 - h2 - 53 -> h1 - l2 - 51 <= 971 ->
  sized (div x y) (l1 - h2 - 53) (h1 - l2 - 51)
  /\ is_zero (div x y) = is_zero x.
Proof.
  intros Hx Hy Hz Hlo Hhi.
  destruct x as [sx|sx| |sx mx ex], y as [sy|sy| |sy my ey];
    cbn [sized] in Hx, Hy; try contradiction; try discriminate Hz;
    try (split; [exact I|reflexivity]).
  destruct Hx as [Dx Ex], Hy as [Dy Ey].
  destruct (div_finite sx mx ex sy my ey) as (m' & e' & -> & Dm & Em & _);
    rewrite ?Dx, ?Dy; try lia.
  rewrite Dx, Dy in Em.
  cbn [sized is_zero]. split; [|reflexivity]. split; [exact Dm|lia].
Qed.

Lemma binary_round_shape s p e :
  let dp := Z.pos (digits2_pos p) in
  -1074 <= e + dp - 53 -> e + dp - 52 <= 971 ->
  exists m' e',
    binary_round prec emax s p e = S754_finite s m' e'
    /\ Z.pos (digits2_pos m') = 53
    /\ e + dp - 53 <= e' <= e + dp - 52.
Proof.
  intros dp Hlo Hhi. destruct (Z_le_gt_dec dp 53) as [Hd|Hd].
  - destruct (binary_round_small s p e) as (m' & Hr & _ & Dm); fold dp;
      try lia.
    exists m', (e + dp - 53). fold dp in Hr. split; [exact Hr|].
    split; [exact Dm|lia].
  - unfold binary_round, shl_align. fold dp.
    rewrite fexp_normal by lia.
    destruct (dp + e - 53 - e) as [|k|k] eqn:Ek; try lia.
    destruct (binary_round_aux_round s p e) as (m' & e' & Hr & Dm & He & _);
      fold dp; try lia.
    fold dp in He. exists m', e'. split; [exact Hr|]. split; [exact Dm|lia].
Qed.

Lemma normalize_sized S ez k :
  Z.abs S < 2 ^ k -> 0 <= k ->
  -1074 <= ez - 52 -> ez + k - 52 <= 971 ->
  sized (binary_normalize prec emax S ez false) (ez - 52) (ez + k - 52).
Proof.
  intros HS Hk Hlo Hhi.
  destruct S as [|p|p]; cbn [binary_normalize]; [exact I| |].
  - assert (Dp : Z.pos (digits2_pos p) <= k) by (apply digits_lt; lia).
    assert (1 <= Z.pos (digits2_pos p)) by lia.
    destruct (binary_round_shape false p ez) as (m' & e' & -> & Dm & He);
      try lia.
    cbn [sized]. split; [exact Dm|lia].
  - assert (Dp : Z.pos (digits2_pos p) <= k) by (apply digits_lt; lia).
    assert (1 <= Z.pos (digits2_pos p)) by lia.
    destruct (binary_round_shape true p ez) as (m' & e' & -> & Dm & He);
      try lia.
    cbn [sized]. split; [exact Dm|lia].
Qed.

Lemma aligned_bound m e ez h :
  Z.pos (digits2_pos m) = 53 -> ez <= e <= h ->
  Z.pos (fst (shl_align m e ez)) < 2 ^ (53 + h - ez).
Proof.
  intros Dm He. rewrite shl_align_fst by lia.
  pose proof (digits_bounds m) as [_ Bu]. rewrite Dm in Bu.
  replace (53 + h - ez) with (53 + (h - ez)) by lia.
  rewrite Z.pow_add_r by lia.
  assert (2 ^ (e - ez) <= 2 ^ (h - ez)) by (apply Z.pow_le_mono_r; lia).
  assert (0 < 2 ^ (e - ez)) by (apply Z.pow_pos_nonneg; lia).
  nia.
Qed.

Lemma add_sized x y l1 h1 l2 h2 :
  sized x l1 h1 -> sized y l2 h2 ->
  -1074 <= Z.min l1 l2 - 52 -> Z.max h1 h2 + 2 <= 971 ->
  sized (add x y) (Z.min l1 l2 - 52) (Z.max h1 h2 + 2).
Proof.
  intros Hx Hy Hlo Hhi.
  destruct x as [sx|sx| |sx mx ex], y as [sy|sy| |sy my ey];
    cbn [sized] in Hx, Hy; try contradiction.
  - destruct sx, sy; exact I.
  - cbn. split; [tauto|lia].
  - cbn. split; [tauto|lia].
  - destruct Hx as [Dx Ex], Hy as [Dy Ey].
    unfold add, SFadd.
    set (ez := Z.min ex ey).
    set (h := Z.max h1 h2).
    pose proof (aligned_bound mx ex ez h Dx ltac:(unfold ez, h; lia)) as Bx.
    pose proof (aligned_bound my ey ez h Dy ltac:(unfold ez, h; lia)) as By.
    set (S := cond_Zopp sx (Z.pos (fst (shl_align mx ex ez)))
              + cond_Zopp sy (Z.pos (fst (shl_align my ey ez)))).
    assert (HS : Z.abs S < 2 ^ (54 + h - ez)).
    { replace (54 + h - ez) with (1 + (53 + h - ez)) by lia.
      rewrite Z.pow_add_r by (unfold ez, h; lia). change (2 ^ 1) with 2.
      unfold S, cond_Zopp. destruct sx, sy; lia. }
    apply (sized_weaken _ (ez - 52) (ez + (54 + h - ez) - 52));
      [|unfold ez; lia|unfold h; lia].
    apply normalize_sized; unfold ez, h in *; lia.
Qed.

Lemma sub_sized x y l1 h1 l2 h2 :
  sized x l1 h1 -> sized y l2 h2 ->
  -1074 <= Z.min l1 l2 - 52 -> Z.max h1 h2 + 2 <= 971 ->
  sized (sub x y) (Z.min l1 l2 - 52) (Z.max h1 h2 + 2).
Proof.
  intros Hx Hy Hlo Hhi.
  destruct x as [sx|sx| |sx mx ex], y as [sy|sy| |sy my ey];
    cbn [sized] in Hx, Hy; try contradiction.
  - destruct sx, sy; exact I.
  - cbn. split; [tauto|lia].
  - cbn. split; [tauto|lia].
  - destruct Hx as [Dx Ex], Hy as [Dy Ey].
    unfold sub, SFsub.
    set (ez := Z.min ex ey).
    set (h := Z.max h1 h2).
    pose proof (aligned_bound mx ex ez h Dx ltac:(unfold ez, h; lia)) as Bx.
    pose proof (aligned_bound my ey ez h Dy ltac:(unfold ez, h; lia)) as By.
    set (S := cond_Zopp sx (Z.pos (fst (shl_align mx ex ez)))
              - cond_Zopp sy (Z.pos (fst (shl_align my ey ez)))).
    assert (HS : Z.abs S < 2 ^ (54 + h - ez)).
    { replace (54 + h - ez) with (1 + (53 + h - ez)) by lia.
      rewrite Z.pow_add_r by (unfold ez, h; lia). change (2 ^ 1) with 2.
      unfold S, cond_Zopp. destruct sx, sy; lia. }
    apply (sized_weaken _ (ez - 52) (ez + (54 + h - ez) - 52));
      [|unfold ez; lia|unfold h; lia].
    apply normalize_sized; unfold ez, h in *; lia.
Qed.

Lemma num_sized_int z lo hi : num_sized (PyInt z) lo hi -> -53 <= hi.
Proof.
  cbn [num_sized]. intros H. destruct (Z_le_gt_dec (-53) hi); [assumption|].
  rewrite Z.pow_neg_r in H by lia. lia.
Qed.

Lemma num_sized_weaken x lo hi lo' hi' :
  num_sized x lo hi -> lo' <= lo -> hi <= hi' ->
  num_sized x lo' hi'.
Proof.
  destruct x as [z|f]; intros H Hl Hh.
  - pose proof (num_sized_int z lo hi H) as Hb. cbn [num_sized] in *.
    assert (2 ^ (hi + 53) <= 2 ^ (hi' + 53)) by (apply Z.pow_le_mono_r; lia).
    lia.
  - eapply sized_weaken; eassumption.
Qed.

Lemma to_float_sized x lo hi :
  num_sized x lo hi -> lo <= -52 -> hi <= 0 ->
  exists f,
    to_float x = Ok f /\ sized f lo hi /\ is_zero f = is_zero_num x.
Proof.
  destruct x as [z|f]; intros H Hl Hh.
  - pose proof (num_sized_int z lo hi H) as Hb.
    cbn [num_sized to_float is_zero_num] in *.
    assert (Hz : Z.abs z < 2 ^ 1023).
    { assert (2 ^ (hi + 53) <= 2 ^ 1023) by (apply Z.pow_le_mono_r; lia).
      lia. }
    rewrite float_of_int_exact by exact Hz.
    destruct (exact_sized z 0 (hi + 53) H ltac:(lia) ltac:(lia)) as [Hs Hzero].
    eexists. split; [reflexivity|]. split; [|exact Hzero].
    eapply sized_weaken; [exact Hs|lia|lia].
  - cbn [num_sized to_float is_zero_num] in *.
    exists f. split; [reflexivity|]. split; [exact H|reflexivity].
Qed.

Lemma py_mul_sized x y l1 h1 l2 h2 :
  num_sized x l1 h1 -> num_sized y l2 h2 ->
  l1 <= -52 -> l2 <= -52 -> h1 <= 0 -> h2 <= 0 ->
  -1074 <= l1 + l2 + 52 ->
  exists v, py_mul x y = Ok v /\ num_sized v (l1 + l2 + 52) (h1 + h2 + 54).
Proof.
  intros Hx Hy L1 L2 H1 H2 Hlo.
  destruct (to_float_sized x l1 h1 Hx L1 H1) as (fx & Ex & Sx & _).
  destruct (to_float_sized y l2 h2 Hy L2 H2) as (fy & Ey & Sy & _).
  destruct (mul_sized fx fy l1 h1 l2 h2 Sx Sy Hlo ltac:(lia)) as [Sm _].
  unfold py_mul. destruct x as [a|f], y as [b|g];
    try (rewrite Ex, Ey; cbn [mbind result_bind]; eexists;
         split; [reflexivity|exact Sm]).
  pose proof (num_sized_int _ _ _ Hx). pose proof (num_sized_int _ _ _ Hy).
  cbn [num_sized] in *. eexists. split; [reflexivity|].
  cbn [num_sized]. rewrite Z.abs_mul.
  replace (h1 + h2 + 54 + 53) with ((h1 + 53) + (h2 + 53) + 1) by lia.
  rewrite Z.pow_add_r, Z.pow_add_r by lia. change (2 ^ 1) with 2.
  assert (0 < 2 ^ (h1 + 53)) by (apply Z.pow_pos_nonneg; lia).
  assert (0 < 2 ^ (h2 + 53)) by (apply Z.pow_pos_nonneg; lia).
  nia.
Qed.

Lemma py_add_sized x y l1 h1 l2 h2 :
  num_sized x l1 h1 -> num_sized y l2 h2 ->
  l1 <= -52 -> l2 <= -52 -> h1 <= 0 -> h2 <= 0 ->
  -1074 <= Z.min l1 l2 - 52 ->
  exists v, py_add x y = Ok v
            /\ num_sized v (Z.min l1 l2 - 52) (Z.max h1 h2 + 2).
Proof.
  intros Hx Hy L1 L2 H1 H2 Hlo.
  destruct (to_float_sized x l1 h1 Hx L1 H1) as (fx & Ex & Sx & _).
  destruct (to_float_sized y l2 h2 Hy L2 H2) as (fy & Ey & Sy & _).
  pose proof (add_sized fx fy l1 h1 l2 h2 Sx Sy Hlo ltac:(lia)) as Sm.
  unfold py_add. destruct x as [a|f], y as [b|g];
    try (rewrite Ex, Ey; cbn [mbind result_bind]; eexists;
         split; [reflexivity|exact Sm]).
  pose proof (num_sized_int _ _ _ Hx). pose proof (num_sized_int _ _ _ Hy).
  cbn [num_sized] in *. eexists. split; [reflexivity|].
  cbn [num_sized].
  set (h := Z.max h1 h2).
  replace (h + 2 + 53) with (1 + (h + 54)) by lia.
  rewrite Z.pow_add_r by lia. change (2 ^ 1) with 2.
  assert (2 ^ (h1 + 53) <= 2 ^ (h + 54)) by (apply Z.pow_le_mono_r; lia).
  assert (2 ^ (h2 + 53) <= 2 ^ (h + 54)) by (apply Z.pow_le_mono_r; lia).
  lia.
Qed.

Lemma py_sub_sized x y l1 h1 l2 h2 :
  num_sized x l1 h1 -> num_sized y l2 h2 ->
  l1 <= -52 -> l2 <= -52 -> h1 <= 0 -> h2 <= 0 ->
  -1074 <= Z.min l1 l2 - 52 ->
  exists v, py_sub x y = Ok v
            /\ num_sized v (Z.min l1 l2 - 52) (Z.max h1 h2 + 2).
Proof.
  intros Hx Hy L1 L2 H1 H2 Hlo.
  destruct (to_float_sized x l1 h1 Hx L1 H1) as (fx & Ex & Sx & _).
  destruct (to_float_sized y l2 h2 Hy L2 H2) as (fy & Ey & Sy & _).
  pose proof (sub_sized fx fy l1 h1 l2 h2 Sx Sy Hlo ltac:(lia)) as Sm.
  unfold py_sub. destruct x as [a|f], y as [b|g];
    try (rewrite Ex, Ey; cbn [mbind result_bind]; eexists;
         split; [reflexivity|exact Sm]).
  pose proof (num_sized_int _ _ _ Hx). pose proof (num_sized_int _ _ _ Hy).
  cbn [num_sized] in *. eexists. split; [reflexivity|].
  cbn [num_sized].
  set (h := Z.max h1 h2).
  replace (h + 2 + 53) with (1 + (h + 54)) by lia.
  rewrite Z.pow_add_r by lia. change (2 ^ 1) with 2.
  assert (2 ^ (h1 + 53) <= 2 ^ (h + 54)) by (apply Z.pow_le_mono_r; lia).
  assert (2 ^ (h2 + 53) <= 2 ^ (h + 54)) by (apply Z.pow_le_mono_r; lia).
  lia.
Qed.

Lemma py_round_sized x lo hi :
  num_sized x lo hi -> -53 <= hi <= 0 ->
  exists k, py_round x = Ok k /\ Z.abs k <= 2 ^ (hi + 53).
Proof.
  intros Hx Hh. destruct x as [z|f]; cbn [num_sized] in Hx.
  - exists z. split; [reflexivity|lia].
  - assert (P : 0 < 2 ^ (hi + 53)) by (apply Z.pow_pos_nonneg; lia).
    destruct f as [s|s| |s m e]; cbn [sized] in Hx; try contradiction.
    + exists 0. split; [reflexivity|]. cbn. lia.
    + destruct Hx as [Dm He]. unfold py_round.
      rewrite to_Z_half_even_small by lia.
      set (T := 2 ^ (- e)).
      assert (HT : 0 < T) by (apply Z.pow_pos_nonneg; lia).
      destruct (round_half_even_bounds (Z.pos m) T HT) as [[Rl Ru] _].
      pose proof (digits_bounds m) as [_ Bu]. rewrite Dm in Bu.
      assert (Q0 : 0 <= Z.pos m / T) by (apply Z.div_pos; lia).
      assert (Q1 : Z.pos m / T < 2 ^ (hi + 53)).
      { apply Z.div_lt_upper_bound; [exact HT|].
        destruct (Z_le_gt_dec (-53) e) as [Hb|Hb].
        - assert (E : 2 ^ 53 = T * 2 ^ (e + 53)).
          { unfold T. rewrite <- Z.pow_add_r by lia. f_equal. lia. }
          assert (2 ^ (e + 53) <= 2 ^ (hi + 53))
            by (apply Z.pow_le_mono_r; lia).
          nia.
        - assert (2 ^ 53 <= T) by (apply Z.pow_le_mono_r; lia).
          nia. }
      set (k := round_half_even (Z.pos m) T) in *. clearbody k T.
      eexists. split; [reflexivity|]. destruct s; lia.
Qed.

(** ** The steps of [calculate_all] on everyday inputs *)

Lemma returns_sized_weaken r lo hi lo' hi' :
  returns_sized r lo hi -> lo' <= lo -> hi <= hi' ->
  returns_sized r lo' hi'.
Proof.
  intros (v & -> & Hv) Hl Hh. exists v. split; [reflexivity|].
  eapply num_sized_weaken; eassumption.
Qed.

Lemma lift2_mul_sized x y l1 h1 l2 h2 :
  returns_sized x l1 h1 -> returns_sized y l2 h2 ->
  l1 <= -52 -> l2 <= -52 -> h1 <= 0 -> h2 <= 0 ->
  -1074 <= l1 + l2 + 52 ->
  returns_sized (x * y)%py (l1 + l2 + 52) (h1 + h2 + 54).
Proof.
  intros (a & -> & Ha) (b & -> & Hb) L1 L2 H1 H2 Hlo.
  unfold lift2. cbn [mbind result_bind].
  apply py_mul_sized; assumption.
Qed.

Lemma lift2_add_sized x y l1 h1 l2 h2 :
  returns_sized x l1 h1 -> returns_sized y l2 h2 ->
  l1 <= -52 -> l2 <= -52 -> h1 <= 0 -> h2 <= 0 ->
  -1074 <= Z.min l1 l2 - 52 ->
  returns_sized (x + y)%py (Z.min l1 l2 - 52) (Z.max h1 h2 + 2).
Proof.
  intros (a & -> & Ha) (b & -> & Hb) L1 L2 H1 H2 Hlo.
  unfold lift2. cbn [mbind result_bind].
  apply py_add_sized; assumption.
Qed.

Lemma lift2_sub_sized x y l1 h1 l2 h2 :
  returns_sized x l1 h1 -> returns_sized y l2 h2 ->
  l1 <= -52 -> l2 <= -52 -> h1 <= 0 -> h2 <= 0 ->
  -1074 <= Z.min l1 l2 - 52 ->
  returns_sized (x - y)%py (Z.min l1 l2 - 52) (Z.max h1 h2 + 2).
Proof.
  intros (a & -> & Ha) (b & -> & Hb) L1 L2 H1 H2 Hlo.
  unfold lift2. cbn [mbind result_bind].
  apply py_sub_sized; assumption.
Qed.

Lemma int_sized z k :
  Z.abs z < 2 ^ k -> 0 <= k <= 53 -> returns_sized (int z) (-52) (k - 53).
Proof.
  intros Hz Hk. exists (PyInt z). split; [reflexivity|].
  cbn [num_sized]. replace (k - 53 + 53) with k by lia. exact Hz.
Qed.

Lemma moderate_sized x : moderate x -> num_sized x (-60) (-32).
Proof.
  destruct x as [z|f]; cbn [moderate num_sized]; intros H.
  - change (2 ^ (-32 + 53)) with (2 * 2 ^ 20).
    assert (0 < 2 ^ 20) by (apply Z.pow_pos_nonneg; lia). lia.
  - eapply sized_weaken; [exact H|lia|lia].
Qed.

Lemma convert_weight_sized weight weight_unit :
  moderate weight ->
  returns_sized (convert_weight weight weight_unit) (-62) (-32).
Proof.
  intros Hw. apply moderate_sized in Hw. unfold convert_weight. case_decide.
  - assert (Hc : num_sized (PyFloat (decimal 453592 6)) (-54) (-54)).
    { vm_compute. split; [reflexivity|split; discriminate]. }
    destruct (py_mul_sized weight (PyFloat (decimal 453592 6))
                (-60) (-32) (-54) (-54) Hw Hc)
      as (v & Ev & Sv); try lia.
    exists v. split; [exact Ev|]. exact Sv.
  - exists weight. split; [reflexivity|].
    eapply num_sized_weaken; [exact Hw|lia|lia].
Qed.

Lemma calculate_bmr_sized weight_kg height_cm age gender :
  num_sized weight_kg (-62) (-32) -> num_sized height_cm (-60) (-32) ->
  Z.abs age <= 2 ^ 20 ->
  returns_sized (calculate_bmr_mifflin weight_kg height_cm age gender)
    (-218) (-21).
Proof.
  intros Hw Hh Ha.
  assert (A : returns_sized (int 10 * var weight_kg)%py (-62) (-27)).
  { apply (lift2_mul_sized (int 10) (var weight_kg) (-52) (-49) (-62) (-32));
      try lia.
    - apply (int_sized 10 4); [reflexivity|lia].
    - exists weight_kg. split; [reflexivity|exact Hw]. }
  assert (B : returns_sized (flt 625 2 * var height_cm)%py (-60) (-28)).
  { apply (lift2_mul_sized (flt 625 2) (var height_cm) (-52) (-50) (-60) (-32));
      try lia.
    - eexists. split; [reflexivity|]. vm_compute.
      split; [reflexivity|split; discriminate].
    - exists height_cm. split; [reflexivity|exact Hh]. }
  assert (C : returns_sized (int 5 * int age)%py (-52) (-28)).
  { apply (lift2_mul_sized (int 5) (int age) (-52) (-50) (-52) (-32));
      try lia.
    - apply (int_sized 5 3); [reflexivity|lia].
    - apply (int_sized age 21); [|lia].
      change (2 ^ 21) with (2 * 2 ^ 20).
      assert (0 < 2 ^ 20) by (apply Z.pow_pos_nonneg; lia). lia. }
  pose proof (lift2_add_sized _ _ (-62) (-27) (-60) (-28) A B
                ltac:(lia) ltac:(lia) ltac:(lia) ltac:(lia) ltac:(lia)) as AB.
  pose proof (lift2_sub_sized _ _ _ _ (-52) (-28) AB C
                ltac:(lia) ltac:(lia) ltac:(lia) ltac:(lia) ltac:(lia)) as ABC.
  destruct (decide (lower gender = "male")) as [Hg|Hg].
  - rewrite calculate_bmr_male by exact Hg.
    pose proof (lift2_add_sized _ _ _ _ (-52) (-50) ABC
                  (int_sized 5 3 eq_refl ltac:(lia))
                  ltac:(lia) ltac:(lia) ltac:(lia) ltac:(lia) ltac:(lia)) as R.
    eapply returns_sized_weaken; [exact R|lia|lia].
  - rewrite calculate_bmr_other by exact Hg.
    pose proof (lift2_sub_sized _ _ _ _ (-52) (-45) ABC
                  (int_sized 161 8 eq_refl ltac:(lia))
                  ltac:(lia) ltac:(lia) ltac:(lia) ltac:(lia) ltac:(lia)) as R.
    eapply returns_sized_weaken; [exact R|lia|lia].
Qed.

Lemma multiplier_sized activity_level :
  sized (multiplier_of activity_level) (-52) (-52).
Proof.
  unfold multiplier_of. repeat case_decide; vm_compute;
    (split; [reflexivity|split; discriminate]).
Qed.

Lemma calculate_tdee_sized b activity_level :
  num_sized b (-218) (-21) ->
  returns_sized (calculate_tdee b activity_level) (-218) (-19).
Proof.
  intros Hb. rewrite calculate_tdee_eq.
  apply (lift2_mul_sized (var b) _ (-218) (-21) (-52) (-52)); try lia.
  - exists b. split; [reflexivity|exact Hb].
  - eexists. split; [reflexivity|]. apply multiplier_sized.
Qed.

(** [height / 100] for a height that is not zero. *)
Lemma height_m_sized height_cm :
  moderate height_cm -> is_zero_num height_cm = false ->
  exists q,
    py_truediv height_cm (PyInt 100) = Ok (PyFloat q)
    /\ sized q (-67) (-37) /\ is_zero q = false.
Proof.
  intros Hm Hz. destruct height_cm as [a|f]; cbn [moderate is_zero_num] in *.
  - apply bool_decide_eq_false in Hz.
    unfold py_truediv. case_decide; [discriminate|].
    unfold of_ratio.
    assert (Ha : exists s p, raw_of_Z a = S754_finite s p 0
                             /\ Z.pos p = Z.abs a).
    { destruct a as [|p|p]; [contradiction| |];
        eexists _, p; split; reflexivity. }
    destruct Ha as (s & p & -> & Hp).
    change (raw_of_Z 100) with (S754_finite false 100 0).
    assert (Dp : Z.pos (digits2_pos p) <= 21).
    { apply digits_lt; [|lia]. change (2 ^ 21) with (2 * 2 ^ 20).
      assert (0 < 2 ^ 20) by (apply Z.pow_pos_nonneg; lia). lia. }
    assert (1 <= Z.pos (digits2_pos p)) by lia.
    change (Z.pos (digits2_pos 100)) with 7 in *.
    destruct (div_finite s p 0 false 100 0) as (m' & e' & -> & Dm & Em & _);
      change (Z.pos (digits2_pos 100)) with 7 in *; try lia.
    cbn [is_inf]. eexists. split; [reflexivity|].
    cbn [sized is_zero]. split; [|reflexivity]. split; [exact Dm|lia].
  - unfold py_truediv. cbn [to_float mbind result_bind].
    change (float_of_int 100)
      with (Ok (S754_finite false 7036874417766400 (-46)) : result float).
    cbn [mbind result_bind is_zero].
    destruct (div_sized f (S754_finite false 7036874417766400 (-46))
                (-60) (-33) (-46) (-46) Hm) as [Sd Zd]; try lia.
    { cbn. split; [reflexivity|lia]. }
    { reflexivity. }
    eexists. split; [reflexivity|]. split.
    + eapply sized_weaken; [exact Sd|lia|lia].
    + rewrite Zd. exact Hz.
Qed.

Lemma calculate_bmi_sized weight_kg height_cm :
  num_sized weight_kg (-62) (-32) ->
  moderate height_cm -> is_zero_num height_cm = false ->
  exists i,
    calculate_bmi weight_kg height_cm = Ok (PyFloat i) /\ sized i (-95) (-1).
Proof.
  intros Hw Hm Hz.
  destruct (height_m_sized height_cm Hm Hz) as (q & Eq & Sq & Zq).
  unfold calculate_bmi. rewrite Eq. cbn [mbind result_bind].
  destruct (mul_sized q q (-67) (-37) (-67) (-37) Sq Sq) as [Ss Zs];
    try lia.
  rewrite Zq in Zs. cbn [orb] in Zs.
  assert (Esq : py_square (PyFloat q) = Ok (PyFloat (mul q q))).
  { unfold py_square. destruct q as [s|s| |s m e]; try discriminate Zq;
      try contradiction.
    destruct (mul (S754_finite s m e) (S754_finite s m e));
      cbn [sized] in Ss; try contradiction; try discriminate Zs.
    reflexivity. }
  rewrite Esq. cbn [mbind result_bind].
  rewrite py_truediv_float_r.
  destruct (to_float_sized weight_kg (-62) (-32) Hw) as (fw & -> & Sw & _);
    try lia.
  cbn [mbind result_bind]. rewrite Zs.
  destruct (div_sized fw (mul q q) (-62) (-32) (-82) (-20) Sw Ss Zs)
    as [Sd _]; try lia.
  eexists. split; [reflexivity|].
  eapply sized_weaken; [exact Sd|lia|lia].
Qed.

(** [round(x, 1)] on a float below 2^53 in magnitude. *)
Lemma py_round_to_sized f lo hi :
  sized f lo hi -> hi <= 0 -> returns (py_round_to (PyFloat f) 1).
Proof.
  intros Hf Hh. unfold py_round_to.
  destruct f as [s|s| |s m e]; cbn [sized] in Hf; try contradiction.
  - eexists. reflexivity.
  - destruct Hf as [Dm He]. cbn [is_nan is_inf orb].
    repeat case_decide; try lia.
    unfold round_decimal, scaled_num, scaled_den.
    rewrite (Z.max_r e 0), (Z.max_l (- e) 0) by lia.
    change (Z.max 1 0) with 1. change (Z.max (- (1)) 0) with 0.
    change (10 ^ 0) with 1. change (10 ^ 1) with 10.
    change (2 ^ 0) with 1. rewrite !Z.mul_1_r.
    set (T := 2 ^ (- e)).
    assert (HT : 1 <= T).
    { assert (0 < T) by (apply Z.pow_pos_nonneg; lia). lia. }
    destruct (round_half_even_bounds (Z.pos m * 10) T ltac:(lia))
      as [[Rl Ru] _].
    pose proof (digits_bounds m) as [_ Bu]. rewrite Dm in Bu.
    assert (Q0 : 0 <= Z.pos m * 10 / T) by (apply Z.div_pos; lia).
    assert (Q1 : Z.pos m * 10 / T <= Z.pos m * 10).
    { apply Z.div_le_upper_bound; nia. }
    set (k := round_half_even (Z.pos m * 10) T) in *. clearbody k T.
    destruct k as [|q|q]; try lia.
    + eexists. reflexivity.
    + change (raw_of_Z 10) with (S754_finite false 10 0).
      assert (Dq : Z.pos (digits2_pos q) <= 57).
      { apply digits_lt; [|lia].
        change (2 ^ 57) with (16 * 2 ^ 53). lia. }
      assert (1 <= Z.pos (digits2_pos q)) by lia.
      destruct (div_finite s q 0 false 10 0) as (m' & e' & -> & _);
        change (Z.pos (digits2_pos 10)) with 4 in *; try lia.
      cbn [is_inf]. eexists. reflexivity.
Qed.

Lemma py_round_to_num x lo hi :
  num_sized x lo hi -> hi <= 0 -> returns (py_round_to x 1).
Proof.
  intros Hx Hh. destruct x as [z|f].
  - unfold py_round_to. case_decide; [|lia]. eexists. reflexivity.
  - eapply py_round_to_sized; eassumption.
Qed.

Lemma weekly_change_returns goal :
  exists change r_change,
    calculate_weekly_change (PyInt (get goal_adjustments goal 0)) = Ok change
    /\ py_round_to change 2 = Ok r_change.
Proof.
  rewrite goal_adjustments_get.
  destruct projected_change_values as (P1 & P2 & P3 & P4 & P5).
  assert (H : returns (calculate_weekly_change (PyInt (adjustment_of goal))
                         ≫= fun x => py_round_to x 2)).
  { unfold adjustment_of. repeat case_decide; eexists; eassumption. }
  destruct H as [v H]. apply bind_Ok in H as (change & H1 & H2).
  exists change, v. split; assumption.
Qed.

Lemma adjustment_sized goal :
  num_sized (PyInt (get goal_adjustments goal 0)) (-52) (-43).
Proof.
  rewrite goal_adjustments_get. unfold adjustment_of.
  repeat case_decide; reflexivity.
Qed.

(** ** Everyday requests *)

(** X15. For a weight and a height that are integers of at most 2^20 in
    magnitude or floats that are zero or between 2^-8 and 2^20 in magnitude,
    a height that is not zero, an age of at most 2^20 in magnitude and a
    height unit other than ['ft'], [calculate_all] returns a result,
    whatever the gender, activity level, goal and weight unit, and the
    endpoint answers with it; in that result the meals sum to the daily
    calories up to 1 kcal and the energy of the macros, at 4, 4 and 9 kcal
    per gram, is within 8 kcal of them. *)
Theorem calculate_all_returns age gender weight height activity_level goal
    weight_unit height_unit :
  moderate weight -> moderate height -> is_zero_num height = false ->
  Z.abs age <= 2 ^ 20 -> height_unit <> "ft" ->
  exists r,
    calculate_all age gender weight height activity_level goal
      weight_unit height_unit = Ok r
    /\ calculate {| req_age := Some age; req_gender := Some gender;
                    req_weight := Some weight; req_height := Some height;
                    req_activity := Some activity_level;
                    req_goal := Some goal;
                    req_weight_unit := Some weight_unit;
                    req_height_unit := Some height_unit |} = Success r
    /\ Z.abs (daily_calories r) <= 2 ^ 36
    /\ Z.abs (plan_total (meal_plan r) - daily_calories r) <= 1
    /\ Z.abs (4 * grams (protein (nutrition_macros r))
              + 4 * grams (carbs (nutrition_macros r))
              + 9 * grams (fats (nutrition_macros r))
              - daily_calories r) <= 8.
Proof.
  intros Hw Hh Hz Ha Hu.
  destruct (convert_weight_sized weight weight_unit Hw) as (w_kg & Ew & Sw).
  pose proof (moderate_sized height Hh) as Sh.
  destruct (calculate_bmr_sized w_kg height age gender Sw Sh Ha)
    as (b & Eb & Sb).
  destruct (calculate_tdee_sized b activity_level Sb) as (t & Et & St).
  destruct (calculate_bmi_sized w_kg height Sw Hh Hz) as (i & Ei & Si).
  destruct (py_add_sized t (PyInt (get goal_adjustments goal 0))
              (-218) (-19) (-52) (-43) St (adjustment_sized goal))
    as (target & Etg & Stg); try lia.
  destruct (py_round_sized target _ _ Stg) as (daily & Ed & Bd); [lia|].
  change (2 ^ (Z.max (-19) (-43) + 2 + 53)) with (2 ^ 36) in Bd.
  assert (B40 : Z.abs daily < 2 ^ 40).
  { change (2 ^ 40) with (16 * 2 ^ 36).
    assert (0 < 2 ^ 36) by (apply Z.pow_pos_nonneg; lia). lia. }
  assert (B46 : Z.abs daily < 2 ^ 46).
  { change (2 ^ 46) with (1024 * 2 ^ 36).
    assert (0 < 2 ^ 36) by (apply Z.pow_pos_nonneg; lia). lia. }
  destruct (calculate_macros_integer daily B40)
    as (ms & Ems & _ & _ & _ & _ & _ & _ & Bms).
  destruct (generate_meal_plan_integer daily 4 B46)
    as (k10 & k25 & k30 & k35 & k40 & B10 & B25 & B30 & B35 & _ & Epl).
  repeat (case_decide; try discriminate).
  destruct (weekly_change_returns goal) as (change & rc & Ech & Erc).
  destruct (py_round_sized b _ _ Sb) as (rb & Erb & _); [lia|].
  destruct (py_round_sized t _ _ St) as (rt & Ert & _); [lia|].
  destruct (py_round_to_sized i _ _ Si) as (ri & Eri); [lia|].
  destruct (py_round_to_num w_kg _ _ Sw) as (rw & Erw); [lia|].
  destruct (py_round_to_num height _ _ Sh) as (rh & Erh); [lia|].
  assert (E : calculate_all age gender weight height activity_level goal
                weight_unit height_unit
              = Ok {| bmr := rb; tdee := rt; daily_calories := daily;
                      bmi := ri; bmi_category := get_bmi_category (PyFloat i);
                      nutrition_macros := ms;
                      meal_plan := {[ "breakfast" := k25; "lunch" := k35;
                                      "dinner" := k30; "snacks" := k10 ]};
                      weekly_deficit_surplus := get goal_adjustments goal 0;
                      projected_weekly_change_kg := rc;
                      weight_kg := rw; height_cm := rh |}).
  { unfold calculate_all. rewrite Ew. cbn [mbind result_bind].
    rewrite convert_height_other by exact Hu. cbn [mbind result_bind].
    rewrite Eb. cbn [mbind result_bind].
    rewrite Et. cbn [mbind result_bind].
    rewrite Ei. cbn [mbind result_bind]. cbv zeta.
    rewrite Etg. cbn [mbind result_bind].
    rewrite Ed. cbn [mbind result_bind].
    rewrite Ems. cbn [mbind result_bind].
    rewrite Epl. cbn [mbind result_bind].
    rewrite Ech. cbn [mbind result_bind].
    rewrite Erb. cbn [mbind result_bind].
    rewrite Ert. cbn [mbind result_bind].
    rewrite Eri. cbn [mbind result_bind].
    rewrite Erc. cbn [mbind result_bind].
    rewrite Erw. cbn [mbind result_bind].
    rewrite Erh. reflexivity. }
  eexists. split; [exact E|].
  split.
  { unfold calculate. cbn [field mbind result_bind req_age req_gender
      req_weight req_height req_activity req_goal req_weight_unit
      req_height_unit default from_option id]. rewrite E. reflexivity. }
  cbn [daily_calories meal_plan nutrition_macros].
  split; [exact Bd|]. split; [|exact Bms].
  rewrite plan_total_4. lia.
Qed.

Lemma calculate_all_returns_witness :
  moderate (PyFloat (decimal 705 1)) /\ moderate (PyInt 175)
  /\ is_zero_num (PyInt 175) = false /\ Z.abs 25 <= 2 ^ 20
  /\ "cm" <> "ft"
  /\ exists r,
       calculate_all 25 "male" (PyFloat (decimal 705 1)) (PyInt 175)
         "moderate" "lose" "kg" "cm" = Ok r
       /\ Z.abs (daily_calories r) <= 2 ^ 36
       /\ Z.abs (plan_total (meal_plan r) - daily_calories r) <= 1.
Proof.
  assert (H1 : moderate (PyFloat (decimal 705 1))).
  { vm_compute. split; [reflexivity|split; discriminate]. }
  assert (H2 : moderate (PyInt 175)) by (vm_compute; discriminate).
  assert (H3 : Z.abs 25 <= 2 ^ 20) by (vm_compute; discriminate).
  assert (H4 : "cm" <> "ft") by discriminate.
  split; [exact H1|]. split; [exact H2|]. split; [reflexivity|].
  split; [exact H3|]. split; [exact H4|].
  destruct (calculate_all_returns 25 "male" (PyFloat (decimal 705 1))
              (PyInt 175) "moderate" "lose" "kg" "cm" H1 H2 eq_refl H3 H4)
    as (r & E & _ & B & P & _).
  exists r. split; [exact E|]. split; [exact B|exact P].
Defined.

(** ** Rounding errors on a common grid *)

Lemma grid_finite s m e :
  grid (S754_finite s m e) = signed s m * 2 ^ (e + 200).
Proof.
  unfold grid, scaled, signed. replace (e - -200) with (e + 200) by lia.
  reflexivity.
Qed.

Lemma grid_exact n e :
  Z.abs n < 2 ^ 53 -> -148 <= e <= 900 ->
  grid (exact n e) = n * 2 ^ (e + 200).
Proof.
  intros Hn He. destruct (decide (n = 0)) as [->|Hz]; [reflexivity|].
  rewrite exact_nonzero by (assumption || lia).
  destruct (canon_signed n Hz Hn) as [Hs Hd].
  unfold canon. rewrite grid_finite.
  set (d := Z.pos (digits2_pos (Z.to_pos (Z.abs n)))) in *.
  rewrite Hs. rewrite <- Z.mul_assoc, <- Z.pow_add_r by lia.
  f_equal. f_equal. lia.
Qed.

Lemma grid_round f lo hi :
  sized f lo hi -> -200 <= lo -> hi <= 0 ->
  to_Z_half_even f = round_half_even (grid f) (2 ^ 200).
Proof.
  intros Hf Hlo Hhi.
  destruct f as [s|s| |s m e]; cbn [sized] in Hf; try contradiction.
  - unfold grid, scaled. cbn [to_Z_half_even]. unfold round_half_even.
    reflexivity.
  - destruct Hf as [_ He]. rewrite to_Z_half_even_small by lia.
    rewrite grid_finite.
    assert (P : 0 < 2 ^ (e + 200)) by (apply Z.pow_pos_nonneg; lia).
    assert (Q : 0 < 2 ^ (- e)) by (apply Z.pow_pos_nonneg; lia).
    replace (2 ^ 200) with (2 ^ (- e) * 2 ^ (e + 200))
      by (rewrite <- Z.pow_add_r by lia; f_equal; lia).
    rewrite round_half_even_scale by assumption.
    destruct s; cbn [signed]; [|reflexivity].
    change (Z.neg m) with (- Z.pos m).
    rewrite round_half_even_opp by exact Q. reflexivity.
Qed.

Lemma grid_mul x y l1 h1 l2 h2 :
  sized x l1 h1 -> sized y l2 h2 ->
  -200 <= l1 -> -200 <= l2 -> -200 <= l1 + l2 + 52 ->
  h1 + h2 + 54 <= 971 ->
  Z.abs (2 * (grid (mul x y) * 2 ^ 200 - grid x * grid y))
  <= 2 ^ (h1 + h2 + 54 + 400).
Proof.
  intros Hx Hy L1 L2 L12 Hhi.
  assert (P : 0 <= 2 ^ (h1 + h2 + 54 + 400)) by (apply Z.pow_nonneg; lia).
  destruct x as [sx|sx| |sx mx ex], y as [sy|sy| |sy my ey];
    cbn [sized] in Hx, Hy; try contradiction;
    try (unfold mul; cbn [SFmul]; unfold grid at 1; cbn [scaled];
         unfold grid; cbn [scaled]; rewrite ?Z.mul_0_r, ?Z.mul_0_l;
         cbn; lia).
  destruct Hx as [Dx Ex], Hy as [Dy Ey].
  destruct (mul_normal sx mx ex sy my ey Dx Dy) as (m' & e' & -> & Dm & Em & Hv);
    try lia.
  rewrite !grid_finite.
  assert (HW : 0 < 2 ^ (e' - (ex + ey))) by (apply Z.pow_pos_nonneg; lia).
  assert (HK : 0 < 2 ^ (ex + ey + 400)) by (apply Z.pow_pos_nonneg; lia).
  assert (E1 : 2 ^ (e' + 200) * 2 ^ 200
               = 2 ^ (e' - (ex + ey)) * 2 ^ (ex + ey + 400)).
  { rewrite <- !Z.pow_add_r by lia. f_equal. lia. }
  assert (E2 : 2 ^ (ex + 200) * 2 ^ (ey + 200) = 2 ^ (ex + ey + 400)).
  { rewrite <- !Z.pow_add_r by lia. f_equal. lia. }
  assert (E3 : 2 ^ (e' - (ex + ey)) * 2 ^ (ex + ey + 400)
               <= 2 ^ (h1 + h2 + 54 + 400)).
  { rewrite <- E1, <- Z.pow_add_r by lia. apply Z.pow_le_mono_r; lia. }
  set (W := 2 ^ (e' - (ex + ey))) in *.
  set (K := 2 ^ (ex + ey + 400)) in *.
  clearbody W K.
  assert (Es : signed (xorb sx sy) m' * 2 ^ (e' + 200) * 2 ^ 200
               - signed sx mx * 2 ^ (ex + 200) * (signed sy my * 2 ^ (ey + 200))
               = (if xorb sx sy then -1 else 1)
                 * ((Z.pos m' * W - Z.pos mx * Z.pos my) * K)).
  { replace (signed (xorb sx sy) m' * 2 ^ (e' + 200) * 2 ^ 200)
      with (signed (xorb sx sy) m' * (2 ^ (e' + 200) * 2 ^ 200)) by ring.
    replace (signed sx mx * 2 ^ (ex + 200) * (signed sy my * 2 ^ (ey + 200)))
      with (signed sx mx * signed sy my * (2 ^ (ex + 200) * 2 ^ (ey + 200)))
      by ring.
    rewrite E1, E2. unfold signed.
    destruct sx, sy; cbn [xorb];
      rewrite ?Pos2Z.opp_pos; change (Z.neg ?p) with (- Z.pos p); ring. }
  rewrite Es.
  assert (Z.abs (2 * ((Z.pos m' * W - Z.pos mx * Z.pos my) * K)) <= W * K).
  { replace (2 * ((Z.pos m' * W - Z.pos mx * Z.pos my) * K))
      with (2 * (Z.pos m' * W - Z.pos mx * Z.pos my) * K) by ring.
    rewrite Z.abs_mul, (Z.abs_eq K) by lia.
    apply Z.mul_le_mono_nonneg_r; lia. }
  destruct (xorb sx sy); lia.
Qed.

Lemma binary_round_value s p e :
  let dp := Z.pos (digits2_pos p) in
  -1074 <= e + dp - 53 -> e + dp - 52 <= 971 ->
  exists m' e',
    binary_round prec emax s p e = S754_finite s m' e'
    /\ Z.pos (digits2_pos m') = 53
    /\ e + dp - 53 <= e' <= e + dp - 52
    /\ ((e' <= e /\ Z.pos m' = Z.pos p * 2 ^ (e - e'))
        \/ (e < e'
            /\ Z.abs (2 * (Z.pos m' * 2 ^ (e' - e) - Z.pos p))
               <= 2 ^ (e' - e))).
Proof.
  intros dp Hlo Hhi. destruct (Z_le_gt_dec dp 53) as [Hd|Hd].
  - destruct (binary_round_small s p e) as (m' & Hr & Hm & Dm); fold dp;
      try lia.
    fold dp in Hr, Hm.
    exists m', (e + dp - 53). split; [exact Hr|].
    split; [exact Dm|]. split; [lia|]. left. split; [lia|].
    rewrite Hm. f_equal. f_equal. lia.
  - unfold binary_round, shl_align. fold dp.
    rewrite fexp_normal by lia.
    destruct (dp + e - 53 - e) as [|k|k] eqn:Ek; try lia.
    destruct (binary_round_aux_round s p e) as (m' & e' & Hr & Dm & He & Hv);
      fold dp; try lia.
    fold dp in He, Hv. exists m', e'. split; [exact Hr|]. split; [exact Dm|].
    split; [lia|]. right. split; [lia|].
    assert (P : 0 < 2 ^ (dp - 53)) by (apply Z.pow_pos_nonneg; lia).
    destruct (round_half_even_bounds (Z.pos p) (2 ^ (dp - 53)) P) as [_ Hb].
    rewrite <- Hv in Hb.
    replace (e' - e) with ((e' - (e + (dp - 53))) + (dp - 53)) by lia.
    rewrite Z.pow_add_r by lia.
    assert (1 <= 2 ^ (e' - (e + (dp - 53)))).
    { assert (0 < 2 ^ (e' - (e + (dp - 53))))
        by (apply Z.pow_pos_nonneg; lia). lia. }
    rewrite Z.mul_assoc.
    set (t := 2 ^ (e' - (e + (dp - 53)))) in *.
    set (u := 2 ^ (dp - 53)) in *. clearbody t u. nia.
Qed.

Lemma grid_normalize S ez k :
  Z.abs S < 2 ^ k -> 0 <= k -> -148 <= ez -> ez + k - 52 <= 971 ->
  Z.abs (2 * (grid (binary_normalize prec emax S ez false)
              - S * 2 ^ (ez + 200)))
  <= 2 ^ (ez + k - 52 + 200).
Proof.
  intros HS Hk Hlo Hhi.
  assert (P : 0 <= 2 ^ (ez + k - 52 + 200)) by (apply Z.pow_nonneg; lia).
  assert (G : forall s p,
             Z.pos p < 2 ^ k ->
             Z.abs (2 * (grid (binary_round prec emax s p ez)
                         - signed s p * 2 ^ (ez + 200)))
             <= 2 ^ (ez + k - 52 + 200)).
  { intros s p Hp.
    assert (Dp : Z.pos (digits2_pos p) <= k) by (apply digits_lt; lia).
    assert (1 <= Z.pos (digits2_pos p)) by lia.
    destruct (binary_round_value s p ez)
      as (m' & e' & -> & Dm & He & [[Hle Hm]|[Hlt Hm]]); try lia.
    - rewrite grid_finite.
      replace (signed s m' * 2 ^ (e' + 200))
        with (signed s p * 2 ^ (ez + 200)); [rewrite Z.sub_diag; lia|].
      replace (ez + 200) with ((ez - e') + (e' + 200)) by lia.
      rewrite Z.pow_add_r by lia.
      unfold signed. destruct s.
      + change (Z.neg m') with (- Z.pos m').
        change (Z.neg p) with (- Z.pos p). rewrite Hm. ring.
      + rewrite Hm. ring.
    - rewrite grid_finite.
      assert (HK : 0 < 2 ^ (ez + 200)) by (apply Z.pow_pos_nonneg; lia).
      assert (E1 : 2 ^ (e' + 200) = 2 ^ (e' - ez) * 2 ^ (ez + 200)).
      { rewrite <- Z.pow_add_r by lia. f_equal. lia. }
      assert (E3 : 2 ^ (e' - ez) * 2 ^ (ez + 200) <= 2 ^ (ez + k - 52 + 200)).
      { rewrite <- E1. apply Z.pow_le_mono_r; lia. }
      rewrite E1.
      set (W := 2 ^ (e' - ez)) in *. set (K := 2 ^ (ez + 200)) in *.
      clearbody W K.
      assert (Hb : Z.abs (2 * ((Z.pos m' * W - Z.pos p) * K)) <= W * K).
      { replace (2 * ((Z.pos m' * W - Z.pos p) * K))
          with (2 * (Z.pos m' * W - Z.pos p) * K) by ring.
        rewrite Z.abs_mul, (Z.abs_eq K) by lia.
        apply Z.mul_le_mono_nonneg_r; lia. }
      unfold signed. destruct s.
      + change (Z.neg m') with (- Z.pos m').
        change (Z.neg p) with (- Z.pos p).
        replace (2 * (- Z.pos m' * (W * K) - - Z.pos p * K))
          with (- (2 * ((Z.pos m' * W - Z.pos p) * K))) by ring.
        rewrite Z.abs_opp. lia.
      + replace (2 * (Z.pos m' * (W * K) - Z.pos p * K))
          with (2 * ((Z.pos m' * W - Z.pos p) * K)) by ring.
        lia. }
  destruct S as [|p|p]; cbn [binary_normalize].
  - unfold grid. cbn [scaled]. cbn. lia.
  - apply (G false p). lia.
  - apply (G true p). lia.
Qed.

Lemma grid_add x y l1 h1 l2 h2 :
  sized x l1 h1 -> sized y l2 h2 ->
  -148 <= l1 -> -148 <= l2 -> Z.max h1 h2 + 2 <= 971 ->
  Z.abs (2 * (grid (add x y) - (grid x + grid y)))
  <= 2 ^ (Z.max h1 h2 + 2 + 200).
Proof.
  intros Hx Hy L1 L2 Hhi.
  assert (P : 0 <= 2 ^ (Z.max h1 h2 + 2 + 200)) by (apply Z.pow_nonneg; lia).
  destruct x as [sx|sx| |sx mx ex], y as [sy|sy| |sy my ey];
    cbn [sized] in Hx, Hy; try contradiction.
  - replace (grid (add (S754_zero sx) (S754_zero sy))) with 0
      by (destruct sx, sy; reflexivity).
    unfold grid. cbn [scaled]. cbn. lia.
  - unfold add. cbn [SFadd]. unfold grid at 2. cbn [scaled].
    rewrite Z.add_0_l, Z.sub_diag. cbn. lia.
  - unfold add. cbn [SFadd]. unfold grid at 3. cbn [scaled].
    rewrite Z.add_0_r, Z.sub_diag. cbn. lia.
  - destruct Hx as [Dx Ex], Hy as [Dy Ey].
    unfold add, SFadd.
    set (ez := Z.min ex ey).
    set (h := Z.max h1 h2) in *.
    pose proof (aligned_bound mx ex ez h Dx ltac:(unfold ez, h; lia)) as Bx.
    pose proof (aligned_bound my ey ez h Dy ltac:(unfold ez, h; lia)) as By.
    pose proof (shl_align_fst mx ex ez ltac:(unfold ez; lia)) as Ax.
    pose proof (shl_align_fst my ey ez ltac:(unfold ez; lia)) as Ay.
    set (ax := Z.pos (fst (shl_align mx ex ez))) in *.
    set (ay := Z.pos (fst (shl_align my ey ez))) in *.
    set (S := cond_Zopp sx ax + cond_Zopp sy ay).
    assert (HS : Z.abs S < 2 ^ (54 + h - ez)).
    { replace (54 + h - ez) with (1 + (53 + h - ez)) by lia.
      rewrite Z.pow_add_r by (unfold ez, h; lia). change (2 ^ 1) with 2.
      unfold S, cond_Zopp. destruct sx, sy; lia. }
    assert (Eg : grid (S754_finite sx mx ex) + grid (S754_finite sy my ey)
                 = S * 2 ^ (ez + 200)).
    { rewrite !grid_finite.
      replace (ex + 200) with ((ex - ez) + (ez + 200)) by lia.
      replace (ey + 200) with ((ey - ez) + (ez + 200)) by lia.
      rewrite (Z.pow_add_r 2 (ex - ez)), (Z.pow_add_r 2 (ey - ez))
        by (unfold ez; lia).
      unfold S, cond_Zopp, signed. rewrite Ax, Ay.
      destruct sx, sy;
        change (Z.neg mx) with (- Z.pos mx);
        change (Z.neg my) with (- Z.pos my).
      all: ring. }
    rewrite Eg.
    pose proof (grid_normalize S ez (54 + h - ez) HS
                  ltac:(unfold ez, h; lia) ltac:(unfold ez; lia)
                  ltac:(unfold ez, h; lia)) as Hn.
    replace (ez + (54 + h - ez) - 52 + 200) with (h + 2 + 200) in Hn by lia.
    exact Hn.
Qed.

Lemma multiplier_ratio_grid activity_level A B :
  multiplier_ratio activity_level = (A, B) ->
  0 < B <= 1000
  /\ Z.abs (2 * (B * grid (multiplier_of activity_level) - A * 2 ^ 200))
     <= B * 2 ^ 148.
Proof.
  unfold multiplier_ratio, multiplier_of.
  repeat case_decide; intros [= <- <-]; (split; [lia|]); vm_compute;
    discriminate.
Qed.

Lemma bmr_quarters_bound w h age (c : Z) :
  Z.abs w <= 2 ^ 20 -> Z.abs h <= 2 ^ 20 -> Z.abs age <= 2 ^ 20 ->
  -644 <= c <= 20 ->
  Z.abs (40 * w + 25 * h - 20 * age + c) < 2 ^ 27.
Proof.
  change (2 ^ 20) with 1048576. change (2 ^ 27) with 134217728. lia.
Qed.

(** The TDEE and the daily target of integer inputs, against the exact
    values [A/B * N/4] and [A/B * N/4 + delta], for [N] quarters of a kcal
    of BMR. *)
Lemma tdee_daily_exact N level adj A B :
  Z.abs N < 2 ^ 27 -> Z.abs adj < 2 ^ 10 ->
  multiplier_ratio level = (A, B) ->
  let t := mul (exact N (-2)) (multiplier_of level) in
  let target := add t (exact adj 0) in
  exists kt kd,
    py_round (PyFloat t) = Ok kt
    /\ py_round (PyFloat target) = Ok kd
    /\ Z.abs (2 * (kt * (4 * B) - N * A)) <= 4 * B
    /\ Z.abs (2 * (kd * (4 * B) - (N * A + 4 * B * adj))) <= 4 * B.
Proof.
  intros HN Hadj Hr t target.
  destruct (multiplier_ratio_grid level A B Hr) as [HB Hm].
  destruct (exact_sized N (-2) 27 HN ltac:(lia) ltac:(lia)) as [Sb _].
  pose proof (multiplier_sized level) as Sm.
  destruct (mul_sized _ _ _ _ _ _ Sb Sm ltac:(lia) ltac:(lia)) as [St _].
  fold t in St.
  destruct (exact_sized adj 0 10 Hadj ltac:(lia) ltac:(lia)) as [Sa _].
  pose proof (add_sized _ _ _ _ _ _ St Sa ltac:(lia) ltac:(lia)) as Sd.
  fold target in Sd.
  pose proof (grid_mul _ _ _ _ _ _ Sb Sm ltac:(lia) ltac:(lia) ltac:(lia)
                ltac:(lia)) as Gt.
  fold t in Gt.
  pose proof (grid_add _ _ _ _ _ _ St Sa ltac:(lia) ltac:(lia) ltac:(lia))
    as Gd.
  fold target in Gd.
  rewrite grid_exact in Gt
    by (try lia; change (2 ^ 53) with (2 ^ 27 * 2 ^ 26);
        change (2 ^ 26) with 67108864; lia).
  rewrite grid_exact in Gd
    by (try lia; change (2 ^ 53) with (2 ^ 10 * 2 ^ 43);
        change (2 ^ 43) with 8796093022208; lia).
  pose proof (grid_round t _ _ St ltac:(lia) ltac:(lia)) as Rt.
  pose proof (grid_round target _ _ Sd ltac:(lia) ltac:(lia)) as Rd.
  exists (to_Z_half_even t), (to_Z_half_even target).
  split.
  { unfold py_round. destruct t; cbn [sized] in St; try contradiction;
      reflexivity. }
  split.
  { unfold py_round. destruct target; cbn [sized] in Sd; try contradiction;
      reflexivity. }
  rewrite Rt, Rd.
  set (gt := grid t) in *. set (gd := grid target) in *.
  set (gm := grid (multiplier_of level)) in *.
  clearbody gt gd gm. clear Rt Rd St Sd Sa Sb Sm t target.
  assert (Gt' : Z.abs (2 * (gt * 2 ^ 200 - N * 2 ^ 198 * gm)) <= 2 ^ 374)
    by exact Gt.
  assert (Gd' : Z.abs (2 * (gd - (gt + adj * 2 ^ 200))) <= 2 ^ 176)
    by exact Gd.
  clear Gt Gd. rename Gt' into Gt. rename Gd' into Gd.
  assert (E : (gt * (4 * B) - N * A * 2 ^ 200) * 2 ^ 200
              = 4 * B * (gt * 2 ^ 200 - N * 2 ^ 198 * gm)
                + N * 2 ^ 200 * (B * gm - A * 2 ^ 200)).
  { change (2 ^ 200) with (4 * 2 ^ 198). ring. }
  set (E1 := gt * 2 ^ 200 - N * 2 ^ 198 * gm) in *.
  set (E2 := B * gm - A * 2 ^ 200) in *.
  set (E3 := gd - (gt + adj * 2 ^ 200)) in *.
  assert (B1 : Z.abs (4 * B * E1) <= 1000 * 2 ^ 375).
  { rewrite Z.abs_mul, (Z.abs_eq (4 * B)) by lia.
    rewrite Z.abs_mul, (Z.abs_eq 2) in Gt by lia.
    change (2 ^ 375) with (4 * (2 ^ 373)). change (2 ^ 374) with (2 * 2 ^ 373) in Gt.
    assert (0 < 2 ^ 373) by (apply Z.pow_pos_nonneg; lia).
    set (P := 2 ^ 373) in *. clearbody P E1 E2 E3.
    assert (Z.abs E1 <= P) by lia.
    assert (B * Z.abs E1 <= 1000 * P)
      by (apply Z.mul_le_mono_nonneg; lia).
    lia. }
  assert (B2 : Z.abs (N * 2 ^ 200 * E2) <= 1000 * 2 ^ 374).
  { rewrite !Z.abs_mul, (Z.abs_eq (2 ^ 200)) by (apply Z.pow_nonneg; lia).
    rewrite Z.abs_mul, (Z.abs_eq 2) in Hm by lia.
    change (2 ^ 374) with (2 ^ 27 * 2 ^ 200 * 2 ^ 147).
    change (2 ^ 148) with (2 * 2 ^ 147) in Hm.
    assert (0 < 2 ^ 147) by (apply Z.pow_pos_nonneg; lia).
    assert (0 < 2 ^ 200) by (apply Z.pow_pos_nonneg; lia).
    set (P := 2 ^ 147) in *. set (Q := 2 ^ 200) in *.
    set (R := 2 ^ 27) in *.
    clearbody P Q R E1 E2 E3.
    assert (B * P <= 1000 * P) by (apply Z.mul_le_mono_nonneg_r; lia).
    assert (Z.abs E2 <= 1000 * P) by lia.
    assert (Z.abs N * Z.abs E2 <= R * (1000 * P)).
    { apply Z.mul_le_mono_nonneg; lia. }
    replace (Z.abs N * Q * Z.abs E2) with (Z.abs N * Z.abs E2 * Q) by ring.
    replace (1000 * (R * Q * P)) with (R * (1000 * P) * Q) by ring.
    apply Z.mul_le_mono_nonneg_r; lia. }
  assert (Bt : Z.abs (gt * (4 * B) - N * A * 2 ^ 200) <= 1000 * 2 ^ 176).
  { apply (Z.mul_le_mono_pos_r _ _ (2 ^ 200));
      [apply Z.pow_pos_nonneg; lia|].
    replace (Z.abs (gt * (4 * B) - N * A * 2 ^ 200) * 2 ^ 200)
      with (Z.abs ((gt * (4 * B) - N * A * 2 ^ 200) * 2 ^ 200))
      by (rewrite Z.abs_mul, (Z.abs_eq (2 ^ 200));
          [reflexivity|apply Z.pow_nonneg; lia]).
    rewrite E.
    change (1000 * 2 ^ 176 * 2 ^ 200) with (1000 * 2 ^ 375 + 1000 * 2 ^ 375).
    assert (2 ^ 374 <= 2 ^ 375) by (apply Z.pow_le_mono_r; lia).
    clearbody E1 E2 E3. lia. }
  assert (P200 : 1000 * 2 ^ 178 < 2 ^ 200).
  { change (2 ^ 200) with (2 ^ 22 * 2 ^ 178).
    assert (0 < 2 ^ 178) by (apply Z.pow_pos_nonneg; lia).
    change (2 ^ 22) with 4194304. lia. }
  assert (P176 : 2 ^ 178 = 4 * 2 ^ 176) by reflexivity.
  split.
  - apply round_half_even_near; [apply Z.pow_pos_nonneg; lia|lia|].
    remember (Z.abs (gt * (4 * B) - N * A * 2 ^ 200)) as V eqn:EV.
    clear - Bt P200 P176. lia.
  - apply round_half_even_near; [apply Z.pow_pos_nonneg; lia|lia|].
    assert (Ed : gd * (4 * B) - (N * A + 4 * B * adj) * 2 ^ 200
                 = 4 * B * E3 + (gt * (4 * B) - N * A * 2 ^ 200)).
    { unfold E3. ring. }
    rewrite Ed.
    assert (B3 : Z.abs (4 * B * E3) <= 1000 * 2 ^ 177).
    { rewrite Z.abs_mul, (Z.abs_eq (4 * B)) by lia.
      rewrite Z.abs_mul, (Z.abs_eq 2) in Gd by lia.
      change (2 ^ 177) with (4 * 2 ^ 175).
      change (2 ^ 176) with (2 * 2 ^ 175) in Gd.
      assert (0 < 2 ^ 175) by (apply Z.pow_pos_nonneg; lia).
      set (P := 2 ^ 175) in *. clearbody P E1 E2 E3.
      assert (Z.abs E3 <= P) by lia.
      assert (B * Z.abs E3 <= 1000 * P)
        by (apply Z.mul_le_mono_nonneg; lia).
      lia. }
    change (2 ^ 177) with (2 * 2 ^ 176) in B3.
    eapply Z.le_lt_trans;
      [apply Z.mul_le_mono_nonneg_l; [clear; lia|apply Z.abs_triangle]|].
    remember (Z.abs (gt * (4 * B) - N * A * 2 ^ 200)) as V eqn:EV.
    remember (Z.abs (4 * B * E3)) as V3 eqn:EV3.
    clear - Bt B3 P200 P176. lia.
Qed.

Lemma adjustment_of_bound goal : Z.abs (adjustment_of goal) < 2 ^ 10.
Proof. unfold adjustment_of. repeat case_decide; reflexivity. Qed.

(** X16. For an integer weight in kilograms, an integer height in
    centimetres and an age, each of at most 2^20 in magnitude, the result is
    what exact arithmetic gives: with the multiplier [A/B] of the activity
    level as a decimal fraction and the exact BMR [N/4], [tdee] is an
    integer nearest to [A/B * N/4] and [daily_calories] an integer nearest
    to [A/B * N/4 + delta], for the daily adjustment [delta] that the
    result reports; the rounding of the floating-point operations never
    shows. *)
Theorem calculate_all_integer_exact age gender w h activity_level goal
    weight_unit height_unit r A B :
  weight_unit <> "lbs" -> height_unit <> "ft" ->
  Z.abs w <= 2 ^ 20 -> Z.abs h <= 2 ^ 20 -> Z.abs age <= 2 ^ 20 ->
  multiplier_ratio activity_level = (A, B) ->
  calculate_all age gender (PyInt w) (PyInt h) activity_level goal
    weight_unit height_unit = Ok r ->
  let N := 40 * w + 25 * h - 20 * age
           + (if decide (lower gender = "male") then 20 else -644) in
  Z.abs (2 * (tdee r * (4 * B) - N * A)) <= 4 * B
  /\ Z.abs (2 * (daily_calories r * (4 * B)
                 - (N * A + 4 * B * weekly_deficit_surplus r))) <= 4 * B.
Proof.
  intros Hwu Hhu Hw Hh Ha Hr H N.
  apply calculate_all_steps in H
    as (w_kg & h_cm & b & t & i & target & Ew & Eh & Eb & Et & _ & Etg & Ed
        & _ & _ & _ & _ & Rt & _ & _ & _ & _ & Hd).
  rewrite convert_height_other in Eh by exact Hhu. injection Eh as <-.
  unfold convert_weight in Ew. case_decide; [contradiction|].
  injection Ew as <-.
  assert (H40 : 2 ^ 20 <= 2 ^ 40) by (apply Z.pow_le_mono_r; lia).
  rewrite calculate_bmr_integers in Eb by lia. injection Eb as <-.
  fold N in Et. rewrite calculate_tdee_float in Et. injection Et as <-.
  assert (HN : Z.abs N < 2 ^ 27).
  { unfold N. apply bmr_quarters_bound; try assumption.
    case_decide; lia. }
  pose proof (adjustment_of_bound goal) as Hadj.
  unfold py_add in Etg. cbn [to_float mbind result_bind] in Etg.
  rewrite float_of_int_exact in Etg
    by (assert (2 ^ 10 <= 2 ^ 1023) by (apply Z.pow_le_mono_r; lia); lia).
  cbn [mbind result_bind] in Etg. injection Etg as <-.
  destruct (tdee_daily_exact N activity_level (adjustment_of goal) A B
              HN Hadj Hr) as (kt & kd & Ekt & Ekd & Bt & Bd).
  rewrite Ekt in Rt. injection Rt as <-.
  rewrite Ekd in Ed. injection Ed as <-.
  rewrite Hd. split; assumption.
Qed.

Lemma calculate_all_integer_exact_witness :
  exists r,
    ("kg" <> "lbs" /\ "cm" <> "ft")
    /\ (Z.abs 70 <= 2 ^ 20 /\ Z.abs 175 <= 2 ^ 20 /\ Z.abs 25 <= 2 ^ 20)
    /\ multiplier_ratio "active" = (1725, 1000)
    /\ calculate_all 25 "male" (PyInt 70) (PyInt 175) "active" "lose"
         "kg" "cm" = Ok r
    /\ tdee r = 2887 /\ daily_calories r = 2387
    /\ Z.abs (2 * (tdee r * (4 * 1000) - 6695 * 1725)) <= 4 * 1000
    /\ Z.abs (2 * (daily_calories r * (4 * 1000)
                   - (6695 * 1725 + 4 * 1000 * weekly_deficit_surplus r)))
       <= 4 * 1000.
Proof.
  eexists. split; [split; discriminate|].
  split; [repeat split; discriminate|].
  split; [reflexivity|].
  split; [vm_compute; reflexivity|].
  split; [reflexivity|]. split; [reflexivity|].
  refine (calculate_all_integer_exact 25 "male" 70 175 "active" "lose"
            "kg" "cm" _ 1725 1000 _ _ _ _ _ _ _);
    [discriminate|discriminate|discriminate|discriminate|discriminate
    |reflexivity|].
  vm_compute. reflexivity.
Defined.

(** ** Relative errors *)

Lemma grid_lower s m e :
  Z.pos (digits2_pos m) = 53 -> -200 <= e ->
  2 ^ 52 * 2 ^ (e + 200) <= Z.abs (grid (S754_finite s m e)).
Proof.
  intros Dm He. rewrite grid_finite.
  pose proof (digits_bounds m) as [Bl _]. rewrite Dm in Bl.
  change (2 ^ (53 - 1)) with (2 ^ 52) in Bl.
  assert (P : 0 < 2 ^ (e + 200)) by (apply Z.pow_pos_nonneg; lia).
  rewrite Z.abs_mul, (Z.abs_eq (2 ^ (e + 200))) by lia.
  apply Z.mul_le_mono_nonneg_r; [lia|].
  unfold signed. destruct s; lia.
Qed.

(** The rounded product of two floats of 53 bits is within [2^-53] of the
    product, relative to the result. *)
Lemma grid_mul_rel sx mx ex sy my ey :
  Z.pos (digits2_pos mx) = 53 -> Z.pos (digits2_pos my) = 53 ->
  -200 <= ex -> -200 <= ey -> -200 <= ex + ey + 52 -> ex + ey + 54 <= 971 ->
  let x := S754_finite sx mx ex in
  let y := S754_finite sy my ey in
  Z.abs (grid (mul x y) * 2 ^ 200 - grid x * grid y) * 2 ^ 53
  <= Z.abs (grid (mul x y)) * 2 ^ 200.
Proof.
  intros Dx Dy Lx Ly Lxy Hhi x y.
  destruct (mul_normal sx mx ex sy my ey Dx Dy) as (m' & e' & Hr & Dm & Em & _);
    try lia.
  assert (Sx : sized x ex ex) by (cbn; lia).
  assert (Sy : sized y ey ey) by (cbn; lia).
  pose proof (grid_mul x y ex ex ey ey Sx Sy Lx Ly Lxy Hhi) as Hg.
  assert (Hexact : Z.abs (2 * (grid (mul x y) * 2 ^ 200 - grid x * grid y))
                   <= 2 ^ (e' + 400)).
  { (* the bound of [grid_mul] at the exponent of the result *)
    unfold x, y in *. clear Hg.
    destruct (mul_normal sx mx ex sy my ey Dx Dy)
      as (m2 & e2 & Hr2 & _ & _ & Hv); try lia.
    rewrite Hr in Hr2. injection Hr2 as <- <-.
    rewrite Hr, !grid_finite.
    assert (HW : 0 < 2 ^ (e' - (ex + ey))) by (apply Z.pow_pos_nonneg; lia).
    assert (HK : 0 < 2 ^ (ex + ey + 400)) by (apply Z.pow_pos_nonneg; lia).
    assert (E1 : 2 ^ (e' + 200) * 2 ^ 200
                 = 2 ^ (e' - (ex + ey)) * 2 ^ (ex + ey + 400)).
    { rewrite <- !Z.pow_add_r by lia. f_equal. lia. }
    assert (E2 : 2 ^ (ex + 200) * 2 ^ (ey + 200) = 2 ^ (ex + ey + 400)).
    { rewrite <- !Z.pow_add_r by lia. f_equal. lia. }
    assert (E3 : 2 ^ (e' + 400)
                 = 2 ^ (e' - (ex + ey)) * 2 ^ (ex + ey + 400)).
    { rewrite <- !Z.pow_add_r by lia. f_equal. lia. }
    rewrite E3.
    set (W := 2 ^ (e' - (ex + ey))) in *.
    set (K := 2 ^ (ex + ey + 400)) in *.
    clearbody W K.
    assert (Es : signed (xorb sx sy) m' * 2 ^ (e' + 200) * 2 ^ 200
                 - signed sx mx * 2 ^ (ex + 200)
                   * (signed sy my * 2 ^ (ey + 200))
                 = (if xorb sx sy then -1 else 1)
                   * ((Z.pos m' * W - Z.pos mx * Z.pos my) * K)).
    { replace (signed (xorb sx sy) m' * 2 ^ (e' + 200) * 2 ^ 200)
        with (signed (xorb sx sy) m' * (2 ^ (e' + 200) * 2 ^ 200)) by ring.
      replace (signed sx mx * 2 ^ (ex + 200)
               * (signed sy my * 2 ^ (ey + 200)))
        with (signed sx mx * signed sy my
              * (2 ^ (ex + 200) * 2 ^ (ey + 200))) by ring.
      rewrite E1, E2. unfold signed.
      destruct sx, sy; cbn [xorb];
        rewrite ?Pos2Z.opp_pos; change (Z.neg ?p) with (- Z.pos p); ring. }
    rewrite Es.
    assert (Z.abs (2 * ((Z.pos m' * W - Z.pos mx * Z.pos my) * K)) <= W * K).
    { replace (2 * ((Z.pos m' * W - Z.pos mx * Z.pos my) * K))
        with (2 * (Z.pos m' * W - Z.pos mx * Z.pos my) * K) by ring.
      rewrite Z.abs_mul, (Z.abs_eq K) by lia.
      apply Z.mul_le_mono_nonneg_r; lia. }
    destruct (xorb sx sy); lia. }
  unfold x, y in *. rewrite Hr in *.
  pose proof (grid_lower (xorb sx sy) m' e' Dm ltac:(lia)) as Hl.
  set (g := grid (S754_finite (xorb sx sy) m' e')) in *.
  set (d := g * 2 ^ 200 - grid (S754_finite sx mx ex)
                          * grid (S754_finite sy my ey)) in *.
  rewrite Z.abs_mul, (Z.abs_eq 2) in Hexact by lia.
  replace (2 ^ (e' + 400)) with (2 ^ (e' + 200) * 2 ^ 200) in Hexact
    by (rewrite <- Z.pow_add_r by lia; f_equal; lia).
  assert (P : 0 < 2 ^ (e' + 200)) by (apply Z.pow_pos_nonneg; lia).
  assert (Q : 0 < 2 ^ 200) by (apply Z.pow_pos_nonneg; lia).
  change (2 ^ 53) with (2 * 2 ^ 52).
  set (u := 2 ^ (e' + 200)) in *. set (G := 2 ^ 200) in *.
  set (T := 2 ^ 52) in *.
  assert (HT : 0 < T) by (unfold T; apply Z.pow_pos_nonneg; lia).
  clearbody u G T g d.
  assert (Z.abs d * (2 * T) <= T * u * G).
  { replace (Z.abs d * (2 * T)) with (T * (2 * Z.abs d)) by ring.
    replace (T * u * G) with (T * (u * G)) by ring.
    apply Z.mul_le_mono_nonneg_l; lia. }
  assert (T * u * G <= Z.abs g * G).
  { apply Z.mul_le_mono_nonneg_r; lia. }
  lia.
Qed.

Lemma signed_abs s m : Z.abs (signed s m) = Z.pos m.
Proof. destruct s; reflexivity. Qed.

Lemma signed_xorb sx sy a b :
  signed (xorb sx sy) a * signed sy b = signed sx (a * b).
Proof. destruct sx, sy; cbn [xorb signed]; lia. Qed.

(** The rounded quotient of two floats, whatever the width of their
    mantissas, is within [2^-53] of the quotient, relative to the result. *)
Lemma grid_div_rel sx mx ex sy my ey :
  let c := 53 - Z.pos (digits2_pos mx) + Z.pos (digits2_pos my) in
  let e0 := ex - ey - c in
  let x := S754_finite sx mx ex in
  let y := S754_finite sy my ey in
  0 <= c -> -200 <= e0 -> -200 <= ex -> -200 <= ey -> e0 + 2 <= 971 ->
  exists m' e',
    div x y = S754_finite (xorb sx sy) m' e'
    /\ Z.pos (digits2_pos m') = 53 /\ e0 <= e' <= e0 + 2
    /\ Z.abs (grid (div x y) * grid y - grid x * 2 ^ 200) * 2 ^ 53
       <= Z.abs (grid (div x y) * grid y).
Proof.
  intros c e0 x y Hc Hlo Lx Ly Hhi.
  destruct (div_finite sx mx ex sy my ey) as (m' & e' & Hr & Dm & Em & Hv);
    fold c e0; try lia.
  fold c e0 in Em, Hv. fold x y in Hr.
  exists m', e'. split; [exact Hr|]. split; [exact Dm|]. split; [exact Em|].
  assert (Ec : ex = e0 + ey + c) by (unfold e0; lia).
  clearbody e0. clearbody c.
  rewrite Hr. unfold x, y. rewrite !grid_finite.
  pose proof (digits_bounds m') as [Bl _]. rewrite Dm in Bl.
  change (2 ^ (53 - 1)) with (2 ^ 52) in Bl.
  assert (HK : 0 < 2 ^ (e0 + ey + 400)) by (apply Z.pow_pos_nonneg; lia).
  assert (HJ : 0 < 2 ^ (e' - e0)) by (apply Z.pow_pos_nonneg; lia).
  assert (HC : 0 < 2 ^ c) by (apply Z.pow_pos_nonneg; lia).
  assert (E1 : 2 ^ (e' + 200) * 2 ^ (ey + 200)
               = 2 ^ (e' - e0) * 2 ^ (e0 + ey + 400)).
  { rewrite <- !Z.pow_add_r by lia. f_equal. lia. }
  assert (E2 : 2 ^ (ex + 200) * 2 ^ 200 = 2 ^ c * 2 ^ (e0 + ey + 400)).
  { rewrite <- !Z.pow_add_r by lia. f_equal. lia. }
  replace (signed (xorb sx sy) m' * 2 ^ (e' + 200)
           * (signed sy my * 2 ^ (ey + 200)))
    with (signed (xorb sx sy) m' * signed sy my
          * (2 ^ (e' + 200) * 2 ^ (ey + 200))) by ring.
  replace (signed sx mx * 2 ^ (ex + 200) * 2 ^ 200)
    with (signed sx mx * (2 ^ (ex + 200) * 2 ^ 200)) by ring.
  rewrite E1, E2, signed_xorb.
  set (J := 2 ^ (e' - e0)) in *. set (K := 2 ^ (e0 + ey + 400)) in *.
  set (C := 2 ^ c) in *. clearbody J K C.
  replace (signed sx (m' * my) * (J * K) - signed sx mx * (C * K))
    with ((if sx then -1 else 1)
          * ((Z.pos m' * J * Z.pos my - Z.pos mx * C) * K))
    by (unfold signed; destruct sx;
        change (Z.neg ?p) with (- Z.pos p); rewrite ?Pos2Z.inj_mul; ring).
  rewrite (Z.abs_mul (signed sx (m' * my))), signed_abs.
  rewrite (Z.abs_eq (J * K)) by nia.
  rewrite Pos2Z.inj_mul.
  set (D := Z.pos m' * J * Z.pos my - Z.pos mx * C) in *.
  assert (HD : Z.abs ((if sx then -1 else 1) * (D * K)) = Z.abs D * K).
  { rewrite !Z.abs_mul, (Z.abs_eq K) by lia. destruct sx; cbn; lia. }
  rewrite HD.
  rewrite Z.abs_mul, (Z.abs_eq 2) in Hv by lia.
  change (2 ^ 53) with (2 * 2 ^ 52). change (2 ^ 52) with 4503599627370496 in *.
  set (Y := Z.pos my) in *. set (M := Z.pos m') in *.
  assert (HY : 0 < Y) by (unfold Y; lia).
  clearbody D Y M.
  assert (A1 : Z.abs D * 2 <= J * Y) by lia.
  assert (A2 : 4503599627370496 * (J * Y) <= M * (J * Y)).
  { apply Z.mul_le_mono_nonneg_r; nia. }
  assert (A3 : Z.abs D * K * (2 * 4503599627370496)
               = (Z.abs D * 2) * (4503599627370496 * K)) by ring.
  assert (A4 : M * Y * (J * K) = M * (J * Y) * K) by ring.
  rewrite A3, A4.
  assert (A5 : Z.abs D * 2 * (4503599627370496 * K)
               <= J * Y * (4503599627370496 * K)).
  { apply Z.mul_le_mono_nonneg_r; lia. }
  assert (A6 : J * Y * (4503599627370496 * K)
               = 4503599627370496 * (J * Y) * K) by ring.
  assert (A7 : 4503599627370496 * (J * Y) * K <= M * (J * Y) * K).
  { apply Z.mul_le_mono_nonneg_r; lia. }
  lia.
Qed.

(** ** The body mass index of integer inputs *)

(** Three relative errors of [2^-53] (the quotient [h / 100], its square
    and the quotient of the weight by it) move ten times the BMI by less
    than one half of the unit of the fraction [10^5 * w / h^2]. *)
Lemma abs_le_scaled x y U :
  2 <= U -> 0 <= y -> Z.abs (x - y) * U <= x -> x <= 2 * y.
Proof.
  intros HU Hy H.
  destruct (Z_le_gt_dec x y) as [Hle|Hgt]; [lia|].
  rewrite Z.abs_eq in H by lia.
  assert (2 * (x - y) <= (x - y) * U)
    by (rewrite (Z.mul_comm (x - y)); apply Z.mul_le_mono_nonneg_r; lia).
  lia.
Qed.

Lemma abs_le_scaled_r x y U :
  2 <= U -> 0 <= y -> Z.abs (y - x) * U <= y -> x <= 2 * y.
Proof.
  intros HU Hy H.
  destruct (Z_le_gt_dec x y) as [Hle|Hgt]; [lia|].
  rewrite Z.abs_neq in H by lia.
  assert (2 * (x - y) <= (x - y) * U)
    by (rewrite (Z.mul_comm (x - y)); apply Z.mul_le_mono_nonneg_r; lia).
  lia.
Qed.

Lemma bmi_arith w h gh gs gb :
  0 < w <= 2 ^ 20 -> 0 < h -> 0 < gh -> 0 < gs -> 0 < gb ->
  Z.abs (100 * gh - h * 2 ^ 200) * 2 ^ 53 <= 100 * gh ->
  Z.abs (gs * 2 ^ 200 - gh * gh) * 2 ^ 53 <= gs * 2 ^ 200 ->
  Z.abs (gb * gs - w * 2 ^ 200 * 2 ^ 200) * 2 ^ 53 <= gb * gs ->
  2 * Z.abs (10 * gb * (h * h) - 100000 * w * 2 ^ 200) < 2 ^ 200.
Proof.
  intros Hw Hh Hgh Hgs Hgb Ha Hb Hc.
  assert (HG : 0 < 2 ^ 200) by (apply Z.pow_pos_nonneg; lia).
  assert (HU : 28 * 100000 * 2 ^ 20 < 2 ^ 53) by reflexivity.
  change (2 ^ 20) with 1048576 in *.
  remember (2 ^ 200) as G eqn:EG. remember (2 ^ 53) as U eqn:EU.
  clear EG EU.
  assert (HU0 : 2 <= U) by lia.
  assert (HU1 : 0 <= U) by lia.
  assert (HUU : 0 <= U * U) by (apply Z.mul_nonneg_nonneg; lia).
  assert (Hp1 : 0 <= gb * gs) by (apply Z.mul_nonneg_nonneg; lia).
  assert (HY0 : 0 <= gh * gh) by (apply Z.mul_nonneg_nonneg; lia).
  assert (Hwg : 0 <= w * G * G)
    by (repeat apply Z.mul_nonneg_nonneg; lia).
  assert (HgsG : 0 <= gs * G) by (apply Z.mul_nonneg_nonneg; lia).
  assert (Hgg : 0 <= gb * gh) by (apply Z.mul_nonneg_nonneg; lia).
  assert (S1 : gb * gs <= 2 * (w * G * G))
    by (apply (abs_le_scaled _ _ U HU0 Hwg Hc)).
  assert (S2 : gh * gh <= 2 * (gs * G))
    by (apply (abs_le_scaled_r _ _ U HU0 HgsG Hb)).
  remember (100 * gh - h * G) as a eqn:Ea.
  remember (gs * G - gh * gh) as b0 eqn:Eb.
  remember (gb * gs - w * G * G) as c eqn:Ec.
  remember (10 * gb * (h * h) - 100000 * w * G) as T eqn:ET.
  assert (Hid : T * (G * G)
                = 100000 * G * c - 100000 * (gb * b0) - 2000 * (gb * gh * a)
                  + 10 * (gb * (a * a))).
  { subst T a b0 c. ring. }
  clear ET Ea Eb Ec.
  assert (Eaa : a * a = Z.abs a * Z.abs a).
  { rewrite <- Z.abs_mul. symmetry. apply Z.abs_eq. apply Z.square_nonneg. }
  assert (Tr : Z.abs (T * (G * G))
               <= 100000 * G * Z.abs c + 100000 * (gb * Z.abs b0)
                  + 2000 * (gb * gh * Z.abs a)
                  + 10 * (gb * (Z.abs a * Z.abs a))).
  { rewrite Hid, Eaa.
    assert (E1 : Z.abs (100000 * G * c) = 100000 * G * Z.abs c).
    { rewrite Z.abs_mul, (Z.abs_eq (100000 * G)); [reflexivity|].
      apply Z.mul_nonneg_nonneg; lia. }
    assert (E2 : Z.abs (100000 * (gb * b0)) = 100000 * (gb * Z.abs b0)).
    { rewrite !Z.abs_mul, (Z.abs_eq 100000), (Z.abs_eq gb) by lia.
      reflexivity. }
    assert (E3 : Z.abs (2000 * (gb * gh * a))
                 = 2000 * (gb * gh * Z.abs a)).
    { rewrite !Z.abs_mul, (Z.abs_eq 2000), (Z.abs_eq gb), (Z.abs_eq gh)
        by lia. reflexivity. }
    assert (E4 : 0 <= 10 * (gb * (Z.abs a * Z.abs a))).
    { apply Z.mul_nonneg_nonneg; [clear; lia|].
      apply Z.mul_nonneg_nonneg; [apply Z.lt_le_incl; assumption|].
      apply Z.mul_nonneg_nonneg; apply Z.abs_nonneg. }
    rewrite <- E1, <- E2, <- E3.
    clear - E4. lia. }
  clear Hid Eaa.
  remember (Z.abs a) as Aa eqn:EAa. remember (Z.abs b0) as Ab eqn:EAb.
  remember (Z.abs c) as Ac eqn:EAc. remember (Z.abs (T * (G * G))) as AT eqn:EAT.
  assert (HAa : 0 <= Aa) by (subst Aa; apply Z.abs_nonneg).
  assert (HAb : 0 <= Ab) by (subst Ab; apply Z.abs_nonneg).
  assert (HAc : 0 <= Ac) by (subst Ac; apply Z.abs_nonneg).
  clear EAa EAb EAc.
  (* each term, times U * U, against gb * gs * G * U *)
  assert (C1 : 100000 * G * Ac * (U * U) <= 100000 * (gb * gs * G) * U).
  { replace (100000 * G * Ac * (U * U))
      with (100000 * G * U * (Ac * U)) by ring.
    replace (100000 * (gb * gs * G) * U)
      with (100000 * G * U * (gb * gs)) by ring.
    apply Z.mul_le_mono_nonneg_l; [|exact Hc].
    repeat apply Z.mul_nonneg_nonneg; lia. }
  assert (C2 : 100000 * (gb * Ab) * (U * U) <= 100000 * (gb * gs * G) * U).
  { replace (100000 * (gb * Ab) * (U * U))
      with (100000 * gb * U * (Ab * U)) by ring.
    replace (100000 * (gb * gs * G) * U)
      with (100000 * gb * U * (gs * G)) by ring.
    apply Z.mul_le_mono_nonneg_l; [|exact Hb].
    repeat apply Z.mul_nonneg_nonneg; lia. }
  assert (C3 : 2000 * (gb * gh * Aa) * (U * U)
               <= 400000 * (gb * gs * G) * U).
  { replace (2000 * (gb * gh * Aa) * (U * U))
      with (2000 * gb * gh * U * (Aa * U)) by ring.
    apply (Z.le_trans _ (2000 * gb * gh * U * (100 * gh))).
    - apply Z.mul_le_mono_nonneg_l; [|exact Ha].
      repeat apply Z.mul_nonneg_nonneg; lia.
    - replace (2000 * gb * gh * U * (100 * gh))
        with (200000 * gb * U * (gh * gh)) by ring.
      replace (400000 * (gb * gs * G) * U)
        with (200000 * gb * U * (2 * (gs * G))) by ring.
      apply Z.mul_le_mono_nonneg_l; [|exact S2].
      repeat apply Z.mul_nonneg_nonneg; lia. }
  assert (C4 : 10 * (gb * (Aa * Aa)) * (U * U)
               <= 100000 * (gb * gs * G) * U).
  { replace (10 * (gb * (Aa * Aa)) * (U * U))
      with (10 * gb * (Aa * U * (Aa * U))) by ring.
    apply (Z.le_trans _ (10 * gb * (100 * gh * (100 * gh)))).
    - apply Z.mul_le_mono_nonneg_l; [lia|].
      apply Z.mul_le_mono_nonneg;
        [apply Z.mul_nonneg_nonneg; lia|exact Ha
        |apply Z.mul_nonneg_nonneg; lia|exact Ha].
    - apply (Z.le_trans _ (100000 * gb * (2 * (gs * G)))).
      + replace (10 * gb * (100 * gh * (100 * gh)))
          with (100000 * gb * (gh * gh)) by ring.
        apply Z.mul_le_mono_nonneg_l; [lia|exact S2].
      + replace (100000 * gb * (2 * (gs * G)))
          with (100000 * (gb * gs * G) * 2) by ring.
        apply Z.mul_le_mono_nonneg_l; [|exact HU0].
        repeat apply Z.mul_nonneg_nonneg; lia. }
  assert (F : AT * (U * U) <= 700000 * (gb * gs * G) * U).
  { apply (Z.le_trans _ ((100000 * G * Ac + 100000 * (gb * Ab)
                          + 2000 * (gb * gh * Aa)
                          + 10 * (gb * (Aa * Aa))) * (U * U))).
    - apply Z.mul_le_mono_nonneg_r; [exact HUU|exact Tr].
    - clear - C1 C2 C3 C4.
      remember (100000 * G * Ac * (U * U)) as x1.
      remember (100000 * (gb * Ab) * (U * U)) as x2.
      remember (2000 * (gb * gh * Aa) * (U * U)) as x3.
      remember (10 * (gb * (Aa * Aa)) * (U * U)) as x4.
      replace ((100000 * G * Ac + 100000 * (gb * Ab)
                + 2000 * (gb * gh * Aa) + 10 * (gb * (Aa * Aa))) * (U * U))
        with (x1 + x2 + x3 + x4) by (subst; ring).
      remember (gb * gs * G * U) as pgu eqn:Epgu.
      replace (100000 * (gb * gs * G) * U) with (100000 * pgu) in *
        by (subst pgu; ring).
      replace (400000 * (gb * gs * G) * U) with (400000 * pgu) in *
        by (subst pgu; ring).
      replace (700000 * (gb * gs * G) * U) with (700000 * pgu)
        by (subst pgu; ring).
      clear - C1 C2 C3 C4. lia. }
  assert (F2 : 700000 * (gb * gs * G) * U
               <= 700000 * (2 * (w * G * G) * G) * U).
  { apply Z.mul_le_mono_nonneg_r; [exact HU1|].
    apply Z.mul_le_mono_nonneg_l; [lia|].
    apply Z.mul_le_mono_nonneg_r; [lia|exact S1]. }
  assert (HGG : 0 < G * G) by (apply Z.mul_pos_pos; lia).
  assert (EATT : AT = Z.abs T * (G * G)).
  { subst AT. rewrite Z.abs_mul, (Z.abs_eq (G * G)); [reflexivity|lia]. }
  clear EAT Tr C1 C2 C3 C4 Ha Hb Hc S1 S2.
  remember (Z.abs T) as At eqn:EAt.
  assert (F3 : At * U <= 1400000 * w * G).
  { apply (Z.mul_le_mono_pos_r _ _ (G * G * U));
      [apply Z.mul_pos_pos; lia|].
    replace (At * U * (G * G * U)) with (At * (G * G) * (U * U)) by ring.
    replace (1400000 * w * G * (G * G * U))
      with (700000 * (2 * (w * G * G) * G) * U) by ring.
    rewrite <- EATT. exact (Z.le_trans _ _ _ F F2). }
  assert (F4 : 2800000 * w * G < U * G).
  { apply Z.mul_lt_mono_pos_r; [exact HG|]. clear - Hw HU. lia. }
  apply (Z.mul_lt_mono_pos_r U); [lia|].
  replace (2 * At * U) with (2 * (At * U)) by ring.
  replace (G * U) with (U * G) by ring.
  clear - F3 F4. lia.
Qed.

Lemma grid_raw (p : positive) :
  grid (S754_finite false p 0) = Z.pos p * 2 ^ 200.
Proof. rewrite grid_finite. reflexivity. Qed.

Lemma abs_mul_cancel x g U y :
  0 < g -> Z.abs (x * g) * U <= Z.abs (y * g) -> Z.abs x * U <= Z.abs y.
Proof.
  intros Hg H. rewrite !Z.abs_mul, (Z.abs_eq g) in H by lia.
  apply (Z.mul_le_mono_pos_r _ _ g); [exact Hg|].
  replace (Z.abs x * U * g) with (Z.abs x * g * U) by ring. exact H.
Qed.

(** The BMI of a positive integer weight and height: a positive float of
    53 bits below 2^52 whose tenfold lies within one half of the unit of
    [10^5 * w / h^2]. *)
Lemma calculate_bmi_integers w h :
  0 < w <= 2 ^ 20 -> 0 < h <= 2 ^ 20 ->
  exists m e,
    calculate_bmi (PyInt w) (PyInt h) = Ok (PyFloat (S754_finite false m e))
    /\ Z.pos (digits2_pos m) = 53 /\ -200 <= e <= -1
    /\ 2 * Z.abs (10 * grid (S754_finite false m e) * (h * h)
                  - 100000 * w * 2 ^ 200) < 2 ^ 200.
Proof.
  intros Hw Hh.
  assert (H21 : 2 ^ 20 < 2 ^ 21) by (apply Z.pow_lt_mono_r; lia).
  (* height / 100 *)
  destruct h as [|ph|ph]; try lia.
  assert (Dh : Z.pos (digits2_pos ph) <= 21) by (apply digits_lt; lia).
  assert (1 <= Z.pos (digits2_pos ph)) by lia.
  destruct (grid_div_rel false ph 0 false 100 0)
    as (mh & eh & Eh & Dmh & Eeh & Rh);
    change (Z.pos (digits2_pos 100)) with 7 in *; try lia.
  cbn [xorb] in Eh. rewrite Eh in Rh.
  rewrite (grid_raw 100), (grid_raw ph) in Rh.
  assert (Ra : Z.abs (100 * grid (S754_finite false mh eh)
                      - Z.pos ph * 2 ^ 200) * 2 ^ 53
               <= 100 * grid (S754_finite false mh eh)).
  { assert (HG : 0 < 2 ^ 200) by (apply Z.pow_pos_nonneg; lia).
    replace (grid (S754_finite false mh eh) * (100 * 2 ^ 200)
             - Z.pos ph * 2 ^ 200 * 2 ^ 200)
      with ((100 * grid (S754_finite false mh eh) - Z.pos ph * 2 ^ 200)
            * 2 ^ 200) in Rh by ring.
    replace (grid (S754_finite false mh eh) * (100 * 2 ^ 200))
      with (100 * grid (S754_finite false mh eh) * 2 ^ 200) in Rh by ring.
    apply abs_mul_cancel in Rh; [|exact HG].
    rewrite (Z.abs_eq (100 * _)) in Rh; [exact Rh|].
    rewrite grid_finite. cbn [signed].
    assert (0 < 2 ^ (eh + 200)) by (apply Z.pow_pos_nonneg; lia). lia. }
  (* its square *)
  pose proof (grid_mul_rel false mh eh false mh eh Dmh Dmh
                ltac:(lia) ltac:(lia) ltac:(lia) ltac:(lia)) as Rs.
  cbv zeta in Rs.
  destruct (mul_normal false mh eh false mh eh Dmh Dmh)
    as (ms & es & Es & Dms & Ees & _); try lia.
  cbn [xorb] in Es. rewrite Es in Rs.
  (* weight / square *)
  assert (Hw53 : Z.abs w < 2 ^ 53).
  { assert (2 ^ 20 < 2 ^ 53) by (apply Z.pow_lt_mono_r; lia). lia. }
  assert (Ew : exists mw ew,
             exact w 0 = S754_finite false mw ew
             /\ Z.pos (digits2_pos mw) = 53 /\ -52 <= ew <= -32).
  { rewrite exact_nonzero by lia.
    assert (Hq : Z.pos (Z.to_pos (Z.abs w)) < 2 ^ 53)
      by (rewrite Z2Pos.id; lia).
    destruct (canon_value _ Hq) as [_ Dg].
    assert (Dw : Z.pos (digits2_pos (Z.to_pos (Z.abs w))) <= 21).
    { apply digits_lt; [rewrite Z2Pos.id; lia|lia]. }
    assert (1 <= Z.pos (digits2_pos (Z.to_pos (Z.abs w)))) by lia.
    unfold canon. replace (w <? 0) with false
      by (symmetry; apply Z.ltb_ge; lia).
    eexists _, _. split; [reflexivity|]. split; [exact Dg|lia]. }
  destruct Ew as (mw & ew & Ew & Dmw & Eew).
  destruct (grid_div_rel false mw ew false ms es)
    as (mb & eb & Eb & Dmb & Eeb & Rb); rewrite ?Dmw, ?Dms; try lia.
  rewrite Dmw, Dms in Eeb.
  cbn [xorb] in Eb. rewrite Eb in Rb. rewrite <- Ew in Rb.
  rewrite grid_exact in Rb by lia. change (0 + 200) with 200 in Rb.
  exists mb, eb. split; [|split; [exact Dmb|split; [lia|]]].
  - unfold calculate_bmi, py_truediv.
    case_decide; [discriminate|].
    unfold of_ratio. change (raw_of_Z (Z.pos ph)) with (S754_finite false ph 0).
    change (raw_of_Z 100) with (S754_finite false 100 0).
    rewrite Eh. cbn [is_inf mbind result_bind].
    unfold py_square. rewrite Es. cbn [is_inf mbind result_bind to_float].
    rewrite float_of_int_exact
      by (assert (2 ^ 53 < 2 ^ 1023) by (apply Z.pow_lt_mono_r; lia); lia).
    cbn [mbind result_bind is_zero]. rewrite Ew, Eb. reflexivity.
  - set (gh := grid (S754_finite false mh eh)) in *.
    set (gs := grid (S754_finite false ms es)) in *.
    set (gb := grid (S754_finite false mb eb)) in *.
    assert (Pgh : 0 < gh).
    { unfold gh. rewrite grid_finite. cbn [signed].
      assert (0 < 2 ^ (eh + 200)) by (apply Z.pow_pos_nonneg; lia). lia. }
    assert (Pgs : 0 < gs).
    { unfold gs. rewrite grid_finite. cbn [signed].
      assert (0 < 2 ^ (es + 200)) by (apply Z.pow_pos_nonneg; lia). lia. }
    assert (Pgb : 0 < gb).
    { unfold gb. rewrite grid_finite. cbn [signed].
      assert (0 < 2 ^ (eb + 200)) by (apply Z.pow_pos_nonneg; lia). lia. }
    clearbody gh gs gb.
    assert (0 <= gb * gs) by (apply Z.mul_nonneg_nonneg; lia).
    apply (bmi_arith w (Z.pos ph) gh gs gb); try assumption; lia.
Qed.

Lemma round_decimal_tenths m e :
  Z.pos (digits2_pos m) = 53 -> -200 <= e <= -1 ->
  let k := round_half_even (10 * grid (S754_finite false m e)) (2 ^ 200) in
  round_decimal (S754_finite false m e) 1 = decimal k 1 /\ 0 <= k.
Proof.
  intros Dm He k.
  assert (P : 0 < 2 ^ (e + 200)) by (apply Z.pow_pos_nonneg; lia).
  assert (Q : 0 < 2 ^ (- e)) by (apply Z.pow_pos_nonneg; lia).
  assert (Ek : k = round_half_even (Z.pos m * 10) (2 ^ (- e))).
  { unfold k. rewrite grid_finite. cbn [signed].
    replace (2 ^ 200) with (2 ^ (- e) * 2 ^ (e + 200))
      by (rewrite <- Z.pow_add_r by lia; f_equal; lia).
    replace (10 * (Z.pos m * 2 ^ (e + 200)))
      with (Z.pos m * 10 * 2 ^ (e + 200)) by ring.
    apply round_half_even_scale; assumption. }
  assert (Hk : 0 <= k).
  { rewrite Ek.
    destruct (round_half_even_bounds (Z.pos m * 10) (2 ^ (- e)) Q)
      as [[Rl _] _].
    assert (0 <= Z.pos m * 10 / 2 ^ (- e)) by (apply Z.div_pos; lia). lia. }
  split; [|exact Hk].
  unfold round_decimal, scaled_num, scaled_den.
  rewrite (Z.max_r e 0), (Z.max_l (- e) 0) by lia.
  change (Z.max 1 0) with 1. change (Z.max (- (1)) 0) with 0.
  change (10 ^ 0) with 1. change (10 ^ 1) with 10.
  change (2 ^ 0) with 1. rewrite !Z.mul_1_r. rewrite <- Ek.
  clearbody k. destruct k as [|q|q]; [reflexivity|reflexivity|lia].
Qed.

(** X17. For a positive integer weight in kilograms and a positive integer
    height in centimetres of at most 2^20 the BMI of the result is one
    decimal [k / 10] (the float nearest to it), where [k] is an integer
    nearest to ten times the exact BMI [10^4 * w / h^2]: the three rounded
    operations behind it never show in the displayed number. *)
Theorem calculate_all_bmi_exact age gender w h activity_level goal
    weight_unit height_unit r :
  weight_unit <> "lbs" -> height_unit <> "ft" ->
  0 < w <= 2 ^ 20 -> 0 < h <= 2 ^ 20 ->
  calculate_all age gender (PyInt w) (PyInt h) activity_level goal
    weight_unit height_unit = Ok r ->
  exists k,
    bmi r = PyFloat (decimal k 1)
    /\ 0 <= k
    /\ Z.abs (2 * (k * (h * h) - 100000 * w)) <= h * h.
Proof.
  intros Hwu Hhu Hw Hh H.
  apply calculate_all_steps in H
    as (w_kg & h_cm & b & t & i & target & Ew & Eh & _ & _ & Ei & _ & _
        & _ & _ & _ & _ & _ & Ri & _ & _ & _ & _).
  rewrite convert_height_other in Eh by exact Hhu. injection Eh as <-.
  unfold convert_weight in Ew. case_decide; [contradiction|].
  injection Ew as <-.
  destruct (calculate_bmi_integers w h Hw Hh) as (m & e & Eb & Dm & He & Hb).
  rewrite Eb in Ei. injection Ei as <-.
  destruct (round_decimal_tenths m e Dm He) as [Er Hk].
  set (k := round_half_even (10 * grid (S754_finite false m e)) (2 ^ 200))
    in *.
  exists k. split; [|split; [exact Hk|]].
  - unfold py_round_to in Ri. cbn [is_nan is_inf orb] in Ri.
    repeat (case_decide; try lia). cbv zeta in Ri. rewrite Er in Ri.
    destruct (is_inf (decimal k 1)); [discriminate Ri|].
    injection Ri as <-. reflexivity.
  - unfold k. apply round_half_even_near;
      [apply Z.pow_pos_nonneg; lia|nia|exact Hb].
Qed.

Lemma calculate_all_bmi_exact_witness :
  exists r,
    ("kg" <> "lbs" /\ "cm" <> "ft")
    /\ (0 < 70 <= 2 ^ 20 /\ 0 < 175 <= 2 ^ 20)
    /\ calculate_all 25 "male" (PyInt 70) (PyInt 175) "sedentary" "lose"
         "kg" "cm" = Ok r
    /\ bmi r = PyFloat (decimal 229 1)
    /\ exists k,
         bmi r = PyFloat (decimal k 1)
         /\ 0 <= k
         /\ Z.abs (2 * (k * (175 * 175) - 100000 * 70)) <= 175 * 175.
Proof.
  eexists. split; [split; discriminate|].
  split; [split; split; (reflexivity || discriminate)|].
  split; [vm_compute; reflexivity|].
  split; [vm_compute; reflexivity|].
  refine (calculate_all_bmi_exact 25 "male" 70 175 "sedentary" "lose"
            "kg" "cm" _ _ _ _ _ _);
    [discriminate|discriminate|split; (reflexivity || discriminate)
    |split; (reflexivity || discriminate)|].
  vm_compute. reflexivity.
Defined.

(** ** The BMI label of integer inputs *)

Lemma py_lt_grid m e c :
  -200 <= e -> finite_like (to_raw c) = true -> -200 <= exponent (to_raw c) ->
  py_lt (PyFloat (S754_finite false m e)) c
  = (grid (S754_finite false m e) <? grid (to_raw c)).
Proof.
  intros He Fc Ec. unfold py_lt, ltb. cbn [to_raw].
  rewrite (compare_scaled _ _ (-200)) by (trivial; cbn [exponent]; lia).
  fold (grid (S754_finite false m e)). fold (grid (to_raw c)).
  unfold Z.ltb. destruct (_ ?= _); reflexivity.
Qed.

Lemma bmi_label_arith g H w T p q :
  0 < H -> 0 < T -> 0 < q <= 20 ->
  2 * Z.abs (10 * g * H - 100000 * w * T) < T ->
  (10000 * q * w < p * H -> q * g < p * T)
  /\ (p * H < 10000 * q * w -> p * T < q * g).
Proof.
  intros HH HT Hq Hb.
  set (D := 10 * g * H - 100000 * w * T) in *.
  assert (HD : - T < 2 * D < T) by lia.
  assert (U1 : q * (2 * D) < q * T) by (apply Z.mul_lt_mono_pos_l; lia).
  assert (U2 : q * (- T) < q * (2 * D)) by (apply Z.mul_lt_mono_pos_l; lia).
  assert (U3 : q * T <= 20 * T) by (apply Z.mul_le_mono_nonneg_r; lia).
  assert (ED : q * (2 * D) = 20 * (q * g * H) - 200000 * (q * w * T))
    by (unfold D; ring).
  clearbody D.
  split; intros C.
  - destruct (Z.lt_ge_cases (q * g) (p * T)) as [|G]; [assumption|exfalso].
    assert (G' : p * T * H <= q * g * H)
      by (apply Z.mul_le_mono_nonneg_r; lia).
    assert (C' : (10000 * q * w + 1) * T <= p * H * T)
      by (apply Z.mul_le_mono_nonneg_r; lia).
    replace ((10000 * q * w + 1) * T) with (10000 * (q * w * T) + T) in C'
      by ring.
    replace (p * H * T) with (p * T * H) in C' by ring.
    clear - G' C' U1 U3 ED HT. lia.
  - destruct (Z.lt_ge_cases (p * T) (q * g)) as [|G]; [assumption|exfalso].
    assert (G' : q * g * H <= p * T * H)
      by (apply Z.mul_le_mono_nonneg_r; lia).
    assert (C' : (p * H + 1) * T <= 10000 * q * w * T)
      by (apply Z.mul_le_mono_nonneg_r; lia).
    replace ((p * H + 1) * T) with (p * T * H + T) in C' by ring.
    replace (10000 * q * w * T) with (10000 * (q * w * T)) in C' by ring.
    replace (q * - T) with (- (q * T)) in U2 by ring.
    clear - G' C' U2 U3 ED HT. lia.
Qed.

Lemma get_bmi_category_integers w h i :
  0 < w <= 2 ^ 20 -> 0 < h <= 2 ^ 20 ->
  calculate_bmi (PyInt w) (PyInt h) = Ok i ->
  (20000 * w < 37 * (h * h) -> get_bmi_category i = "Underweight")
  /\ (37 * (h * h) < 20000 * w -> 10000 * w < 25 * (h * h) ->
      get_bmi_category i = "Normal")
  /\ (25 * (h * h) < 10000 * w -> 10000 * w < 30 * (h * h) ->
      get_bmi_category i = "Overweight")
  /\ (30 * (h * h) < 10000 * w -> get_bmi_category i = "Obese").
Proof.
  intros Hw Hh Ei.
  destruct (calculate_bmi_integers w h Hw Hh) as (m & e & Eb & Dm & He & Hb).
  rewrite Eb in Ei. injection Ei as <-.
  unfold get_bmi_category.
  rewrite !py_lt_grid by (try reflexivity; try discriminate; lia).
  set (g := grid (S754_finite false m e)) in *.
  assert (G1 : grid (to_raw (PyFloat (decimal 185 1))) = 37 * 2 ^ 199)
    by (vm_compute; reflexivity).
  assert (G2 : grid (to_raw (PyInt 25)) = 25 * 2 ^ 200)
    by (vm_compute; reflexivity).
  assert (G3 : grid (to_raw (PyInt 30)) = 30 * 2 ^ 200)
    by (vm_compute; reflexivity).
  rewrite G1, G2, G3. clear G1 G2 G3.
  assert (HH : 0 < h * h) by nia.
  assert (HT : 0 < 2 ^ 200) by (apply Z.pow_pos_nonneg; lia).
  assert (T2 : 2 ^ 200 = 2 * 2 ^ 199) by (vm_compute; reflexivity).
  destruct (bmi_label_arith g (h * h) w (2 ^ 200) 37 2 HH HT ltac:(lia) Hb)
    as [A1 A2].
  destruct (bmi_label_arith g (h * h) w (2 ^ 200) 25 1 HH HT ltac:(lia) Hb)
    as [B1 B2].
  destruct (bmi_label_arith g (h * h) w (2 ^ 200) 30 1 HH HT ltac:(lia) Hb)
    as [C1 C2].
  set (H2 := h * h) in *. set (T := 2 ^ 200) in *. set (T' := 2 ^ 199) in *.
  clearbody H2 T T' g.
  repeat split; intros;
    destruct (Z.ltb_spec g (37 * T')); destruct (Z.ltb_spec g (25 * T));
    destruct (Z.ltb_spec g (30 * T)); try reflexivity; exfalso; lia.
Qed.

(** X18. For a positive integer weight in kilograms and a positive integer
    height in centimetres of at most 2^20, the BMI label of the result is
    the one of the exact BMI [10^4 * w / h^2] whenever that number is not
    exactly 18.5, 25 or 30: the rounding of the three float operations never
    moves a BMI across a bracket limit. *)
Theorem calculate_all_bmi_label age gender w h activity_level goal
    weight_unit height_unit r :
  weight_unit <> "lbs" -> height_unit <> "ft" ->
  0 < w <= 2 ^ 20 -> 0 < h <= 2 ^ 20 ->
  calculate_all age gender (PyInt w) (PyInt h) activity_level goal
    weight_unit height_unit = Ok r ->
  (20000 * w < 37 * (h * h) -> bmi_category r = "Underweight")
  /\ (37 * (h * h) < 20000 * w -> 10000 * w < 25 * (h * h) ->
      bmi_category r = "Normal")
  /\ (25 * (h * h) < 10000 * w -> 10000 * w < 30 * (h * h) ->
      bmi_category r = "Overweight")
  /\ (30 * (h * h) < 10000 * w -> bmi_category r = "Obese").
Proof.
  intros Hwu Hhu Hw Hh H.
  apply calculate_all_steps in H
    as (w_kg & h_cm & b & t & i & target & Ew & Eh & _ & _ & Ei & _ & _
        & _ & _ & _ & _ & _ & _ & _ & _ & -> & _).
  rewrite convert_height_other in Eh by exact Hhu. injection Eh as <-.
  unfold convert_weight in Ew. case_decide; [contradiction|].
  injection Ew as <-.
  apply get_bmi_category_integers; assumption.
Qed.

Lemma calculate_all_bmi_label_witness :
  exists r,
    ("kg" <> "lbs" /\ "cm" <> "ft")
    /\ (0 < 85 <= 2 ^ 20 /\ 0 < 175 <= 2 ^ 20)
    /\ calculate_all 25 "male" (PyInt 85) (PyInt 175) "sedentary" "lose"
         "kg" "cm" = Ok r
    /\ (25 * (175 * 175) < 10000 * 85 /\ 10000 * 85 < 30 * (175 * 175))
    /\ bmi_category r = "Overweight".
Proof.
  eexists. split; [split; discriminate|].
  split; [split; split; (reflexivity || discriminate)|].
  split; [vm_compute; reflexivity|].
  split; [split; reflexivity|].
  refine (proj1 (proj2 (proj2
    (calculate_all_bmi_label 25 "male" 85 175 "sedentary" "lose"
       "kg" "cm" _ _ _ _ _ _))) _ _);
    [discriminate|discriminate|split; (reflexivity || discriminate)
    |split; (reflexivity || discriminate)|vm_compute; reflexivity
    |reflexivity|reflexivity].
Defined.

(** On a bracket limit the rounding does show: 64 kg at 160 cm is a BMI of
    exactly 25, the first 'Overweight' value, and the computed one lies just
    below it, so the label is 'Normal' beside a displayed BMI of 25.0. *)
Lemma bmi_label_on_limit :
  exists r,
    calculate_all 30 "female" (PyInt 64) (PyInt 160) "moderate" "maintain"
      "kg" "cm" = Ok r
    /\ 10000 * 64 = 25 * (160 * 160)
    /\ bmi r = PyFloat (decimal 250 1)
    /\ get_bmi_category (bmi r) = "Overweight"
    /\ bmi_category r = "Normal".
Proof.
  eexists. split; [vm_compute; reflexivity|].
  repeat split; vm_compute; reflexivity.
Qed.
